(** * Veritas marketplace contracts: a shallow embedding

    The Solidity contracts [VeritasSoulboundBadge], [ReputationEngine],
    [VeritasEscrow] and [VeritasCrossChainBridge] are embedded as pure
    functions over explicit contract storage.  One external call is one
    function application; a revert is the [Revert] branch of [result], which
    carries no storage, so a reverted call leaves the storage it started
    from.  [uint256] values are integers with Solidity 0.8 checked
    arithmetic written out.  Storage mappings are finite maps read with the
    Solidity default value for absent keys.  [emit] statements do not touch
    storage and are left out; the calls made to the payment token and to the
    CCIP router are returned as a list of effects. *)

From Stdlib Require Import ZArith Lia List String QArith.
From stdpp Require Import base option gmap strings.

Local Open Scope Z_scope.
Import ListNotations.

(** ** Machine types *)

Abbreviation address := Z (only parsing).
Abbreviation bytes32 := Z (only parsing).
Abbreviation uint256 := Z (only parsing).
Abbreviation uint64 := Z (only parsing).

Definition MAX_UINT256 : Z := 2 ^ 256 - 1.

(** Custom errors of the four contracts, the OpenZeppelin errors their
    modifiers and base contracts raise, and the compiler's panics. *)
Inductive Error : Type :=
  | InvalidTrade
  | InvalidStatus
  | Unauthorized
  | InvalidRating
  | TokenNotSupported
  | InsufficientAmount
  | DisputeWindowClosed
  | AlreadyRated
  | TradeNotExpired
  | InvalidTierThreshold
  | UnsupportedChain
  | InsufficientLiquidity
  | MessageAlreadyProcessed
  | InvalidMessageSource
  | SoulboundTokenNonTransferable
  | BadgeAlreadyExists (holder : address) (tier : Z)
  | InvalidTier
  | ZeroAddress
  | AccessControlUnauthorizedAccount (account : address)
  | EnforcedPause
  | ExpectedPause
  | ERC20InsufficientBalance
  | ERC20InsufficientAllowance
  | ERC20InvalidReceiver
  | ERC721InvalidSender
  | ERC721InvalidReceiver
  | InvalidRouter (router : address)
  | RequireFailed (reason : string)
  | AbiDecodeError
  | Panic.

Inductive result (A : Type) : Type :=
  | Ok (a : A)
  | Revert (e : Error).
Arguments Ok {A} a.
Arguments Revert {A} e.

Definition bind {A B : Type} (m : result A) (k : A -> result B) : result B :=
  match m with
  | Ok a => k a
  | Revert e => Revert e
  end.

Notation "'let!' x ':=' m 'in' k" := (bind m (fun x => k))
  (at level 10, x name, m at level 100, k at level 200).
Notation "'let!' ' p ':=' m 'in' k" := (bind m (fun x => match x with p => k end))
  (at level 10, p pattern, m at level 100, k at level 200).

(** [if (c) revert e;] *)
Definition revert_if (c : bool) (e : Error) : result unit :=
  if c then Revert e else Ok tt.

(** [require(c, reason);] *)
Definition require (c : bool) (reason : string) : result unit :=
  if c then Ok tt else Revert (RequireFailed reason).

(** Storage after a call: the new one on success, the old one on revert. *)
Definition commit {S : Type} (old : S) (r : result S) : S :=
  match r with
  | Ok s => s
  | Revert _ => old
  end.

(** Checked arithmetic of Solidity 0.8 on [uint256]. *)
Definition add256 (a b : uint256) : result uint256 :=
  if a + b <=? MAX_UINT256 then Ok (a + b) else Revert Panic.

Definition sub256 (a b : uint256) : result uint256 :=
  if b <=? a then Ok (a - b) else Revert Panic.

Definition mul256 (a b : uint256) : result uint256 :=
  if a * b <=? MAX_UINT256 then Ok (a * b) else Revert Panic.

Definition div256 (a b : uint256) : result uint256 :=
  if b =? 0 then Revert Panic else Ok (a / b).

(** The value an untouched storage slot reads as. *)
Class Zero (A : Type) : Type := zero : A.
Global Instance Z_Zero : Zero Z := 0.
Global Instance bool_Zero : Zero bool := false.
Global Instance string_Zero : Zero string := EmptyString.
Global Instance list_Zero {A : Type} : Zero (list A) := [].

(** Reading a [mapping(K => V)]. *)
Definition sload {K V : Type} `{Countable K} `{Zero V} (m : gmap K V) (k : K) : V :=
  default zero (m !! k).

Notation "m .[ k ]" := (sload m k) (at level 1, left associativity, format "m .[ k ]").

(** Call context: [msg.sender] and [block.timestamp]. *)
Record Ctx : Type := mkCtx {
  msg_sender : address;
  block_timestamp : uint256
}.

(** What the contracts take from their deployment and surroundings: the
    addresses the four contracts are deployed at, the two [keccak256]
    identifiers, and whether a badge recipient passes the ERC-721 receiver
    check of [_safeMint]. *)
Record Env : Type := mkEnv {
  badge_address : address;
  engine_address : address;
  escrow_address : address;
  bridge_address : address;
  keccak_trade : address -> address -> uint256 -> uint256 -> bytes32;
  keccak_sync : bytes32 -> uint64 -> address -> bytes32;
  onERC721Received_ok : address -> bool
}.

(** ** OpenZeppelin AccessControl *)

Inductive Role : Type :=
  | DEFAULT_ADMIN_ROLE
  | MINTER_ROLE
  | URI_SETTER_ROLE
  | ESCROW_ROLE
  | DISPUTE_RESOLVER_ROLE
  | CROSS_CHAIN_ROLE
  | PAUSER_ROLE
  | OPERATOR_ROLE.

Definition Role_to_nat (r : Role) : nat :=
  match r with
  | DEFAULT_ADMIN_ROLE => 0
  | MINTER_ROLE => 1
  | URI_SETTER_ROLE => 2
  | ESCROW_ROLE => 3
  | DISPUTE_RESOLVER_ROLE => 4
  | CROSS_CHAIN_ROLE => 5
  | PAUSER_ROLE => 6
  | OPERATOR_ROLE => 7
  end%nat.

Definition Role_of_nat (n : nat) : Role :=
  match n with
  | 0 => DEFAULT_ADMIN_ROLE
  | 1 => MINTER_ROLE
  | 2 => URI_SETTER_ROLE
  | 3 => ESCROW_ROLE
  | 4 => DISPUTE_RESOLVER_ROLE
  | 5 => CROSS_CHAIN_ROLE
  | 6 => PAUSER_ROLE
  | _ => OPERATOR_ROLE
  end%nat.

Global Instance Role_eq_dec : EqDecision Role.
Proof. solve_decision. Defined.

Global Instance Role_countable : Countable Role.
Proof.
  apply (inj_countable' Role_to_nat Role_of_nat).
  intros []; reflexivity.
Defined.

Module AccessControl.

(** [_roles[role].hasRole[account]] *)
Definition hasRole (rs : gmap (Role * address) bool) (role : Role) (account : address) : bool :=
  rs.[(role, account)].

(** The [onlyRole(role)] modifier. *)
Definition onlyRole (rs : gmap (Role * address) bool) (role : Role) (c : Ctx) : result unit :=
  revert_if (negb (hasRole rs role (msg_sender c)))
            (AccessControlUnauthorizedAccount (msg_sender c)).

Definition _grantRole (rs : gmap (Role * address) bool) (role : Role) (account : address)
  : gmap (Role * address) bool :=
  if hasRole rs role account then rs else <[(role, account) := true]> rs.

Definition _revokeRole (rs : gmap (Role * address) bool) (role : Role) (account : address)
  : gmap (Role * address) bool :=
  if hasRole rs role account then <[(role, account) := false]> rs else rs.

(** Every role is administered by [DEFAULT_ADMIN_ROLE]: none of the
    contracts calls [_setRoleAdmin]. *)
Definition grantRole (rs : gmap (Role * address) bool) (c : Ctx) (role : Role) (account : address)
  : result (gmap (Role * address) bool) :=
  let! _ := onlyRole rs DEFAULT_ADMIN_ROLE c in
  Ok (_grantRole rs role account).

Definition revokeRole (rs : gmap (Role * address) bool) (c : Ctx) (role : Role) (account : address)
  : result (gmap (Role * address) bool) :=
  let! _ := onlyRole rs DEFAULT_ADMIN_ROLE c in
  Ok (_revokeRole rs role account).

End AccessControl.

(** ** The payment asset

    An ERC-20 ledger with the standard balance and allowance rules, as
    reached through [SafeERC20]. *)
Module Token.

Record State : Type := mkState {
  balanceOf : gmap (address * address) uint256;          (* token, holder *)
  allowance : gmap (address * address * address) uint256 (* token, owner, spender *)
}.

Definition _transfer (tk : State) (token from to amount : Z) : result State :=
  let! _ := revert_if (to =? 0) ERC20InvalidReceiver in
  let! _ := revert_if ((balanceOf tk).[(token, from)] <? amount) ERC20InsufficientBalance in
  let b1 := <[(token, from) := (balanceOf tk).[(token, from)] - amount]> (balanceOf tk) in
  let b2 := <[(token, to) := b1.[(token, to)] + amount]> b1 in
  Ok {| balanceOf := b2; allowance := allowance tk |}.

(** [IERC20(token).safeTransfer(to, amount)] called by [holder]. *)
Definition safeTransfer (tk : State) (token holder to amount : Z) : result State :=
  _transfer tk token holder to amount.

(** [IERC20(token).safeTransferFrom(from, to, amount)] called by [spender]. *)
Definition safeTransferFrom (tk : State) (token spender from to amount : Z) : result State :=
  let a := (allowance tk).[(token, from, spender)] in
  let! _ := revert_if (a <? amount) ERC20InsufficientAllowance in
  let al := if a =? MAX_UINT256 then allowance tk
            else <[(token, from, spender) := a - amount]> (allowance tk) in
  _transfer {| balanceOf := balanceOf tk; allowance := al |} token from to amount.

(** [token.approve(spender, amount)] called by [owner]. *)
Definition approve (tk : State) (token owner spender amount : Z) : State :=
  {| balanceOf := balanceOf tk;
     allowance := <[(token, owner, spender) := amount]> (allowance tk) |}.

End Token.

(** Calls a contract makes to the outside, in program order. *)
Inductive CrossChainMessageType : Type :=
  | TokenTransfer
  | ReputationSync
  | BadgeRecognition.

Record CrossChainMessage : Type := mkCrossChainMessage {
  messageType : CrossChainMessageType;
  sender : address;
  recipient : address;
  amount : uint256;
  data : list uint256     (* the ABI words of [bytes data] *)
}.

Inductive Effect : Type :=
  | TransferOut (token to value : Z)        (* safeTransfer(to, value) *)
  | TransferIn (token from value : Z)       (* safeTransferFrom(from, this, value) *)
  | CcipSend (destinationChain : uint64) (receiver : address) (message : CrossChainMessage).


(** ** VeritasSoulboundBadge *)

Inductive BadgeTier : Type :=
  | TierNone
  | Bronze
  | Silver
  | Gold
  | Platinum
  | Diamond.

(** [uint8(tier)] *)
Definition tier_rank (t : BadgeTier) : Z :=
  match t with
  | TierNone => 0
  | Bronze => 1
  | Silver => 2
  | Gold => 3
  | Platinum => 4
  | Diamond => 5
  end.

Definition tier_of_nat (n : nat) : BadgeTier :=
  match n with
  | 0 => TierNone
  | 1 => Bronze
  | 2 => Silver
  | 3 => Gold
  | 4 => Platinum
  | _ => Diamond
  end%nat.

Global Instance BadgeTier_eq_dec : EqDecision BadgeTier.
Proof. solve_decision. Defined.

Global Instance BadgeTier_countable : Countable BadgeTier.
Proof.
  apply (inj_countable' (fun t => Z.to_nat (tier_rank t)) tier_of_nat).
  intros []; reflexivity.
Defined.

Global Instance BadgeTier_Zero : Zero BadgeTier := TierNone.

Module Badge.

Record BadgeMetadata : Type := mkBadgeMetadata {
  tier : BadgeTier;
  tradesAtMint : uint256;
  ratingAtMint : uint256;
  mintTimestamp : uint256;
  sourceChainId : uint64
}.

Record State : Type := mkState {
  _tokenIdCounter : uint256;
  badgeMetadata : gmap uint256 BadgeMetadata;
  userBadges : gmap (address * BadgeTier) uint256;
  userHighestTier : gmap address BadgeTier;
  _owners : gmap uint256 address;             (* ERC721 *)
  _balances : gmap address uint256;           (* ERC721 *)
  roles : gmap (Role * address) bool          (* AccessControl *)
}.

(** Storage left by the constructor, run by [deployer]. *)
Definition constructor (deployer : address) : State :=
  {| _tokenIdCounter := 0;
     badgeMetadata := ∅;
     userBadges := ∅;
     userHighestTier := ∅;
     _owners := ∅;
     _balances := ∅;
     roles := AccessControl._grantRole
                (AccessControl._grantRole
                   (AccessControl._grantRole ∅ DEFAULT_ADMIN_ROLE deployer)
                   MINTER_ROLE deployer)
                URI_SETTER_ROLE deployer |}.

(** The soulbound override of [_update] followed by the ERC721 base
    [_update], for the unauthenticated call that [_mint] makes. *)
Definition _update (b : State) (to tokenId : Z) : result (State * address) :=
  let from := (_owners b).[tokenId] in
  let! _ := revert_if (negb (from =? 0) && negb (to =? 0)) SoulboundTokenNonTransferable in
  let bal1 := if from =? 0 then _balances b
              else <[from := (_balances b).[from] - 1]> (_balances b) in
  let bal2 := if to =? 0 then bal1 else <[to := bal1.[to] + 1]> bal1 in
  Ok ({| _tokenIdCounter := _tokenIdCounter b;
         badgeMetadata := badgeMetadata b;
         userBadges := userBadges b;
         userHighestTier := userHighestTier b;
         _owners := <[tokenId := to]> (_owners b);
         _balances := bal2;
         roles := roles b |}, from).

(** ERC721 [_safeMint]: [_mint] and the receiver check. *)
Definition _safeMint (E : Env) (b : State) (to tokenId : Z) : result State :=
  let! _ := revert_if (to =? 0) ERC721InvalidReceiver in
  let! '(b1, previousOwner) := _update b to tokenId in
  let! _ := revert_if (negb (previousOwner =? 0)) ERC721InvalidSender in
  let! _ := revert_if (negb (onERC721Received_ok E to)) ERC721InvalidReceiver in
  Ok b1.

Definition mintBadge (E : Env) (b : State) (c : Ctx)
    (to : address) (tier : BadgeTier) (trades rating : uint256) (sourceChainId : uint64)
  : result (State * uint256) :=
  let! _ := AccessControl.onlyRole (roles b) MINTER_ROLE c in
  let! _ := revert_if (to =? 0) ZeroAddress in
  let! _ := revert_if (bool_decide (tier = TierNone)) InvalidTier in
  let! _ := revert_if (negb ((userBadges b).[(to, tier)] =? 0))
                      (BadgeAlreadyExists to (tier_rank tier)) in
  let! tokenId := add256 (_tokenIdCounter b) 1 in
  let meta := {| tier := tier;
                 tradesAtMint := trades;
                 ratingAtMint := rating;
                 mintTimestamp := block_timestamp c;
                 sourceChainId := sourceChainId |} in
  let highest :=
    if tier_rank (userHighestTier b).[to] <? tier_rank tier
    then <[to := tier]> (userHighestTier b)
    else userHighestTier b in
  let b1 := {| _tokenIdCounter := tokenId;
               badgeMetadata := <[tokenId := meta]> (badgeMetadata b);
               userBadges := <[(to, tier) := tokenId]> (userBadges b);
               userHighestTier := highest;
               _owners := _owners b;
               _balances := _balances b;
               roles := roles b |} in
  let! b2 := _safeMint E b1 to tokenId in
  Ok (b2, tokenId).

(** [this.mintBadge(...)] is an external call made by the badge contract
    itself, so [msg.sender] inside it is the badge contract. *)
Definition upgradeBadge (E : Env) (b : State) (c : Ctx)
    (holder : address) (newTier : BadgeTier) (trades rating : uint256) (sourceChainId : uint64)
  : result (State * uint256) :=
  let! _ := AccessControl.onlyRole (roles b) MINTER_ROLE c in
  let currentTier := (userHighestTier b).[holder] in
  let! _ := revert_if (tier_rank newTier <=? tier_rank currentTier) InvalidTier in
  mintBadge E b {| msg_sender := badge_address E; block_timestamp := block_timestamp c |}
            holder newTier trades rating sourceChainId.

Definition hasMinimumTier (b : State) (user : address) (minTier : BadgeTier) : bool :=
  tier_rank minTier <=? tier_rank (userHighestTier b).[user].

Definition set_roles (b : State) (rs : gmap (Role * address) bool) : State :=
  {| _tokenIdCounter := _tokenIdCounter b;
     badgeMetadata := badgeMetadata b;
     userBadges := userBadges b;
     userHighestTier := userHighestTier b;
     _owners := _owners b;
     _balances := _balances b;
     roles := rs |}.

End Badge.


(** ** ReputationEngine *)

Module Engine.

Record UserReputation : Type := mkUserReputation {
  totalTrades : uint256;
  successfulTrades : uint256;
  disputesWon : uint256;
  disputesLost : uint256;
  totalRatingPoints : uint256;
  ratingCount : uint256;
  lastTradeTimestamp : uint256;
  joinTimestamp : uint256;
  isActive : bool
}.

Global Instance UserReputation_Zero : Zero UserReputation :=
  {| totalTrades := 0; successfulTrades := 0; disputesWon := 0; disputesLost := 0;
     totalRatingPoints := 0; ratingCount := 0; lastTradeTimestamp := 0;
     joinTimestamp := 0; isActive := false |}.

Record TradeRecord : Type := mkTradeRecord {
  tradeId : bytes32;
  counterparty : address;
  amount : uint256;
  rating : uint256;
  timestamp : uint256;
  wasBuyer : bool
}.

Record TierThreshold : Type := mkTierThreshold {
  minTrades : uint256;
  minRating : uint256
}.

Global Instance TierThreshold_Zero : Zero TierThreshold :=
  {| minTrades := 0; minRating := 0 |}.

Record State : Type := mkState {
  chainId : uint64;
  userReputations : gmap address UserReputation;
  userTradeHistory : gmap address (list TradeRecord);
  tierThresholds : gmap BadgeTier TierThreshold;
  processedCrossChainUpdates : gmap bytes32 bool;
  roles : gmap (Role * address) bool
}.

Definition constructor (deployer : address) (_chainId : uint64) : State :=
  {| chainId := _chainId;
     userReputations := ∅;
     userTradeHistory := ∅;
     tierThresholds :=
       <[Diamond := mkTierThreshold 250 495]>
       (<[Platinum := mkTierThreshold 100 490]>
       (<[Gold := mkTierThreshold 50 480]>
       (<[Silver := mkTierThreshold 25 450]>
       (<[Bronze := mkTierThreshold 10 400]> ∅))));
     processedCrossChainUpdates := ∅;
     roles := AccessControl._grantRole ∅ DEFAULT_ADMIN_ROLE deployer |}.

Definition set_userReputations (e : State) (m : gmap address UserReputation) : State :=
  {| chainId := chainId e;
     userReputations := m;
     userTradeHistory := userTradeHistory e;
     tierThresholds := tierThresholds e;
     processedCrossChainUpdates := processedCrossChainUpdates e;
     roles := roles e |}.

Definition set_userTradeHistory (e : State) (m : gmap address (list TradeRecord)) : State :=
  {| chainId := chainId e;
     userReputations := userReputations e;
     userTradeHistory := m;
     tierThresholds := tierThresholds e;
     processedCrossChainUpdates := processedCrossChainUpdates e;
     roles := roles e |}.

Definition set_tierThresholds (e : State) (m : gmap BadgeTier TierThreshold) : State :=
  {| chainId := chainId e;
     userReputations := userReputations e;
     userTradeHistory := userTradeHistory e;
     tierThresholds := m;
     processedCrossChainUpdates := processedCrossChainUpdates e;
     roles := roles e |}.

Definition set_processedCrossChainUpdates (e : State) (m : gmap bytes32 bool) : State :=
  {| chainId := chainId e;
     userReputations := userReputations e;
     userTradeHistory := userTradeHistory e;
     tierThresholds := tierThresholds e;
     processedCrossChainUpdates := m;
     roles := roles e |}.

Definition set_roles (e : State) (rs : gmap (Role * address) bool) : State :=
  {| chainId := chainId e;
     userReputations := userReputations e;
     userTradeHistory := userTradeHistory e;
     tierThresholds := tierThresholds e;
     processedCrossChainUpdates := processedCrossChainUpdates e;
     roles := rs |}.

(** The struct both [registerUser] and [_ensureRegistered] store. *)
Definition fresh_reputation (now : uint256) : UserReputation :=
  {| totalTrades := 0; successfulTrades := 0; disputesWon := 0; disputesLost := 0;
     totalRatingPoints := 0; ratingCount := 0; lastTradeTimestamp := 0;
     joinTimestamp := now; isActive := true |}.

(** [registerUser] carries no modifier. *)
Definition registerUser (e : State) (c : Ctx) (user : address) : State :=
  if negb (isActive (userReputations e).[user])
  then set_userReputations e (<[user := fresh_reputation (block_timestamp c)]> (userReputations e))
  else e.

Definition _ensureRegistered (e : State) (c : Ctx) (user : address) : State :=
  if negb (isActive (userReputations e).[user])
  then set_userReputations e (<[user := fresh_reputation (block_timestamp c)]> (userReputations e))
  else e.

Definition _calculateAverageRating (e : State) (user : address) : uint256 :=
  let rep := (userReputations e).[user] in
  if ratingCount rep =? 0 then 0 else totalRatingPoints rep / ratingCount rep.

Definition _meetsThreshold (e : State) (tier : BadgeTier) (trades rating : uint256) : bool :=
  let threshold := (tierThresholds e).[tier] in
  (minTrades threshold <=? trades) && (minRating threshold <=? rating).

Definition _determineEligibleTier (e : State) (trades rating : uint256) : BadgeTier :=
  if _meetsThreshold e Diamond trades rating then Diamond
  else if _meetsThreshold e Platinum trades rating then Platinum
  else if _meetsThreshold e Gold trades rating then Gold
  else if _meetsThreshold e Silver trades rating then Silver
  else if _meetsThreshold e Bronze trades rating then Bronze
  else TierNone.

(** [for (uint i = 0; i < history.length - 1; i++) history[i] = history[i + 1];]
    with [n] iterations left, at index [i]. *)
Fixpoint shift_history (n i : nat) (history : list TradeRecord) : result (list TradeRecord) :=
  match n with
  | O => Ok history
  | S n' =>
      match history !! S i with
      | Some r => shift_history n' (S i) (<[i := r]> history)
      | None => Revert Panic
      end
  end.

Definition push_history (history : list TradeRecord) (r : TradeRecord) : result (list TradeRecord) :=
  let! kept :=
    if 100 <=? Z.of_nat (length history)
    then (let! shifted := shift_history (length history - 1) 0 history in
          Ok (removelast shifted))
    else Ok history in
  Ok (kept ++ [r]).

Definition _updateReputation (e : State) (c : Ctx)
    (user : address) (rating : uint256) (counterparty : address) (amount : uint256)
    (tradeId : bytes32) (wasBuyer : bool) : result State :=
  let rep := (userReputations e).[user] in
  let! total := add256 (totalTrades rep) 1 in
  let! successful := add256 (successfulTrades rep) 1 in
  let! points := add256 (totalRatingPoints rep) rating in
  let! count := add256 (ratingCount rep) 1 in
  let rep' := {| totalTrades := total;
                 successfulTrades := successful;
                 disputesWon := disputesWon rep;
                 disputesLost := disputesLost rep;
                 totalRatingPoints := points;
                 ratingCount := count;
                 lastTradeTimestamp := block_timestamp c;
                 joinTimestamp := joinTimestamp rep;
                 isActive := isActive rep |} in
  let! history :=
    push_history (userTradeHistory e).[user]
                 {| tradeId := tradeId; counterparty := counterparty; amount := amount;
                    rating := rating; timestamp := block_timestamp c; wasBuyer := wasBuyer |} in
  Ok (set_userTradeHistory
        (set_userReputations e (<[user := rep']> (userReputations e)))
        (<[user := history]> (userTradeHistory e))).

(** The [try soulboundBadge.mintBadge(...) {} catch {}] of
    [_checkAndMintBadge]: a reverted mint leaves the badge storage as it
    was and the caller goes on. *)
Definition _checkAndMintBadge (E : Env) (e : State) (b : Badge.State) (c : Ctx) (user : address)
  : Badge.State :=
  let rep := (userReputations e).[user] in
  let avgRating := _calculateAverageRating e user in
  let currentHighest := (Badge.userHighestTier b).[user] in
  let newTier := _determineEligibleTier e (successfulTrades rep) avgRating in
  if tier_rank currentHighest <? tier_rank newTier
  then match Badge.mintBadge E b
               {| msg_sender := engine_address E; block_timestamp := block_timestamp c |}
               user newTier (successfulTrades rep) avgRating (chainId e) with
       | Ok (b', _) => b'
       | Revert _ => b
       end
  else b.

Definition check_rating (r : uint256) : result unit :=
  revert_if ((r <? 100) || (500 <? r)) InvalidRating.

Definition recordTrade (E : Env) (e : State) (b : Badge.State) (c : Ctx)
    (tradeId : bytes32) (seller buyer : address) (amount sellerRating buyerRating : uint256)
  : result (State * Badge.State) :=
  let! _ := AccessControl.onlyRole (roles e) ESCROW_ROLE c in
  let! _ := check_rating sellerRating in
  let! _ := check_rating buyerRating in
  let e1 := _ensureRegistered e c seller in
  let e2 := _ensureRegistered e1 c buyer in
  let! e3 := _updateReputation e2 c seller sellerRating buyer amount tradeId false in
  let! e4 := _updateReputation e3 c buyer buyerRating seller amount tradeId true in
  let b1 := _checkAndMintBadge E e4 b c seller in
  let b2 := _checkAndMintBadge E e4 b1 c buyer in
  Ok (e4, b2).

Definition recordDisputeResolution (e : State) (c : Ctx)
    (tradeId : bytes32) (winner loser : address) : result State :=
  let! _ := AccessControl.onlyRole (roles e) DISPUTE_RESOLVER_ROLE c in
  let w := (userReputations e).[winner] in
  let! won := add256 (disputesWon w) 1 in
  let m1 := <[winner := {| totalTrades := totalTrades w;
                           successfulTrades := successfulTrades w;
                           disputesWon := won;
                           disputesLost := disputesLost w;
                           totalRatingPoints := totalRatingPoints w;
                           ratingCount := ratingCount w;
                           lastTradeTimestamp := lastTradeTimestamp w;
                           joinTimestamp := joinTimestamp w;
                           isActive := isActive w |}]> (userReputations e) in
  let l := m1.[loser] in
  let! lost := add256 (disputesLost l) 1 in
  let m2 := <[loser := {| totalTrades := totalTrades l;
                          successfulTrades := successfulTrades l;
                          disputesWon := disputesWon l;
                          disputesLost := lost;
                          totalRatingPoints := totalRatingPoints l;
                          ratingCount := ratingCount l;
                          lastTradeTimestamp := lastTradeTimestamp l;
                          joinTimestamp := joinTimestamp l;
                          isActive := isActive l |}]> m1 in
  Ok (set_userReputations e m2).

Definition syncCrossChainReputation (E : Env) (e : State) (b : Badge.State) (c : Ctx)
    (user : address) (sourceChain : uint64)
    (additionalTrades additionalRatingPoints additionalRatingCount : uint256)
    (syncId : bytes32) : result (State * Badge.State) :=
  let! _ := AccessControl.onlyRole (roles e) CROSS_CHAIN_ROLE c in
  if (processedCrossChainUpdates e).[syncId] then Ok (e, b)
  else
    let e1 := set_processedCrossChainUpdates e
                (<[syncId := true]> (processedCrossChainUpdates e)) in
    let e2 := _ensureRegistered e1 c user in
    let rep := (userReputations e2).[user] in
    let! total := add256 (totalTrades rep) additionalTrades in
    let! successful := add256 (successfulTrades rep) additionalTrades in
    let! points := add256 (totalRatingPoints rep) additionalRatingPoints in
    let! count := add256 (ratingCount rep) additionalRatingCount in
    let rep' := {| totalTrades := total;
                   successfulTrades := successful;
                   disputesWon := disputesWon rep;
                   disputesLost := disputesLost rep;
                   totalRatingPoints := points;
                   ratingCount := count;
                   lastTradeTimestamp := lastTradeTimestamp rep;
                   joinTimestamp := joinTimestamp rep;
                   isActive := isActive rep |} in
    let e3 := set_userReputations e2 (<[user := rep']> (userReputations e2)) in
    Ok (e3, _checkAndMintBadge E e3 b c user).

(** The seven values [getReputation] returns. *)
Record Reputation : Type := mkReputation {
  rep_totalTrades : uint256;
  rep_successfulTrades : uint256;
  rep_averageRating : uint256;
  rep_disputesWon : uint256;
  rep_disputesLost : uint256;
  rep_memberSince : uint256;
  rep_highestBadge : BadgeTier
}.

Definition getReputation (e : State) (b : Badge.State) (user : address) : Reputation :=
  let rep := (userReputations e).[user] in
  {| rep_totalTrades := totalTrades rep;
     rep_successfulTrades := successfulTrades rep;
     rep_averageRating := _calculateAverageRating e user;
     rep_disputesWon := disputesWon rep;
     rep_disputesLost := disputesLost rep;
     rep_memberSince := joinTimestamp rep;
     rep_highestBadge := (Badge.userHighestTier b).[user] |}.

Definition meetsThreshold (e : State) (user : address) (tier : BadgeTier) : bool :=
  _meetsThreshold e tier (successfulTrades (userReputations e).[user])
                  (_calculateAverageRating e user).

Definition updateTierThreshold (e : State) (c : Ctx)
    (tier : BadgeTier) (minTrades minRating : uint256) : result State :=
  let! _ := AccessControl.onlyRole (roles e) DEFAULT_ADMIN_ROLE c in
  let! _ := revert_if (bool_decide (tier = TierNone)) InvalidTierThreshold in
  Ok (set_tierThresholds e (<[tier := mkTierThreshold minTrades minRating]> (tierThresholds e))).

End Engine.


(** ** VeritasEscrow *)

Module Escrow.

Inductive TradeStatus : Type :=
  | StatusNone
  | Created
  | SellerAccepted
  | Delivered
  | Completed
  | Disputed
  | Resolved
  | Cancelled
  | Expired.

Global Instance TradeStatus_eq_dec : EqDecision TradeStatus.
Proof. solve_decision. Defined.

Record Trade : Type := mkTrade {
  tradeId : bytes32;
  buyer : address;
  seller : address;
  paymentToken : address;
  amount : uint256;
  platformFee : uint256;
  createdAt : uint256;
  expiresAt : uint256;
  deliveredAt : uint256;
  completedAt : uint256;
  status : TradeStatus;
  itemDescription : string;
  deliveryProof : string;
  buyerRating : uint256;      (* rating given by the buyer, 0 if not rated *)
  sellerRating : uint256      (* rating given by the seller, 0 if not rated *)
}.

Global Instance Trade_Zero : Zero Trade :=
  {| tradeId := 0; buyer := 0; seller := 0; paymentToken := 0; amount := 0;
     platformFee := 0; createdAt := 0; expiresAt := 0; deliveredAt := 0;
     completedAt := 0; status := StatusNone; itemDescription := EmptyString;
     deliveryProof := EmptyString; buyerRating := 0; sellerRating := 0 |}.

Record Dispute : Type := mkDispute {
  d_tradeId : bytes32;
  initiator : address;
  reason : string;
  buyerEvidence : string;
  sellerEvidence : string;
  winner : address;
  initiatedAt : uint256;
  resolvedAt : uint256;
  isResolved : bool
}.

Global Instance Dispute_Zero : Zero Dispute :=
  {| d_tradeId := 0; initiator := 0; reason := EmptyString;
     buyerEvidence := EmptyString; sellerEvidence := EmptyString; winner := 0;
     initiatedAt := 0; resolvedAt := 0; isResolved := false |}.

Record State : Type := mkState {
  feeRecipient : address;
  platformFeeRate : uint256;
  defaultExpiryDuration : uint256;
  disputeWindow : uint256;
  autoReleaseDelay : uint256;
  supportedTokens : gmap address bool;
  trades : gmap bytes32 Trade;
  disputes : gmap bytes32 Dispute;
  userTrades : gmap address (list bytes32);
  _tradeNonce : uint256;
  roles : gmap (Role * address) bool;   (* AccessControl *)
  _paused : bool                         (* Pausable *)
}.

Definition MAX_FEE_RATE : uint256 := 1000.
Definition BASIS_POINTS : uint256 := 10000.
Definition days : uint256 := 86400.

Definition constructor (deployer _feeRecipient : address) (_initialTokens : list address) : State :=
  {| feeRecipient := _feeRecipient;
     platformFeeRate := 250;
     defaultExpiryDuration := 7 * days;
     disputeWindow := 3 * days;
     autoReleaseDelay := 14 * days;
     supportedTokens := fold_left (fun m t => <[t := true]> m) _initialTokens ∅;
     trades := ∅;
     disputes := ∅;
     userTrades := ∅;
     _tradeNonce := 0;
     roles := AccessControl._grantRole
                (AccessControl._grantRole
                   (AccessControl._grantRole ∅ DEFAULT_ADMIN_ROLE deployer)
                   DISPUTE_RESOLVER_ROLE deployer)
                PAUSER_ROLE deployer;
     _paused := false |}.

(** *** Field updates *)

Definition set_status (t : Trade) (s : TradeStatus) : Trade :=
  {| tradeId := tradeId t; buyer := buyer t; seller := seller t;
     paymentToken := paymentToken t; amount := amount t; platformFee := platformFee t;
     createdAt := createdAt t; expiresAt := expiresAt t; deliveredAt := deliveredAt t;
     completedAt := completedAt t; status := s; itemDescription := itemDescription t;
     deliveryProof := deliveryProof t; buyerRating := buyerRating t;
     sellerRating := sellerRating t |}.

Definition set_deliveredAt (t : Trade) (v : uint256) : Trade :=
  {| tradeId := tradeId t; buyer := buyer t; seller := seller t;
     paymentToken := paymentToken t; amount := amount t; platformFee := platformFee t;
     createdAt := createdAt t; expiresAt := expiresAt t; deliveredAt := v;
     completedAt := completedAt t; status := status t; itemDescription := itemDescription t;
     deliveryProof := deliveryProof t; buyerRating := buyerRating t;
     sellerRating := sellerRating t |}.

Definition set_deliveryProof (t : Trade) (v : string) : Trade :=
  {| tradeId := tradeId t; buyer := buyer t; seller := seller t;
     paymentToken := paymentToken t; amount := amount t; platformFee := platformFee t;
     createdAt := createdAt t; expiresAt := expiresAt t; deliveredAt := deliveredAt t;
     completedAt := completedAt t; status := status t; itemDescription := itemDescription t;
     deliveryProof := v; buyerRating := buyerRating t;
     sellerRating := sellerRating t |}.

Definition set_completedAt (t : Trade) (v : uint256) : Trade :=
  {| tradeId := tradeId t; buyer := buyer t; seller := seller t;
     paymentToken := paymentToken t; amount := amount t; platformFee := platformFee t;
     createdAt := createdAt t; expiresAt := expiresAt t; deliveredAt := deliveredAt t;
     completedAt := v; status := status t; itemDescription := itemDescription t;
     deliveryProof := deliveryProof t; buyerRating := buyerRating t;
     sellerRating := sellerRating t |}.

Definition set_buyerRating (t : Trade) (v : uint256) : Trade :=
  {| tradeId := tradeId t; buyer := buyer t; seller := seller t;
     paymentToken := paymentToken t; amount := amount t; platformFee := platformFee t;
     createdAt := createdAt t; expiresAt := expiresAt t; deliveredAt := deliveredAt t;
     completedAt := completedAt t; status := status t; itemDescription := itemDescription t;
     deliveryProof := deliveryProof t; buyerRating := v;
     sellerRating := sellerRating t |}.

Definition set_sellerRating (t : Trade) (v : uint256) : Trade :=
  {| tradeId := tradeId t; buyer := buyer t; seller := seller t;
     paymentToken := paymentToken t; amount := amount t; platformFee := platformFee t;
     createdAt := createdAt t; expiresAt := expiresAt t; deliveredAt := deliveredAt t;
     completedAt := completedAt t; status := status t; itemDescription := itemDescription t;
     deliveryProof := deliveryProof t; buyerRating := buyerRating t;
     sellerRating := v |}.

Definition set_buyerEvidence (d : Dispute) (v : string) : Dispute :=
  {| d_tradeId := d_tradeId d; initiator := initiator d; reason := reason d;
     buyerEvidence := v; sellerEvidence := sellerEvidence d; winner := winner d;
     initiatedAt := initiatedAt d; resolvedAt := resolvedAt d; isResolved := isResolved d |}.

Definition set_sellerEvidence (d : Dispute) (v : string) : Dispute :=
  {| d_tradeId := d_tradeId d; initiator := initiator d; reason := reason d;
     buyerEvidence := buyerEvidence d; sellerEvidence := v; winner := winner d;
     initiatedAt := initiatedAt d; resolvedAt := resolvedAt d; isResolved := isResolved d |}.

Definition set_resolution (d : Dispute) (w : address) (now : uint256) : Dispute :=
  {| d_tradeId := d_tradeId d; initiator := initiator d; reason := reason d;
     buyerEvidence := buyerEvidence d; sellerEvidence := sellerEvidence d; winner := w;
     initiatedAt := initiatedAt d; resolvedAt := now; isResolved := true |}.

Definition set_trades (x : State) (m : gmap bytes32 Trade) : State :=
  {| feeRecipient := feeRecipient x; platformFeeRate := platformFeeRate x;
     defaultExpiryDuration := defaultExpiryDuration x; disputeWindow := disputeWindow x;
     autoReleaseDelay := autoReleaseDelay x; supportedTokens := supportedTokens x;
     trades := m; disputes := disputes x; userTrades := userTrades x;
     _tradeNonce := _tradeNonce x; roles := roles x; _paused := _paused x |}.

Definition set_disputes (x : State) (m : gmap bytes32 Dispute) : State :=
  {| feeRecipient := feeRecipient x; platformFeeRate := platformFeeRate x;
     defaultExpiryDuration := defaultExpiryDuration x; disputeWindow := disputeWindow x;
     autoReleaseDelay := autoReleaseDelay x; supportedTokens := supportedTokens x;
     trades := trades x; disputes := m; userTrades := userTrades x;
     _tradeNonce := _tradeNonce x; roles := roles x; _paused := _paused x |}.

Definition set_userTrades (x : State) (m : gmap address (list bytes32)) (nonce : uint256) : State :=
  {| feeRecipient := feeRecipient x; platformFeeRate := platformFeeRate x;
     defaultExpiryDuration := defaultExpiryDuration x; disputeWindow := disputeWindow x;
     autoReleaseDelay := autoReleaseDelay x; supportedTokens := supportedTokens x;
     trades := trades x; disputes := disputes x; userTrades := m;
     _tradeNonce := nonce; roles := roles x; _paused := _paused x |}.

(** The administrator's settings, all five at once. *)
Definition set_config (x : State) (recipient rate window delay : Z)
    (tokens : gmap address bool) : State :=
  {| feeRecipient := recipient; platformFeeRate := rate;
     defaultExpiryDuration := defaultExpiryDuration x; disputeWindow := window;
     autoReleaseDelay := delay; supportedTokens := tokens;
     trades := trades x; disputes := disputes x; userTrades := userTrades x;
     _tradeNonce := _tradeNonce x; roles := roles x; _paused := _paused x |}.

Definition set_roles (x : State) (rs : gmap (Role * address) bool) : State :=
  {| feeRecipient := feeRecipient x; platformFeeRate := platformFeeRate x;
     defaultExpiryDuration := defaultExpiryDuration x; disputeWindow := disputeWindow x;
     autoReleaseDelay := autoReleaseDelay x; supportedTokens := supportedTokens x;
     trades := trades x; disputes := disputes x; userTrades := userTrades x;
     _tradeNonce := _tradeNonce x; roles := rs; _paused := _paused x |}.

Definition set_paused (x : State) (p : bool) : State :=
  {| feeRecipient := feeRecipient x; platformFeeRate := platformFeeRate x;
     defaultExpiryDuration := defaultExpiryDuration x; disputeWindow := disputeWindow x;
     autoReleaseDelay := autoReleaseDelay x; supportedTokens := supportedTokens x;
     trades := trades x; disputes := disputes x; userTrades := userTrades x;
     _tradeNonce := _tradeNonce x; roles := roles x; _paused := p |}.

(** [trade.status != s] *)
Definition status_is_not (t : Trade) (s : TradeStatus) : bool :=
  negb (bool_decide (status t = s)).

(** The context of a call the escrow makes to another contract. *)
Definition as_escrow (E : Env) (c : Ctx) : Ctx :=
  {| msg_sender := escrow_address E; block_timestamp := block_timestamp c |}.

(** [(amount * platformFeeRate) / BASIS_POINTS] *)
Definition calculateFee (x : State) (amount : uint256) : result uint256 :=
  let! product := mul256 amount (platformFeeRate x) in
  div256 product BASIS_POINTS.

(** *** Trade creation *)

Definition createTrade (E : Env) (x : State) (tk : Token.State) (en : Engine.State) (c : Ctx)
    (seller_ paymentToken_ amount_ : Z) (itemDescription_ : string) (expiryDuration : uint256)
  : result (State * Token.State * Engine.State * bytes32 * list Effect) :=
  let! _ := revert_if (_paused x) EnforcedPause in
  let! _ := revert_if (negb (supportedTokens x).[paymentToken_]) TokenNotSupported in
  let! _ := revert_if (amount_ =? 0) InsufficientAmount in
  let! _ := revert_if ((seller_ =? 0) || (seller_ =? msg_sender c)) InvalidTrade in
  let id := keccak_trade E (msg_sender c) seller_ (block_timestamp c) (_tradeNonce x) in
  let! nonce := add256 (_tradeNonce x) 1 in
  let! fee := calculateFee x amount_ in
  let! expiry := add256 (block_timestamp c)
                        (if 0 <? expiryDuration then expiryDuration
                         else defaultExpiryDuration x) in
  let trade := {| tradeId := id;
                  buyer := msg_sender c;
                  seller := seller_;
                  paymentToken := paymentToken_;
                  amount := amount_;
                  platformFee := fee;
                  createdAt := block_timestamp c;
                  expiresAt := expiry;
                  deliveredAt := 0;
                  completedAt := 0;
                  status := Created;
                  itemDescription := itemDescription_;
                  deliveryProof := EmptyString;
                  buyerRating := 0;
                  sellerRating := 0 |} in
  let ut1 := <[msg_sender c := (userTrades x).[msg_sender c] ++ [id]]> (userTrades x) in
  let ut2 := <[seller_ := ut1.[seller_] ++ [id]]> ut1 in
  let x1 := set_userTrades (set_trades x (<[id := trade]> (trades x))) ut2 nonce in
  let! tk1 := Token.safeTransferFrom tk paymentToken_ (escrow_address E)
                                     (msg_sender c) (escrow_address E) amount_ in
  let en1 := Engine.registerUser en (as_escrow E c) (msg_sender c) in
  let en2 := Engine.registerUser en1 (as_escrow E c) seller_ in
  Ok (x1, tk1, en2, id, [TransferIn paymentToken_ (msg_sender c) amount_]).

(** *** Trade actions *)

Definition acceptTrade (x : State) (c : Ctx) (id : bytes32) : result State :=
  let trade := (trades x).[id] in
  let! _ := revert_if (status_is_not trade Created) InvalidStatus in
  let! _ := revert_if (negb (msg_sender c =? seller trade)) Unauthorized in
  let! _ := revert_if (expiresAt trade <? block_timestamp c) InvalidTrade in
  Ok (set_trades x (<[id := set_status trade SellerAccepted]> (trades x))).

Definition markDelivered (x : State) (c : Ctx) (id : bytes32) (proof : string) : result State :=
  let trade := (trades x).[id] in
  let! _ := revert_if (status_is_not trade SellerAccepted) InvalidStatus in
  let! _ := revert_if (negb (msg_sender c =? seller trade)) Unauthorized in
  let trade1 := set_deliveryProof
                  (set_deliveredAt (set_status trade Delivered) (block_timestamp c)) proof in
  Ok (set_trades x (<[id := trade1]> (trades x))).

(** The two transfers that release a completed trade. *)
Definition release (E : Env) (x : State) (tk : Token.State) (trade : Trade)
  : result (Token.State * list Effect) :=
  let! sellerAmount := sub256 (amount trade) (platformFee trade) in
  let! tk1 := Token.safeTransfer tk (paymentToken trade) (escrow_address E)
                                 (seller trade) sellerAmount in
  let! tk2 := Token.safeTransfer tk1 (paymentToken trade) (escrow_address E)
                                 (feeRecipient x) (platformFee trade) in
  Ok (tk2, [TransferOut (paymentToken trade) (seller trade) sellerAmount;
            TransferOut (paymentToken trade) (feeRecipient x) (platformFee trade)]).

Definition confirmDelivery (E : Env) (x : State) (tk : Token.State) (c : Ctx)
    (id : bytes32) (sellerRating_ : uint256)
  : result (State * Token.State * list Effect) :=
  let trade := (trades x).[id] in
  let! _ := revert_if (status_is_not trade Delivered) InvalidStatus in
  let! _ := revert_if (negb (msg_sender c =? buyer trade)) Unauthorized in
  let! _ := revert_if ((sellerRating_ <? 100) || (500 <? sellerRating_)) InvalidRating in
  let trade1 := set_buyerRating
                  (set_completedAt (set_status trade Completed) (block_timestamp c))
                  sellerRating_ in
  let x1 := set_trades x (<[id := trade1]> (trades x)) in
  let! '(tk1, effects) := release E x1 tk trade1 in
  Ok (x1, tk1, effects).

Definition rateBuyer (E : Env) (x : State) (en : Engine.State) (b : Badge.State) (c : Ctx)
    (id : bytes32) (buyerRating_ : uint256)
  : result (State * Engine.State * Badge.State) :=
  let trade := (trades x).[id] in
  let! _ := revert_if (status_is_not trade Completed) InvalidStatus in
  let! _ := revert_if (negb (msg_sender c =? seller trade)) Unauthorized in
  let! _ := revert_if ((buyerRating_ <? 100) || (500 <? buyerRating_)) InvalidRating in
  let! _ := revert_if (negb (sellerRating trade =? 0)) AlreadyRated in
  let trade1 := set_sellerRating trade buyerRating_ in
  let x1 := set_trades x (<[id := trade1]> (trades x)) in
  if negb (buyerRating trade1 =? 0)
  then
    let! '(en1, b1) := Engine.recordTrade E en b (as_escrow E c) id
                         (seller trade1) (buyer trade1) (amount trade1)
                         (buyerRating trade1) (sellerRating trade1) in
    Ok (x1, en1, b1)
  else Ok (x1, en, b).

Definition cancelTrade (E : Env) (x : State) (tk : Token.State) (c : Ctx) (id : bytes32)
  : result (State * Token.State * list Effect) :=
  let trade := (trades x).[id] in
  let! _ := revert_if (negb (msg_sender c =? buyer trade)) Unauthorized in
  let! _ := revert_if (status_is_not trade Created) InvalidStatus in
  let x1 := set_trades x (<[id := set_status trade Cancelled]> (trades x)) in
  let! tk1 := Token.safeTransfer tk (paymentToken trade) (escrow_address E)
                                 (buyer trade) (amount trade) in
  Ok (x1, tk1, [TransferOut (paymentToken trade) (buyer trade) (amount trade)]).

Definition claimExpiredTrade (E : Env) (x : State) (tk : Token.State) (c : Ctx) (id : bytes32)
  : result (State * Token.State * list Effect) :=
  let trade := (trades x).[id] in
  let! _ := revert_if (status_is_not trade Created && status_is_not trade SellerAccepted)
                      InvalidStatus in
  let! _ := revert_if (block_timestamp c <=? expiresAt trade) TradeNotExpired in
  let x1 := set_trades x (<[id := set_status trade Expired]> (trades x)) in
  let! tk1 := Token.safeTransfer tk (paymentToken trade) (escrow_address E)
                                 (buyer trade) (amount trade) in
  Ok (x1, tk1, [TransferOut (paymentToken trade) (buyer trade) (amount trade)]).

Definition autoRelease (E : Env) (x : State) (tk : Token.State) (c : Ctx) (id : bytes32)
  : result (State * Token.State * list Effect) :=
  let trade := (trades x).[id] in
  let! _ := revert_if (status_is_not trade Delivered) InvalidStatus in
  let! releaseAt := add256 (deliveredAt trade) (autoReleaseDelay x) in
  let! _ := revert_if (block_timestamp c <? releaseAt) InvalidTrade in
  let trade1 := set_buyerRating
                  (set_completedAt (set_status trade Completed) (block_timestamp c))
                  500 in
  let x1 := set_trades x (<[id := trade1]> (trades x)) in
  let! '(tk1, effects) := release E x1 tk trade1 in
  Ok (x1, tk1, effects).

(** *** Disputes *)

Definition raiseDispute (x : State) (c : Ctx) (id : bytes32) (reason_ evidence : string)
  : result State :=
  let trade := (trades x).[id] in
  let! _ := revert_if (status_is_not trade Delivered) InvalidStatus in
  let! _ := revert_if (negb (msg_sender c =? buyer trade) && negb (msg_sender c =? seller trade))
                      Unauthorized in
  let! closesAt := add256 (deliveredAt trade) (disputeWindow x) in
  let! _ := revert_if (closesAt <? block_timestamp c) DisputeWindowClosed in
  let x1 := set_trades x (<[id := set_status trade Disputed]> (trades x)) in
  let dispute := {| d_tradeId := id;
                    initiator := msg_sender c;
                    reason := reason_;
                    buyerEvidence := if msg_sender c =? buyer trade then evidence
                                     else EmptyString;
                    sellerEvidence := if msg_sender c =? seller trade then evidence
                                      else EmptyString;
                    winner := 0;
                    initiatedAt := block_timestamp c;
                    resolvedAt := 0;
                    isResolved := false |} in
  Ok (set_disputes x1 (<[id := dispute]> (disputes x1))).

Definition submitEvidence (x : State) (c : Ctx) (id : bytes32) (evidence : string)
  : result State :=
  let trade := (trades x).[id] in
  let dispute := (disputes x).[id] in
  let! _ := revert_if (status_is_not trade Disputed) InvalidStatus in
  let! _ := revert_if (negb (msg_sender c =? buyer trade) && negb (msg_sender c =? seller trade))
                      Unauthorized in
  let dispute1 := if msg_sender c =? buyer trade
                  then set_buyerEvidence dispute evidence
                  else set_sellerEvidence dispute evidence in
  Ok (set_disputes x (<[id := dispute1]> (disputes x))).

Definition resolveDispute (E : Env) (x : State) (tk : Token.State) (en : Engine.State) (c : Ctx)
    (id : bytes32) (winner_ : address)
  : result (State * Token.State * Engine.State * list Effect) :=
  let! _ := AccessControl.onlyRole (roles x) DISPUTE_RESOLVER_ROLE c in
  let trade := (trades x).[id] in
  let dispute := (disputes x).[id] in
  let! _ := revert_if (status_is_not trade Disputed) InvalidStatus in
  let! _ := revert_if (negb (winner_ =? buyer trade) && negb (winner_ =? seller trade))
                      InvalidTrade in
  let x1 := set_disputes
              (set_trades x (<[id := set_status trade Resolved]> (trades x)))
              (<[id := set_resolution dispute winner_ (block_timestamp c)]> (disputes x)) in
  let! winnerAmount := if winner_ =? seller trade
                       then sub256 (amount trade) (platformFee trade)
                       else Ok (amount trade) in
  let! tk1 := Token.safeTransfer tk (paymentToken trade) (escrow_address E)
                                 winner_ winnerAmount in
  let! '(tk2, fees) :=
    if winner_ =? seller trade
    then (let! t := Token.safeTransfer tk1 (paymentToken trade) (escrow_address E)
                                       (feeRecipient x) (platformFee trade) in
          Ok (t, [TransferOut (paymentToken trade) (feeRecipient x) (platformFee trade)]))
    else Ok (tk1, []) in
  let loser := if winner_ =? buyer trade then seller trade else buyer trade in
  let! en1 := Engine.recordDisputeResolution en (as_escrow E c) id winner_ loser in
  Ok (x1, tk2, en1, TransferOut (paymentToken trade) winner_ winnerAmount :: fees).

(** *** Administration *)

Definition only_admin (x : State) (c : Ctx) : result unit :=
  AccessControl.onlyRole (roles x) DEFAULT_ADMIN_ROLE c.

Definition addSupportedToken (x : State) (c : Ctx) (token : address) : result State :=
  let! _ := only_admin x c in
  Ok (set_config x (feeRecipient x) (platformFeeRate x) (disputeWindow x) (autoReleaseDelay x)
                 (<[token := true]> (supportedTokens x))).

Definition removeSupportedToken (x : State) (c : Ctx) (token : address) : result State :=
  let! _ := only_admin x c in
  Ok (set_config x (feeRecipient x) (platformFeeRate x) (disputeWindow x) (autoReleaseDelay x)
                 (<[token := false]> (supportedTokens x))).

Definition updateFeeRate (x : State) (c : Ctx) (newFeeRate : uint256) : result State :=
  let! _ := only_admin x c in
  let! _ := require (newFeeRate <=? MAX_FEE_RATE) "Fee too high" in
  Ok (set_config x (feeRecipient x) newFeeRate (disputeWindow x) (autoReleaseDelay x)
                 (supportedTokens x)).

Definition updateFeeRecipient (x : State) (c : Ctx) (newRecipient : address) : result State :=
  let! _ := only_admin x c in
  Ok (set_config x newRecipient (platformFeeRate x) (disputeWindow x) (autoReleaseDelay x)
                 (supportedTokens x)).

Definition updateDisputeWindow (x : State) (c : Ctx) (newWindow : uint256) : result State :=
  let! _ := only_admin x c in
  Ok (set_config x (feeRecipient x) (platformFeeRate x) newWindow (autoReleaseDelay x)
                 (supportedTokens x)).

Definition updateAutoReleaseDelay (x : State) (c : Ctx) (newDelay : uint256) : result State :=
  let! _ := only_admin x c in
  Ok (set_config x (feeRecipient x) (platformFeeRate x) (disputeWindow x) newDelay
                 (supportedTokens x)).

Definition pause (x : State) (c : Ctx) : result State :=
  let! _ := AccessControl.onlyRole (roles x) PAUSER_ROLE c in
  let! _ := revert_if (_paused x) EnforcedPause in
  Ok (set_paused x true).

Definition unpause (x : State) (c : Ctx) : result State :=
  let! _ := AccessControl.onlyRole (roles x) PAUSER_ROLE c in
  let! _ := revert_if (negb (_paused x)) ExpectedPause in
  Ok (set_paused x false).

End Escrow.


(** ** VeritasCrossChainBridge

    The reputation path and the inbound dispatch; the router is outside, so
    what it answers to [getFee] and [ccipSend] comes in with the call. *)

Module Bridge.

Record ChainConfig : Type := mkChainConfig {
  chainSelector : uint64;
  bridgeContract : address;
  cfg_usdcToken : address;
  isActive : bool
}.

Global Instance ChainConfig_Zero : Zero ChainConfig :=
  {| chainSelector := 0; bridgeContract := 0; cfg_usdcToken := 0; isActive := false |}.

Record PendingTransfer : Type := mkPendingTransfer {
  pt_sender : address;
  pt_recipient : address;
  pt_amount : uint256;
  destinationChain : uint64;
  pt_timestamp : uint256;
  isProcessed : bool
}.

Record State : Type := mkState {
  i_ccipRouter : address;
  linkToken : address;
  usdcToken : address;
  currentChainSelector : uint64;
  chainConfigs : gmap uint64 ChainConfig;
  supportedChains : list uint64;
  pendingTransfers : gmap bytes32 PendingTransfer;
  processedMessages : gmap bytes32 bool;
  bridgeFeeRate : uint256;
  feeRecipient : address;
  liquidityPool : gmap uint64 uint256;
  roles : gmap (Role * address) bool
}.

Definition constructor (deployer _router _linkToken _usdcToken : address)
    (_chainSelector : uint64) (_feeRecipient : address) : State :=
  {| i_ccipRouter := _router;
     linkToken := _linkToken;
     usdcToken := _usdcToken;
     currentChainSelector := _chainSelector;
     chainConfigs := ∅;
     supportedChains := [];
     pendingTransfers := ∅;
     processedMessages := ∅;
     bridgeFeeRate := 50;
     feeRecipient := _feeRecipient;
     liquidityPool := ∅;
     roles := AccessControl._grantRole
                (AccessControl._grantRole ∅ DEFAULT_ADMIN_ROLE deployer)
                OPERATOR_ROLE deployer |}.

Definition set_chains (s : State) (m : gmap uint64 ChainConfig) (l : list uint64) : State :=
  {| i_ccipRouter := i_ccipRouter s; linkToken := linkToken s; usdcToken := usdcToken s;
     currentChainSelector := currentChainSelector s;
     chainConfigs := m; supportedChains := l;
     pendingTransfers := pendingTransfers s; processedMessages := processedMessages s;
     bridgeFeeRate := bridgeFeeRate s; feeRecipient := feeRecipient s;
     liquidityPool := liquidityPool s; roles := roles s |}.

Definition set_processedMessages (s : State) (m : gmap bytes32 bool) : State :=
  {| i_ccipRouter := i_ccipRouter s; linkToken := linkToken s; usdcToken := usdcToken s;
     currentChainSelector := currentChainSelector s;
     chainConfigs := chainConfigs s; supportedChains := supportedChains s;
     pendingTransfers := pendingTransfers s; processedMessages := m;
     bridgeFeeRate := bridgeFeeRate s; feeRecipient := feeRecipient s;
     liquidityPool := liquidityPool s; roles := roles s |}.

Definition set_roles (s : State) (rs : gmap (Role * address) bool) : State :=
  {| i_ccipRouter := i_ccipRouter s; linkToken := linkToken s; usdcToken := usdcToken s;
     currentChainSelector := currentChainSelector s;
     chainConfigs := chainConfigs s; supportedChains := supportedChains s;
     pendingTransfers := pendingTransfers s; processedMessages := processedMessages s;
     bridgeFeeRate := bridgeFeeRate s; feeRecipient := feeRecipient s;
     liquidityPool := liquidityPool s; roles := rs |}.

(** The context of a call the bridge makes to another contract. *)
Definition as_bridge (E : Env) (c : Ctx) : Ctx :=
  {| msg_sender := bridge_address E; block_timestamp := block_timestamp c |}.

Definition configureChain (s : State) (c : Ctx)
    (selector : uint64) (bridgeContract_ chainUsdcToken : address) : result State :=
  let! _ := AccessControl.onlyRole (roles s) DEFAULT_ADMIN_ROLE c in
  let cfg := {| chainSelector := selector; bridgeContract := bridgeContract_;
                cfg_usdcToken := chainUsdcToken; isActive := true |} in
  let exists_ := existsb (fun x => x =? selector) (supportedChains s) in
  Ok (set_chains s (<[selector := cfg]> (chainConfigs s))
                 (if exists_ then supportedChains s else supportedChains s ++ [selector])).

Definition deactivateChain (s : State) (c : Ctx) (selector : uint64) : result State :=
  let! _ := AccessControl.onlyRole (roles s) DEFAULT_ADMIN_ROLE c in
  let cfg := (chainConfigs s).[selector] in
  Ok (set_chains s
        (<[selector := {| chainSelector := chainSelector cfg;
                          bridgeContract := bridgeContract cfg;
                          cfg_usdcToken := cfg_usdcToken cfg;
                          isActive := false |}]> (chainConfigs s))
        (supportedChains s)).

(** What the router returns to [getFee] and to [ccipSend]. *)
Record RouterReply : Type := mkRouterReply {
  ccipFee : uint256;
  sentMessageId : bytes32
}.

(** [abi.encode(successfulTrades, averageRating * successfulTrades, successfulTrades)] *)
Definition reputation_payload (r : Engine.Reputation) : result (list uint256) :=
  let! points := mul256 (Engine.rep_averageRating r) (Engine.rep_successfulTrades r) in
  Ok [Engine.rep_successfulTrades r; points; Engine.rep_successfulTrades r].

Definition syncReputation (E : Env) (s : State) (tk : Token.State)
    (en : Engine.State) (b : Badge.State) (c : Ctx)
    (destinationChain_ : uint64) (router : RouterReply)
  : result (Token.State * bytes32 * list Effect) :=
  let config := (chainConfigs s).[destinationChain_] in
  let! _ := revert_if (negb (isActive config)) UnsupportedChain in
  let r := Engine.getReputation en b (msg_sender c) in
  let! payload := reputation_payload r in
  let message := {| messageType := ReputationSync;
                    sender := msg_sender c;
                    recipient := msg_sender c;
                    amount := 0;
                    data := payload |} in
  let tk1 := Token.approve tk (linkToken s) (bridge_address E) (i_ccipRouter s) (ccipFee router) in
  Ok (tk1, sentMessageId router,
      [CcipSend destinationChain_ (bridgeContract config) message]).

(** A delivered [Client.Any2EVMMessage]; [None] stands for bytes that
    [abi.decode] rejects. *)
Record Any2EVMMessage : Type := mkAny2EVMMessage {
  messageId : bytes32;
  sourceChainSelector : uint64;
  any_sender : option address;
  any_data : option CrossChainMessage
}.

Definition abi_decode {A : Type} (o : option A) : result A :=
  match o with
  | Some a => Ok a
  | None => Revert AbiDecodeError
  end.

Definition _handleTokenTransfer (E : Env) (s : State) (tk : Token.State)
    (message : CrossChainMessage) : result (Token.State * list Effect) :=
  let balance := (Token.balanceOf tk).[(usdcToken s, bridge_address E)] in
  let! _ := revert_if (balance <? amount message) InsufficientLiquidity in
  let! tk1 := Token.safeTransfer tk (usdcToken s) (bridge_address E)
                                 (recipient message) (amount message) in
  Ok (tk1, [TransferOut (usdcToken s) (recipient message) (amount message)]).

Definition _handleReputationSync (E : Env) (en : Engine.State) (b : Badge.State) (c : Ctx)
    (id : bytes32) (message : CrossChainMessage) (sourceChain : uint64)
  : result (Engine.State * Badge.State) :=
  let! '(additionalTrades, additionalRatingPoints, additionalRatingCount) :=
    match data message with
    | t :: p :: n :: _ => Ok (t, p, n)
    | _ => Revert AbiDecodeError
    end in
  let syncId := keccak_sync E id sourceChain (sender message) in
  Engine.syncCrossChainReputation E en b (as_bridge E c) (sender message) sourceChain
    additionalTrades additionalRatingPoints additionalRatingCount syncId.

Definition _ccipReceive (E : Env) (s : State) (tk : Token.State)
    (en : Engine.State) (b : Badge.State) (c : Ctx) (message : Any2EVMMessage)
  : result (State * Token.State * Engine.State * Badge.State * list Effect) :=
  let id := messageId message in
  let! _ := revert_if (processedMessages s).[id] MessageAlreadyProcessed in
  let s1 := set_processedMessages s (<[id := true]> (processedMessages s)) in
  let sourceChain := sourceChainSelector message in
  let! sourceAddress := abi_decode (any_sender message) in
  let config := (chainConfigs s1).[sourceChain] in
  let! _ := revert_if (negb (sourceAddress =? bridgeContract config)) InvalidMessageSource in
  let! crossChainMsg := abi_decode (any_data message) in
  match messageType crossChainMsg with
  | TokenTransfer =>
      let! '(tk1, effects) := _handleTokenTransfer E s1 tk crossChainMsg in
      Ok (s1, tk1, en, b, effects)
  | ReputationSync =>
      let! '(en1, b1) := _handleReputationSync E en b c id crossChainMsg sourceChain in
      Ok (s1, tk, en1, b1, [])
  | BadgeRecognition => Ok (s1, tk, en, b, [])
  end.

(** The external entry point of [CCIPReceiver], open to the router only. *)
Definition ccipReceive (E : Env) (s : State) (tk : Token.State)
    (en : Engine.State) (b : Badge.State) (c : Ctx) (message : Any2EVMMessage)
  : result (State * Token.State * Engine.State * Badge.State * list Effect) :=
  let! _ := revert_if (negb (msg_sender c =? i_ccipRouter s)) (InvalidRouter (msg_sender c)) in
  _ccipReceive E s tk en b c message.

End Bridge.


(** ** The deployed system *)

Record World : Type := mkWorld {
  tokens : Token.State;
  badge : Badge.State;
  engine : Engine.State;
  escrow : Escrow.State;
  bridge : Bridge.State
}.

(** External calls, one constructor per entry point. *)
Inductive Call : Type :=
  (* payment asset *)
  | Erc20Approve (token spender amount : Z)
  | Erc20Transfer (token to amount : Z)
  (* VeritasSoulboundBadge *)
  | MintBadge (to : address) (tier : BadgeTier) (trades rating : uint256) (sourceChainId : uint64)
  | UpgradeBadge (holder : address) (newTier : BadgeTier) (trades rating : uint256)
                 (sourceChainId : uint64)
  | BadgeGrantRole (role : Role) (account : address)
  | BadgeRevokeRole (role : Role) (account : address)
  (* ReputationEngine *)
  | RegisterUser (user : address)
  | RecordTrade (tradeId : bytes32) (seller buyer : address)
                (amount sellerRating buyerRating : uint256)
  | RecordDisputeResolution (tradeId : bytes32) (winner loser : address)
  | SyncCrossChainReputation (user : address) (sourceChain : uint64)
                             (additionalTrades additionalRatingPoints additionalRatingCount : uint256)
                             (syncId : bytes32)
  | UpdateTierThreshold (tier : BadgeTier) (minTrades minRating : uint256)
  | EngineGrantRole (role : Role) (account : address)
  | EngineRevokeRole (role : Role) (account : address)
  (* VeritasEscrow *)
  | CreateTrade (seller paymentToken amount : Z) (itemDescription : string)
                (expiryDuration : uint256)
  | AcceptTrade (tradeId : bytes32)
  | MarkDelivered (tradeId : bytes32) (deliveryProof : string)
  | ConfirmDelivery (tradeId : bytes32) (sellerRating : uint256)
  | RateBuyer (tradeId : bytes32) (buyerRating : uint256)
  | CancelTrade (tradeId : bytes32)
  | ClaimExpiredTrade (tradeId : bytes32)
  | AutoRelease (tradeId : bytes32)
  | RaiseDispute (tradeId : bytes32) (reason evidence : string)
  | SubmitEvidence (tradeId : bytes32) (evidence : string)
  | ResolveDispute (tradeId : bytes32) (winner : address)
  | AddSupportedToken (token : address)
  | RemoveSupportedToken (token : address)
  | UpdateFeeRate (newFeeRate : uint256)
  | UpdateFeeRecipient (newRecipient : address)
  | UpdateDisputeWindow (newWindow : uint256)
  | UpdateAutoReleaseDelay (newDelay : uint256)
  | Pause
  | Unpause
  | EscrowGrantRole (role : Role) (account : address)
  | EscrowRevokeRole (role : Role) (account : address)
  (* VeritasCrossChainBridge *)
  | ConfigureChain (chainSelector : uint64) (bridgeContract chainUsdcToken : address)
  | DeactivateChain (chainSelector : uint64)
  | SyncReputation (destinationChain : uint64) (router : Bridge.RouterReply)
  | CcipReceive (message : Bridge.Any2EVMMessage)
  | BridgeGrantRole (role : Role) (account : address)
  | BridgeRevokeRole (role : Role) (account : address).

Definition with_tokens (w : World) (tk : Token.State) : World :=
  {| tokens := tk; badge := badge w; engine := engine w; escrow := escrow w;
     bridge := bridge w |}.

Definition with_badge (w : World) (b : Badge.State) : World :=
  {| tokens := tokens w; badge := b; engine := engine w; escrow := escrow w;
     bridge := bridge w |}.

Definition with_engine (w : World) (e : Engine.State) : World :=
  {| tokens := tokens w; badge := badge w; engine := e; escrow := escrow w;
     bridge := bridge w |}.

Definition with_escrow (w : World) (x : Escrow.State) : World :=
  {| tokens := tokens w; badge := badge w; engine := engine w; escrow := x;
     bridge := bridge w |}.

Definition with_bridge (w : World) (s : Bridge.State) : World :=
  {| tokens := tokens w; badge := badge w; engine := engine w; escrow := escrow w;
     bridge := s |}.

(** One transaction: the call [call] made in context [c]. *)
Definition step (E : Env) (w : World) (c : Ctx) (call : Call) : result (World * list Effect) :=
  match call with
  | Erc20Approve token spender amount =>
      Ok (with_tokens w (Token.approve (tokens w) token (msg_sender c) spender amount), [])
  | Erc20Transfer token to amount =>
      let! tk := Token.safeTransfer (tokens w) token (msg_sender c) to amount in
      Ok (with_tokens w tk, [])
  | MintBadge to tier trades rating chain =>
      let! '(b, _) := Badge.mintBadge E (badge w) c to tier trades rating chain in
      Ok (with_badge w b, [])
  | UpgradeBadge holder newTier trades rating chain =>
      let! '(b, _) := Badge.upgradeBadge E (badge w) c holder newTier trades rating chain in
      Ok (with_badge w b, [])
  | BadgeGrantRole role account =>
      let! rs := AccessControl.grantRole (Badge.roles (badge w)) c role account in
      Ok (with_badge w (Badge.set_roles (badge w) rs), [])
  | BadgeRevokeRole role account =>
      let! rs := AccessControl.revokeRole (Badge.roles (badge w)) c role account in
      Ok (with_badge w (Badge.set_roles (badge w) rs), [])
  | RegisterUser user =>
      Ok (with_engine w (Engine.registerUser (engine w) c user), [])
  | RecordTrade id seller buyer amount sellerRating buyerRating =>
      let! '(e, b) := Engine.recordTrade E (engine w) (badge w) c id seller buyer amount
                                         sellerRating buyerRating in
      Ok (with_badge (with_engine w e) b, [])
  | RecordDisputeResolution id winner loser =>
      let! e := Engine.recordDisputeResolution (engine w) c id winner loser in
      Ok (with_engine w e, [])
  | SyncCrossChainReputation user sourceChain t p n syncId =>
      let! '(e, b) := Engine.syncCrossChainReputation E (engine w) (badge w) c user sourceChain
                                                      t p n syncId in
      Ok (with_badge (with_engine w e) b, [])
  | UpdateTierThreshold tier minTrades minRating =>
      let! e := Engine.updateTierThreshold (engine w) c tier minTrades minRating in
      Ok (with_engine w e, [])
  | EngineGrantRole role account =>
      let! rs := AccessControl.grantRole (Engine.roles (engine w)) c role account in
      Ok (with_engine w (Engine.set_roles (engine w) rs), [])
  | EngineRevokeRole role account =>
      let! rs := AccessControl.revokeRole (Engine.roles (engine w)) c role account in
      Ok (with_engine w (Engine.set_roles (engine w) rs), [])
  | CreateTrade seller paymentToken amount description expiryDuration =>
      let! '(x, tk, e, _, effects) :=
        Escrow.createTrade E (escrow w) (tokens w) (engine w) c seller paymentToken amount
                           description expiryDuration in
      Ok (with_engine (with_tokens (with_escrow w x) tk) e, effects)
  | AcceptTrade id =>
      let! x := Escrow.acceptTrade (escrow w) c id in
      Ok (with_escrow w x, [])
  | MarkDelivered id proof =>
      let! x := Escrow.markDelivered (escrow w) c id proof in
      Ok (with_escrow w x, [])
  | ConfirmDelivery id sellerRating =>
      let! '(x, tk, effects) := Escrow.confirmDelivery E (escrow w) (tokens w) c id sellerRating in
      Ok (with_tokens (with_escrow w x) tk, effects)
  | RateBuyer id buyerRating =>
      let! '(x, e, b) := Escrow.rateBuyer E (escrow w) (engine w) (badge w) c id buyerRating in
      Ok (with_badge (with_engine (with_escrow w x) e) b, [])
  | CancelTrade id =>
      let! '(x, tk, effects) := Escrow.cancelTrade E (escrow w) (tokens w) c id in
      Ok (with_tokens (with_escrow w x) tk, effects)
  | ClaimExpiredTrade id =>
      let! '(x, tk, effects) := Escrow.claimExpiredTrade E (escrow w) (tokens w) c id in
      Ok (with_tokens (with_escrow w x) tk, effects)
  | AutoRelease id =>
      let! '(x, tk, effects) := Escrow.autoRelease E (escrow w) (tokens w) c id in
      Ok (with_tokens (with_escrow w x) tk, effects)
  | RaiseDispute id reason evidence =>
      let! x := Escrow.raiseDispute (escrow w) c id reason evidence in
      Ok (with_escrow w x, [])
  | SubmitEvidence id evidence =>
      let! x := Escrow.submitEvidence (escrow w) c id evidence in
      Ok (with_escrow w x, [])
  | ResolveDispute id winner =>
      let! '(x, tk, e, effects) :=
        Escrow.resolveDispute E (escrow w) (tokens w) (engine w) c id winner in
      Ok (with_engine (with_tokens (with_escrow w x) tk) e, effects)
  | AddSupportedToken token =>
      let! x := Escrow.addSupportedToken (escrow w) c token in
      Ok (with_escrow w x, [])
  | RemoveSupportedToken token =>
      let! x := Escrow.removeSupportedToken (escrow w) c token in
      Ok (with_escrow w x, [])
  | UpdateFeeRate newFeeRate =>
      let! x := Escrow.updateFeeRate (escrow w) c newFeeRate in
      Ok (with_escrow w x, [])
  | UpdateFeeRecipient newRecipient =>
      let! x := Escrow.updateFeeRecipient (escrow w) c newRecipient in
      Ok (with_escrow w x, [])
  | UpdateDisputeWindow newWindow =>
      let! x := Escrow.updateDisputeWindow (escrow w) c newWindow in
      Ok (with_escrow w x, [])
  | UpdateAutoReleaseDelay newDelay =>
      let! x := Escrow.updateAutoReleaseDelay (escrow w) c newDelay in
      Ok (with_escrow w x, [])
  | Pause =>
      let! x := Escrow.pause (escrow w) c in
      Ok (with_escrow w x, [])
  | Unpause =>
      let! x := Escrow.unpause (escrow w) c in
      Ok (with_escrow w x, [])
  | EscrowGrantRole role account =>
      let! rs := AccessControl.grantRole (Escrow.roles (escrow w)) c role account in
      Ok (with_escrow w (Escrow.set_roles (escrow w) rs), [])
  | EscrowRevokeRole role account =>
      let! rs := AccessControl.revokeRole (Escrow.roles (escrow w)) c role account in
      Ok (with_escrow w (Escrow.set_roles (escrow w) rs), [])
  | ConfigureChain selector bridgeContract chainUsdcToken =>
      let! s := Bridge.configureChain (bridge w) c selector bridgeContract chainUsdcToken in
      Ok (with_bridge w s, [])
  | DeactivateChain selector =>
      let! s := Bridge.deactivateChain (bridge w) c selector in
      Ok (with_bridge w s, [])
  | SyncReputation destinationChain router =>
      let! '(tk, _, effects) :=
        Bridge.syncReputation E (bridge w) (tokens w) (engine w) (badge w) c
                              destinationChain router in
      Ok (with_tokens w tk, effects)
  | CcipReceive message =>
      let! '(s, tk, e, b, effects) :=
        Bridge.ccipReceive E (bridge w) (tokens w) (engine w) (badge w) c message in
      Ok (with_badge (with_engine (with_tokens (with_bridge w s) tk) e) b, effects)
  | BridgeGrantRole role account =>
      let! rs := AccessControl.grantRole (Bridge.roles (bridge w)) c role account in
      Ok (with_bridge w (Bridge.set_roles (bridge w) rs), [])
  | BridgeRevokeRole role account =>
      let! rs := AccessControl.revokeRole (Bridge.roles (bridge w)) c role account in
      Ok (with_bridge w (Bridge.set_roles (bridge w) rs), [])
  end.

(** The world after a transaction. *)
Definition exec (E : Env) (w : World) (tx : Ctx * Call) : World :=
  commit w (match step E w (fst tx) (snd tx) with
            | Ok (w', _) => Ok w'
            | Revert e => Revert e
            end).

(** The world after a sequence of transactions. *)
Definition run (E : Env) (w : World) (txs : list (Ctx * Call)) : World :=
  fold_left (exec E) txs w.

(** Deployment as the deploy script does it: one deployer runs the four
    constructors; the asset ledger is whatever it is at that time. *)
Record Deployment : Type := mkDeployment {
  deployer : address;
  dep_chainSelector : uint64;
  dep_feeRecipient : address;
  dep_initialTokens : list address;
  dep_router : address;
  dep_linkToken : address;
  dep_usdcToken : address;
  dep_ledger : Token.State
}.

Definition deploy (d : Deployment) : World :=
  {| tokens := dep_ledger d;
     badge := Badge.constructor (deployer d);
     engine := Engine.constructor (deployer d) (dep_chainSelector d);
     escrow := Escrow.constructor (deployer d) (dep_feeRecipient d) (dep_initialTokens d);
     bridge := Bridge.constructor (deployer d) (dep_router d) (dep_linkToken d)
                                  (dep_usdcToken d) (dep_chainSelector d) (deployer d) |}.

Inductive reachable (E : Env) : World -> Prop :=
  | reachable_deploy (d : Deployment) : reachable E (deploy d)
  | reachable_step (w : World) (c : Ctx) (call : Call) (w' : World) (effects : list Effect) :
      reachable E w -> step E w c call = Ok (w', effects) -> reachable E w'.


(** ** Queries of VeritasSoulboundBadge *)

Module BadgeQueries.

Global Instance BadgeMetadata_Zero : Zero Badge.BadgeMetadata :=
  {| Badge.tier := TierNone; Badge.tradesAtMint := 0; Badge.ratingAtMint := 0;
     Badge.mintTimestamp := 0; Badge.sourceChainId := 0 |}.

(** [BadgeTier(i)] for [i = 1 .. 5], the range of both loops. *)
Definition tiers_1_to_5 : list BadgeTier := [Bronze; Silver; Gold; Platinum; Diamond].

(** First loop of [getUserBadges]: count the tiers with a badge. *)
Definition count_badges (b : Badge.State) (user : address) : nat :=
  fold_left (fun count t => if (Badge.userBadges b).[(user, t)] =? 0 then count else S count)
            tiers_1_to_5 O.

(** Second loop: write each token id at [index] of the new array. *)
Definition fill_badges (b : Badge.State) (user : address) (count : nat) : list uint256 :=
  fst (fold_left
         (fun (acc : list uint256 * nat) t =>
            let tokenId := (Badge.userBadges b).[(user, t)] in
            if tokenId =? 0 then acc
            else (<[snd acc := tokenId]> (fst acc), S (snd acc)))
         tiers_1_to_5 (replicate count 0, O)).

Definition getUserBadges (b : Badge.State) (user : address) : list uint256 :=
  fill_badges b user (count_badges b user).

Definition getTierName (t : BadgeTier) : string :=
  match t with
  | Bronze => "Bronze"
  | Silver => "Silver"
  | Gold => "Gold"
  | Platinum => "Platinum"
  | Diamond => "Diamond"
  | TierNone => "None"
  end.

End BadgeQueries.

(** ** Queries of ReputationEngine *)

Module EngineQueries.

Global Instance TradeRecord_Zero : Zero Engine.TradeRecord :=
  {| Engine.tradeId := 0; Engine.counterparty := 0; Engine.amount := 0;
     Engine.rating := 0; Engine.timestamp := 0; Engine.wasBuyer := false |}.

(** [for (uint256 i = offset; i < end; i++) result[i - offset] = history[i];]
    with [n] iterations left, at index [i]. *)
Fixpoint copy_slice (n i offset : nat) (history page : list Engine.TradeRecord)
  : result (list Engine.TradeRecord) :=
  match n with
  | O => Ok page
  | S n' =>
      match history !! i with
      | Some r => copy_slice n' (S i) offset history (<[(i - offset)%nat := r]> page)
      | None => Revert Panic
      end
  end.

Definition getTradeHistory (e : Engine.State) (user : address) (offset limit : uint256)
  : result (list Engine.TradeRecord) :=
  let history := (Engine.userTradeHistory e).[user] in
  let len := Z.of_nat (length history) in
  if len <=? offset then Ok []
  else
    let! sum := add256 offset limit in
    let end_ := if len <? sum then len else sum in
    copy_slice (Z.to_nat (end_ - offset)) (Z.to_nat offset) (Z.to_nat offset) history
               (replicate (Z.to_nat (end_ - offset)) zero).

(** [BadgeTier(uint8(currentTier) + 1)]: the conversion panics past Diamond. *)
Definition next_tier (t : BadgeTier) : result BadgeTier :=
  match t with
  | TierNone => Ok Bronze
  | Bronze => Ok Silver
  | Silver => Ok Gold
  | Gold => Ok Platinum
  | Platinum => Ok Diamond
  | Diamond => Revert Panic
  end.

(** The six values [getProgressToNextTier] returns. *)
Record Progress : Type := mkProgress {
  currentTier : BadgeTier;
  nextTier : BadgeTier;
  tradesNeeded : uint256;
  currentTrades : uint256;
  ratingNeeded : uint256;
  currentRating : uint256
}.

Definition getProgressToNextTier (e : Engine.State) (b : Badge.State) (user : address)
  : result Progress :=
  let rep := (Engine.userReputations e).[user] in
  let current := (Badge.userHighestTier b).[user] in
  let trades := Engine.successfulTrades rep in
  let rating := Engine._calculateAverageRating e user in
  if bool_decide (current = Diamond)
  then Ok {| currentTier := current; nextTier := TierNone; tradesNeeded := 0;
             currentTrades := trades; ratingNeeded := 0; currentRating := rating |}
  else
    let! next := next_tier current in
    let threshold := (Engine.tierThresholds e).[next] in
    Ok {| currentTier := current;
          nextTier := next;
          tradesNeeded := if trades <? Engine.minTrades threshold
                          then Engine.minTrades threshold - trades else 0;
          currentTrades := trades;
          ratingNeeded := if rating <? Engine.minRating threshold
                          then Engine.minRating threshold - rating else 0;
          currentRating := rating |}.

End EngineQueries.

(** ** Asset bridging and liquidity of VeritasCrossChainBridge *)

Module BridgeAssets.

Definition set_pendingTransfers (s : Bridge.State)
    (m : gmap bytes32 Bridge.PendingTransfer) : Bridge.State :=
  {| Bridge.i_ccipRouter := Bridge.i_ccipRouter s; Bridge.linkToken := Bridge.linkToken s;
     Bridge.usdcToken := Bridge.usdcToken s;
     Bridge.currentChainSelector := Bridge.currentChainSelector s;
     Bridge.chainConfigs := Bridge.chainConfigs s;
     Bridge.supportedChains := Bridge.supportedChains s;
     Bridge.pendingTransfers := m; Bridge.processedMessages := Bridge.processedMessages s;
     Bridge.bridgeFeeRate := Bridge.bridgeFeeRate s;
     Bridge.feeRecipient := Bridge.feeRecipient s;
     Bridge.liquidityPool := Bridge.liquidityPool s; Bridge.roles := Bridge.roles s |}.

Definition set_liquidityPool (s : Bridge.State) (m : gmap uint64 uint256) : Bridge.State :=
  {| Bridge.i_ccipRouter := Bridge.i_ccipRouter s; Bridge.linkToken := Bridge.linkToken s;
     Bridge.usdcToken := Bridge.usdcToken s;
     Bridge.currentChainSelector := Bridge.currentChainSelector s;
     Bridge.chainConfigs := Bridge.chainConfigs s;
     Bridge.supportedChains := Bridge.supportedChains s;
     Bridge.pendingTransfers := Bridge.pendingTransfers s;
     Bridge.processedMessages := Bridge.processedMessages s;
     Bridge.bridgeFeeRate := Bridge.bridgeFeeRate s;
     Bridge.feeRecipient := Bridge.feeRecipient s;
     Bridge.liquidityPool := m; Bridge.roles := Bridge.roles s |}.

Definition set_fees (s : Bridge.State) (rate : uint256) (recipient : address) : Bridge.State :=
  {| Bridge.i_ccipRouter := Bridge.i_ccipRouter s; Bridge.linkToken := Bridge.linkToken s;
     Bridge.usdcToken := Bridge.usdcToken s;
     Bridge.currentChainSelector := Bridge.currentChainSelector s;
     Bridge.chainConfigs := Bridge.chainConfigs s;
     Bridge.supportedChains := Bridge.supportedChains s;
     Bridge.pendingTransfers := Bridge.pendingTransfers s;
     Bridge.processedMessages := Bridge.processedMessages s;
     Bridge.bridgeFeeRate := rate; Bridge.feeRecipient := recipient;
     Bridge.liquidityPool := Bridge.liquidityPool s; Bridge.roles := Bridge.roles s |}.

Definition BASIS_POINTS : uint256 := 10000.

Definition _sendCCIPMessage (E : Env) (s : Bridge.State) (tk : Token.State) (c : Ctx)
    (dest : uint64) (recipient_ : address) (amount_ : uint256) (router : Bridge.RouterReply)
  : Bridge.State * Token.State * bytes32 * list Effect :=
  let config := (Bridge.chainConfigs s).[dest] in
  let message := {| messageType := TokenTransfer;
                    sender := msg_sender c;
                    recipient := recipient_;
                    amount := amount_;
                    data := [] |} in
  let tk1 := Token.approve tk (Bridge.linkToken s) (bridge_address E) (Bridge.i_ccipRouter s)
                           (Bridge.ccipFee router) in
  let id := Bridge.sentMessageId router in
  let pending := {| Bridge.pt_sender := msg_sender c;
                    Bridge.pt_recipient := recipient_;
                    Bridge.pt_amount := amount_;
                    Bridge.destinationChain := dest;
                    Bridge.pt_timestamp := block_timestamp c;
                    Bridge.isProcessed := false |} in
  (set_pendingTransfers s (<[id := pending]> (Bridge.pendingTransfers s)), tk1, id,
   [CcipSend dest (Bridge.bridgeContract config) message]).

Definition _sendLiquidityPoolMessage (E : Env) (s : Bridge.State) (tk : Token.State) (c : Ctx)
    (dest : uint64) (recipient_ : address) (amount_ : uint256) (router : Bridge.RouterReply)
  : result (Bridge.State * Token.State * bytes32 * list Effect) :=
  let! left := sub256 (Bridge.liquidityPool s).[dest] amount_ in
  Ok (_sendCCIPMessage E (set_liquidityPool s (<[dest := left]> (Bridge.liquidityPool s)))
                       tk c dest recipient_ amount_ router).

Definition bridgeTokens (E : Env) (s : Bridge.State) (tk : Token.State) (c : Ctx)
    (dest : uint64) (recipient_ : address) (amount_ : uint256) (useLiquidityPool : bool)
    (router : Bridge.RouterReply)
  : result (Bridge.State * Token.State * bytes32 * list Effect) :=
  let config := (Bridge.chainConfigs s).[dest] in
  let! _ := revert_if (negb (Bridge.isActive config)) UnsupportedChain in
  let! _ := revert_if (amount_ =? 0) InsufficientAmount in
  let! product := mul256 amount_ (Bridge.bridgeFeeRate s) in
  let! fee := div256 product BASIS_POINTS in
  let! netAmount := sub256 amount_ fee in
  let! tk1 := Token.safeTransferFrom tk (Bridge.usdcToken s) (bridge_address E)
                                     (msg_sender c) (bridge_address E) amount_ in
  let! '(tk2, fees) :=
    if 0 <? fee
    then (let! t := Token.safeTransfer tk1 (Bridge.usdcToken s) (bridge_address E)
                                       (Bridge.feeRecipient s) fee in
          Ok (t, [TransferOut (Bridge.usdcToken s) (Bridge.feeRecipient s) fee]))
    else Ok (tk1, []) in
  let! '(s1, tk3, id, sent) :=
    if useLiquidityPool && (netAmount <=? (Bridge.liquidityPool s).[dest])
    then _sendLiquidityPoolMessage E s tk2 c dest recipient_ netAmount router
    else Ok (_sendCCIPMessage E s tk2 c dest recipient_ netAmount router) in
  Ok (s1, tk3, id, TransferIn (Bridge.usdcToken s) (msg_sender c) amount_ :: fees ++ sent).

Definition addLiquidity (E : Env) (s : Bridge.State) (tk : Token.State) (c : Ctx)
    (dest : uint64) (amount_ : uint256) : result (Bridge.State * Token.State * list Effect) :=
  let! _ := revert_if (negb (Bridge.isActive (Bridge.chainConfigs s).[dest])) UnsupportedChain in
  let! tk1 := Token.safeTransferFrom tk (Bridge.usdcToken s) (bridge_address E)
                                     (msg_sender c) (bridge_address E) amount_ in
  let! pool := add256 (Bridge.liquidityPool s).[dest] amount_ in
  Ok (set_liquidityPool s (<[dest := pool]> (Bridge.liquidityPool s)), tk1,
      [TransferIn (Bridge.usdcToken s) (msg_sender c) amount_]).

Definition removeLiquidity (E : Env) (s : Bridge.State) (tk : Token.State) (c : Ctx)
    (dest : uint64) (amount_ : uint256) : result (Bridge.State * Token.State * list Effect) :=
  let! _ := AccessControl.onlyRole (Bridge.roles s) OPERATOR_ROLE c in
  let! _ := revert_if ((Bridge.liquidityPool s).[dest] <? amount_) InsufficientLiquidity in
  let! pool := sub256 (Bridge.liquidityPool s).[dest] amount_ in
  let! tk1 := Token.safeTransfer tk (Bridge.usdcToken s) (bridge_address E)
                                 (msg_sender c) amount_ in
  Ok (set_liquidityPool s (<[dest := pool]> (Bridge.liquidityPool s)), tk1,
      [TransferOut (Bridge.usdcToken s) (msg_sender c) amount_]).

Definition setBridgeFeeRate (s : Bridge.State) (c : Ctx) (newRate : uint256)
  : result Bridge.State :=
  let! _ := AccessControl.onlyRole (Bridge.roles s) DEFAULT_ADMIN_ROLE c in
  let! _ := require (newRate <=? 500) "Fee too high" in
  Ok (set_fees s newRate (Bridge.feeRecipient s)).

Definition setFeeRecipient (s : Bridge.State) (c : Ctx) (newRecipient : address)
  : result Bridge.State :=
  let! _ := AccessControl.onlyRole (Bridge.roles s) DEFAULT_ADMIN_ROLE c in
  Ok (set_fees s (Bridge.bridgeFeeRate s) newRecipient).

Definition withdrawLink (E : Env) (s : Bridge.State) (tk : Token.State) (c : Ctx)
    (to : address) (amount_ : uint256) : result (Token.State * list Effect) :=
  let! _ := AccessControl.onlyRole (Bridge.roles s) DEFAULT_ADMIN_ROLE c in
  let! tk1 := Token.safeTransfer tk (Bridge.linkToken s) (bridge_address E) to amount_ in
  Ok (tk1, [TransferOut (Bridge.linkToken s) to amount_]).

Definition emergencyWithdraw (E : Env) (s : Bridge.State) (tk : Token.State) (c : Ctx)
    (token to : address) (amount_ : uint256) : result (Token.State * list Effect) :=
  let! _ := AccessControl.onlyRole (Bridge.roles s) DEFAULT_ADMIN_ROLE c in
  let! tk1 := Token.safeTransfer tk token (bridge_address E) to amount_ in
  Ok (tk1, [TransferOut token to amount_]).

Definition isChainSupported (s : Bridge.State) (selector : uint64) : bool :=
  Bridge.isActive (Bridge.chainConfigs s).[selector].

End BridgeAssets.

(** ** The bridge's asset, fee and withdrawal calls as transactions *)

Inductive BridgeCall : Type :=
  | BridgeTokens (destinationChain : uint64) (recipient : address) (amount : uint256)
                 (useLiquidityPool : bool) (router : Bridge.RouterReply)
  | AddLiquidity (destinationChain : uint64) (amount : uint256)
  | RemoveLiquidity (destinationChain : uint64) (amount : uint256)
  | SetBridgeFeeRate (newRate : uint256)
  | SetFeeRecipient (newRecipient : address)
  | WithdrawLink (to : address) (amount : uint256)
  | EmergencyWithdraw (token to : address) (amount : uint256).

Definition bridge_step (E : Env) (w : World) (c : Ctx) (call : BridgeCall)
  : result (World * list Effect) :=
  match call with
  | BridgeTokens dest recipient amount useLiquidityPool router =>
      let! '(s, tk, _, effects) :=
        BridgeAssets.bridgeTokens E (bridge w) (tokens w) c dest recipient amount
                                  useLiquidityPool router in
      Ok (with_tokens (with_bridge w s) tk, effects)
  | AddLiquidity dest amount =>
      let! '(s, tk, effects) :=
        BridgeAssets.addLiquidity E (bridge w) (tokens w) c dest amount in
      Ok (with_tokens (with_bridge w s) tk, effects)
  | RemoveLiquidity dest amount =>
      let! '(s, tk, effects) :=
        BridgeAssets.removeLiquidity E (bridge w) (tokens w) c dest amount in
      Ok (with_tokens (with_bridge w s) tk, effects)
  | SetBridgeFeeRate newRate =>
      let! s := BridgeAssets.setBridgeFeeRate (bridge w) c newRate in
      Ok (with_bridge w s, [])
  | SetFeeRecipient newRecipient =>
      let! s := BridgeAssets.setFeeRecipient (bridge w) c newRecipient in
      Ok (with_bridge w s, [])
  | WithdrawLink to amount =>
      let! '(tk, effects) := BridgeAssets.withdrawLink E (bridge w) (tokens w) c to amount in
      Ok (with_tokens w tk, effects)
  | EmergencyWithdraw token to amount =>
      let! '(tk, effects) :=
        BridgeAssets.emergencyWithdraw E (bridge w) (tokens w) c token to amount in
      Ok (with_tokens w tk, effects)
  end.

(** The worlds that transactions of either kind lead to from a deployment. *)
Inductive reachable_with_bridging (E : Env) : World -> Prop :=
  | bridging_deploy (d : Deployment) : reachable_with_bridging E (deploy d)
  | bridging_step (w : World) (c : Ctx) (call : Call) (w' : World) (effects : list Effect) :
      reachable_with_bridging E w -> step E w c call = Ok (w', effects) ->
      reachable_with_bridging E w'
  | bridging_asset_step (w : World) (c : Ctx) (call : BridgeCall) (w' : World)
                        (effects : list Effect) :
      reachable_with_bridging E w -> bridge_step E w c call = Ok (w', effects) ->
      reachable_with_bridging E w'.


(** ** Vocabulary of the statements *)

(** The fields of a [UserReputation] other than the two dispute counters. *)
Definition same_trade_fields (r r' : Engine.UserReputation) : Prop :=
  Engine.totalTrades r' = Engine.totalTrades r /\
  Engine.successfulTrades r' = Engine.successfulTrades r /\
  Engine.totalRatingPoints r' = Engine.totalRatingPoints r /\
  Engine.ratingCount r' = Engine.ratingCount r /\
  Engine.lastTradeTimestamp r' = Engine.lastTradeTimestamp r /\
  Engine.joinTimestamp r' = Engine.joinTimestamp r /\
  Engine.isActive r' = Engine.isActive r.

Definition indicator (a b : Z) : Z := if a =? b then 1 else 0.


(** The engine and badge storage after a call that may have reverted. *)
Definition after_sync (old : Engine.State * Badge.State)
    (r : result (Engine.State * Badge.State)) : Engine.State * Badge.State :=
  commit old r.

(** [totalTrades] as [_ensureRegistered] leaves it. *)
Definition registered_totalTrades (e : Engine.State) (user : address) : uint256 :=
  if Engine.isActive (Engine.userReputations e).[user]
  then Engine.totalTrades (Engine.userReputations e).[user]
  else 0.

(** A user's highest-tier pointer. *)
Definition highest (b : Badge.State) (user : address) : BadgeTier :=
  (Badge.userHighestTier b).[user].

(** Between badge storages [b] and [b']: each user's pointer is where it
    was, or it moved up to a tier whose thresholds the user meets in the
    engine storage [e]. *)
Definition raised_on_merit (e : Engine.State) (b b' : Badge.State) : Prop :=
  forall u : address,
    highest b' u = highest b u \/
    (tier_rank (highest b u) < tier_rank (highest b' u) /\
     Engine.meetsThreshold e u (highest b' u) = true).

(** Calls made to the badge contract directly by a holder of its minter
    role, rather than by the engine. *)
Definition direct_mint (call : Call) : bool :=
  match call with
  | MintBadge _ _ _ _ _ | UpgradeBadge _ _ _ _ _ => true
  | _ => false
  end.

(** Completed, Cancelled, Expired and Resolved are the terminal statuses. *)
Definition is_terminal (s : Escrow.TradeStatus) : bool :=
  match s with
  | Escrow.Completed | Escrow.Cancelled | Escrow.Expired | Escrow.Resolved => true
  | _ => false
  end.

(** The trade an escrow call acts on. *)
Definition trade_of (call : Call) : option bytes32 :=
  match call with
  | AcceptTrade id | MarkDelivered id _ | ConfirmDelivery id _ | RateBuyer id _
  | CancelTrade id | ClaimExpiredTrade id | AutoRelease id | RaiseDispute id _ _
  | SubmitEvidence id _ | ResolveDispute id _ => Some id
  | _ => None
  end.

(** A payment: token, recipient, value. *)
Definition transfers_out (effects : list Effect) : list (Z * Z * Z) :=
  flat_map (fun e => match e with
                     | TransferOut token to value => [(token, to, value)]
                     | _ => []
                     end) effects.

Definition total (payments : list (Z * Z * Z)) : Z :=
  fold_right (fun p acc => snd p + acc) 0 payments.


(** What a trade in a terminal status should have paid, [sink] being the
    fee recipient: seller and fee on completion and when the seller wins
    the dispute, the buyer in full otherwise. *)
Definition disbursement (t : Escrow.Trade) (d : Escrow.Dispute) (sink : address)
  : list (Z * Z * Z) :=
  let to_seller := [(Escrow.paymentToken t, Escrow.seller t,
                     Escrow.amount t - Escrow.platformFee t);
                    (Escrow.paymentToken t, sink, Escrow.platformFee t)] in
  let to_buyer := [(Escrow.paymentToken t, Escrow.buyer t, Escrow.amount t)] in
  match Escrow.status t with
  | Escrow.Completed => to_seller
  | Escrow.Cancelled | Escrow.Expired => to_buyer
  | Escrow.Resolved => if Escrow.winner d =? Escrow.seller t then to_seller else to_buyer
  | _ => []
  end.

(** [createTrade] writes the record of the identifier it derives; a call
    recreates [id] when that identifier is [id]. *)
Definition recreates (E : Env) (w : World) (c : Ctx) (call : Call) (id : bytes32) : bool :=
  match call with
  | CreateTrade seller _ _ _ _ =>
      keccak_trade E (msg_sender c) seller (block_timestamp c)
                   (Escrow._tradeNonce (escrow w)) =? id
  | _ => false
  end.

Fixpoint never_recreated (E : Env) (id : bytes32) (w : World) (txs : list (Ctx * Call)) : Prop :=
  match txs with
  | [] => True
  | tx :: rest =>
      recreates E w (fst tx) (snd tx) id = false /\ never_recreated E id (exec E w tx) rest
  end.


(** The fields of a trade fixed at creation. *)
Definition same_terms (t t' : Escrow.Trade) : Prop :=
  Escrow.buyer t' = Escrow.buyer t /\
  Escrow.seller t' = Escrow.seller t /\
  Escrow.paymentToken t' = Escrow.paymentToken t /\
  Escrow.amount t' = Escrow.amount t /\
  Escrow.platformFee t' = Escrow.platformFee t.

(** Every Completed trade carries a buyer's rating in range. *)
Definition completed_rated (m : gmap bytes32 Escrow.Trade) : Prop :=
  forall id : bytes32,
    Escrow.status m.[id] = Escrow.Completed ->
    100 <= Escrow.buyerRating m.[id] <= 500.



(** ** Vocabulary of the further properties *)

(** The edges of the trade state machine that the escrow's calls take. *)
Definition edge (s s' : Escrow.TradeStatus) : bool :=
  match s, s' with
  | Escrow.Created, Escrow.SellerAccepted
  | Escrow.Created, Escrow.Cancelled
  | Escrow.Created, Escrow.Expired
  | Escrow.SellerAccepted, Escrow.Delivered
  | Escrow.SellerAccepted, Escrow.Expired
  | Escrow.Delivered, Escrow.Completed
  | Escrow.Delivered, Escrow.Disputed
  | Escrow.Disputed, Escrow.Resolved => true
  | _, _ => false
  end.

(** Who may make an escrow call, as its guards have it. *)
Definition authorised (w : World) (c : Ctx) (call : Call) : Prop :=
  let x := escrow w in
  let who := msg_sender c in
  match call with
  | AcceptTrade id | MarkDelivered id _ | RateBuyer id _ =>
      who = Escrow.seller (Escrow.trades x).[id]
  | ConfirmDelivery id _ | CancelTrade id =>
      who = Escrow.buyer (Escrow.trades x).[id]
  | RaiseDispute id _ _ | SubmitEvidence id _ =>
      who = Escrow.buyer (Escrow.trades x).[id] \/ who = Escrow.seller (Escrow.trades x).[id]
  | ResolveDispute _ _ =>
      AccessControl.hasRole (Escrow.roles x) DISPUTE_RESOLVER_ROLE who = true
  | AddSupportedToken _ | RemoveSupportedToken _ | UpdateFeeRate _ | UpdateFeeRecipient _
  | UpdateDisputeWindow _ | UpdateAutoReleaseDelay _ | EscrowGrantRole _ _
  | EscrowRevokeRole _ _ =>
      AccessControl.hasRole (Escrow.roles x) DEFAULT_ADMIN_ROLE who = true
  | Pause | Unpause =>
      AccessControl.hasRole (Escrow.roles x) PAUSER_ROLE who = true
  | _ => True
  end.

(** A created trade has a seller, a buyer other than the seller, a
    positive amount, and is stored under its own identifier. *)
Definition well_formed_trades (m : gmap bytes32 Escrow.Trade) : Prop :=
  forall id : bytes32,
    Escrow.status m.[id] <> Escrow.StatusNone ->
    Escrow.tradeId m.[id] = id /\
    Escrow.seller m.[id] <> 0 /\
    Escrow.buyer m.[id] <> Escrow.seller m.[id] /\
    Escrow.amount m.[id] <> 0.

(** The fee of a trade is at most a tenth of its amount. *)
Definition fees_bounded (m : gmap bytes32 Escrow.Trade) : Prop :=
  forall id : bytes32,
    0 <= Escrow.amount m.[id] -> 10 * Escrow.platformFee m.[id] <= Escrow.amount m.[id].

(** The escrow with its pause flag set to [p]. *)
Definition with_pause (w : World) (p : bool) : World :=
  with_escrow w (Escrow.set_paused (escrow w) p).

(** Calls whose course does not read the pause flag. *)
Definition ignores_pause (call : Call) : bool :=
  match call with
  | CreateTrade _ _ _ _ _ | Pause | Unpause => false
  | _ => true
  end.

(** A user's stored trade history. *)
Definition history (e : Engine.State) (user : address) : list Engine.TradeRecord :=
  (Engine.userTradeHistory e).[user].

(** Every rating counted so far was between 100 and 500. *)
Definition ratings_in_range (r : Engine.UserReputation) : Prop :=
  0 <= Engine.ratingCount r /\
  100 * Engine.ratingCount r <= Engine.totalRatingPoints r <= 500 * Engine.ratingCount r.

(** What every call keeps of the engine's storage, user by user: a
    registered user stays registered with the join time it has, total and
    successful trades stay equal, and a history of at most 100 records
    stays so. *)
Definition engine_evolves (e e' : Engine.State) : Prop :=
  forall u : address,
    let r := (Engine.userReputations e).[u] in
    let r' := (Engine.userReputations e').[u] in
    (Engine.isActive r = true ->
     Engine.isActive r' = true /\ Engine.joinTimestamp r' = Engine.joinTimestamp r) /\
    (Engine.totalTrades r = Engine.successfulTrades r ->
     Engine.totalTrades r' = Engine.successfulTrades r') /\
    (length (history e u) <= 100 -> length (history e' u) <= 100)%nat.

(** A stored reputation as [_ensureRegistered] leaves it at time [now]. *)
Definition as_registered (r : Engine.UserReputation) (now : uint256) : Engine.UserReputation :=
  if Engine.isActive r then r else Engine.fresh_reputation now.

(** A reputation credited with one trade rated [rating] at time [now]. *)
Definition credited (r : Engine.UserReputation) (rating now : uint256) : Engine.UserReputation :=
  {| Engine.totalTrades := Engine.totalTrades r + 1;
     Engine.successfulTrades := Engine.successfulTrades r + 1;
     Engine.disputesWon := Engine.disputesWon r;
     Engine.disputesLost := Engine.disputesLost r;
     Engine.totalRatingPoints := Engine.totalRatingPoints r + rating;
     Engine.ratingCount := Engine.ratingCount r + 1;
     Engine.lastTradeTimestamp := now;
     Engine.joinTimestamp := Engine.joinTimestamp r;
     Engine.isActive := Engine.isActive r |}.

(** The token a user holds for a tier, 0 for none. *)
Definition held (b : Badge.State) (u : address) (t : BadgeTier) : uint256 :=
  (Badge.userBadges b).[(u, t)].

(** The badge ledger hangs together: token ids run from 1 to the counter;
    an owned token is its owner's badge for the tier in its metadata, and a
    user's badge for a tier is a token that user owns with that tier in its
    metadata; the highest-tier pointer names a tier the user holds and no
    held tier ranks above it; and a balance is the number of badges
    [getUserBadges] returns. *)
Definition badge_consistent (b : Badge.State) : Prop :=
  0 <= Badge._tokenIdCounter b /\
  (forall id : uint256,
     (Badge._owners b).[id] <> 0 ->
     1 <= id <= Badge._tokenIdCounter b /\
     held b (Badge._owners b).[id] (Badge.tier (Badge.badgeMetadata b).[id]) = id) /\
  (forall (u : address) (t : BadgeTier),
     held b u t <> 0 ->
     u <> 0 /\ t <> TierNone /\
     (Badge._owners b).[held b u t] = u /\
     Badge.tier (Badge.badgeMetadata b).[held b u t] = t /\
     tier_rank t <= tier_rank (Badge.userHighestTier b).[u]) /\
  (forall u : address,
     (Badge.userHighestTier b).[u] <> TierNone ->
     held b u (Badge.userHighestTier b).[u] <> 0) /\
  (forall u : address,
     (Badge._balances b).[u] = Z.of_nat (length (BadgeQueries.getUserBadges b u))).

(** What every call keeps of the badge ledger: an owned token keeps its
    owner and its metadata, and a user's badge for a tier stays the token
    it is. *)
Definition badges_kept (b b' : Badge.State) : Prop :=
  (forall id : uint256,
     (Badge._owners b).[id] <> 0 ->
     (Badge._owners b').[id] = (Badge._owners b).[id] /\
     (Badge.badgeMetadata b').[id] = (Badge.badgeMetadata b).[id]) /\
  (forall (u : address) (t : BadgeTier), held b u t <> 0 -> held b' u t = held b u t).

(** The bridge's configuration hangs together: no chain is listed twice,
    an active chain is listed and stored under its own selector, and the
    fee rate is at most 5%. *)
Definition bridge_configured (s : Bridge.State) : Prop :=
  NoDup (Bridge.supportedChains s) /\
  (forall sel : uint64,
     Bridge.isActive (Bridge.chainConfigs s).[sel] = true ->
     In sel (Bridge.supportedChains s) /\
     Bridge.chainSelector (Bridge.chainConfigs s).[sel] = sel) /\
  Bridge.bridgeFeeRate s <= 500.

(** The bridge's balance of the asset it bridges. *)
Definition bridge_balance (E : Env) (s : Bridge.State) (tk : Token.State) : uint256 :=
  (Token.balanceOf tk).[(Bridge.usdcToken s, bridge_address E)].


(** ** Concrete deployment used by the examples *)

Definition alice : address := 11.     (* a buyer *)
Definition bob : address := 12.       (* a seller *)
Definition carol : address := 13.     (* an account with no role *)
Definition admin : address := 1.      (* the deployer *)
Definition usdc : address := 50.

(** A stand-in for the two hashes: distinct nonces, and distinct message
    identifiers, give distinct results. *)
Definition E0 : Env :=
  {| badge_address := 101;
     engine_address := 102;
     escrow_address := 103;
     bridge_address := 104;
     keccak_trade := fun _ _ _ nonce => 7000 + nonce;
     keccak_sync := fun messageId _ _ => 9000 + messageId;
     onERC721Received_ok := fun _ => true |}.

Definition at_time (who : address) (now : uint256) : Ctx :=
  {| msg_sender := who; block_timestamp := now |}.

(** The engine as deployed, with the escrow contract granted the given role. *)
Definition engine_granting (role : Role) : Engine.State :=
  let e := Engine.constructor admin 31337 in
  Engine.set_roles e (AccessControl._grantRole (Engine.roles e) role (escrow_address E0)).

Definition resolver : address := 14.  (* the escrow's dispute resolver *)
Definition router : address := 60.
Definition link : address := 61.
Definition peer_bridge : address := 204.   (* the bridge on the other chain *)
Definition other_chain : uint64 := 4949.

(** The buyer holds 10000 units and has approved the escrow for them. *)
Definition ledger0 : Token.State :=
  {| Token.balanceOf := {[ (usdc, alice) := 10000 ]};
     Token.allowance := {[ (usdc, alice, escrow_address E0) := 10000 ]} |}.

Definition d0 : Deployment :=
  {| deployer := admin;
     dep_chainSelector := 31337;
     dep_feeRecipient := admin;
     dep_initialTokens := [usdc];
     dep_router := router;
     dep_linkToken := link;
     dep_usdcToken := usdc;
     dep_ledger := ledger0 |}.

(** The role grants of the deploy script and of the test suite's set-up. *)
Definition configure_roles : list (Ctx * Call) :=
  [ (at_time admin 1, BadgeGrantRole MINTER_ROLE (engine_address E0));
    (at_time admin 1, EngineGrantRole ESCROW_ROLE (escrow_address E0));
    (at_time admin 1, EngineGrantRole CROSS_CHAIN_ROLE (bridge_address E0));
    (at_time admin 1, EscrowGrantRole DISPUTE_RESOLVER_ROLE resolver);
    (at_time admin 1, ConfigureChain other_chain peer_bridge usdc) ].

Definition w_configured : World := run E0 (deploy d0) configure_roles.

(** A trade of [amount] units taken up to delivery: its identifier is
    [7000 + nonce]. *)
Definition deliver_trade (amount : uint256) : list (Ctx * Call) :=
  [ (at_time alice 10, CreateTrade bob usdc amount "Test item" 0);
    (at_time bob 20, AcceptTrade 7000);
    (at_time bob 30, MarkDelivered 7000 "ipfs://proof") ].

Definition w_delivered (amount : uint256) : World :=
  run E0 w_configured (deliver_trade amount).

Definition w_disputed : World :=
  run E0 (w_delivered 100)
      [ (at_time alice 40, RaiseDispute 7000 "Item not as described" "ipfs://evidence") ].

(** A whole trade of 100 units, rated [r] by the buyer and 500 by the
    seller; [n] is the escrow's nonce when it starts. *)
Definition full_trade (n : Z) (r : uint256) : list (Ctx * Call) :=
  [ (at_time alice 10, CreateTrade bob usdc 100 "Test item" 0);
    (at_time bob 20, AcceptTrade (7000 + n));
    (at_time bob 30, MarkDelivered (7000 + n) "ipfs://proof");
    (at_time alice 40, ConfirmDelivery (7000 + n) r);
    (at_time bob 50, RateBuyer (7000 + n) 500) ].

(** The seller has been rated 450 and then 451. *)
Definition w_two_trades : World :=
  run E0 w_configured (full_trade 0 450 ++ full_trade 1 451).

Definition reply0 : Bridge.RouterReply :=
  {| Bridge.ccipFee := 3; Bridge.sentMessageId := 77 |}.

(** An inbound ReputationSync message for [carol] carrying 5 trades. *)
Definition inbound_sync : Bridge.Any2EVMMessage :=
  {| Bridge.messageId := 555;
     Bridge.sourceChainSelector := other_chain;
     Bridge.any_sender := Some peer_bridge;
     Bridge.any_data := Some {| messageType := ReputationSync; sender := carol;
                                recipient := carol; amount := 0;
                                data := [5; 2400; 5] |} |}.

(** The disputed trade in a deployment whose administrator has, on top of
    the scripted grants, given the escrow contract the engine's
    dispute-resolver role. *)
Definition w_disputed_granted : World :=
  run E0 w_disputed
      [ (at_time admin 45, EngineGrantRole DISPUTE_RESOLVER_ROLE (escrow_address E0)) ].

(** An inbound ReputationSync message bringing [carol] ten trades rated
    4.00 on average. *)
Definition inbound_bronze : Bridge.Any2EVMMessage :=
  {| Bridge.messageId := 556;
     Bridge.sourceChainSelector := other_chain;
     Bridge.any_sender := Some peer_bridge;
     Bridge.any_data := Some {| messageType := ReputationSync; sender := carol;
                                recipient := carol; amount := 0;
                                data := [10; 4000; 10] |} |}.

Definition w_bronze : World :=
  exec E0 w_configured (at_time router 70, CcipReceive inbound_bronze).

(** The deployer, who holds the badge contract's minter role from its
    constructor, mints a Bronze badge to [carol] directly. *)
Definition w_minted : World :=
  exec E0 w_configured (at_time admin 5, MintBadge carol Bronze 10 400 31337).


(** The delivered trade, confirmed by the buyer with a rating of 450. *)
Definition w_completed : World :=
  run E0 (w_delivered 100) [ (at_time alice 40, ConfirmDelivery 7000 450) ].

(** And then rated by the seller. *)
Definition w_rated : World :=
  exec E0 w_completed (at_time bob 50, RateBuyer 7000 500).

(** An inbound ReputationSync message bringing [bob] ten trades but a
    single rating of 500. *)
Definition inbound_uneven : Bridge.Any2EVMMessage :=
  {| Bridge.messageId := 557;
     Bridge.sourceChainSelector := other_chain;
     Bridge.any_sender := Some peer_bridge;
     Bridge.any_data := Some {| messageType := ReputationSync; sender := bob;
                                recipient := bob; amount := 0;
                                data := [10; 500; 1] |} |}.

Definition w_uneven : World :=
  exec E0 w_configured (at_time router 70, CcipReceive inbound_uneven).

(** ** Further scenarios *)

(** What follows the buyer's confirmation in [settle_and_retry]. *)
Definition retry_after_settlement : list (Ctx * Call) :=
  [ (at_time bob 50, RateBuyer 7000 500);
    (at_time alice 60, CreateTrade bob usdc 300 "Second item" 0);
    (at_time carol 2000000, AutoRelease 7000);
    (at_time alice 2000000, CancelTrade 7000);
    (at_time carol 2000000, ClaimExpiredTrade 7000);
    (at_time resolver 2000000, ResolveDispute 7000 alice) ].

(** A trade of 100 units just created: it expires at 10 + 7 days. *)
Definition w_created : World :=
  run E0 w_configured [ (at_time alice 10, CreateTrade bob usdc 100 "Test item" 0) ].

(** [alice] has approved the bridge for 5000 units. *)
Definition w_bridge_approved : World :=
  exec E0 w_configured (at_time alice 2, Erc20Approve usdc (bridge_address E0) 5000).

(** [alice] bridges 1000 units to [carol] on the other chain, the standard way. *)
Definition bridged
  : result (Bridge.State * Token.State * bytes32 * list Effect) :=
  BridgeAssets.bridgeTokens E0 (bridge w_bridge_approved) (tokens w_bridge_approved)
                            (at_time alice 100) other_chain carol 1000 false reply0.

Definition bridged_state : Bridge.State :=
  match bridged with Ok (s, _, _, _) => s | Revert _ => bridge w_bridge_approved end.

Definition bridged_tokens : Token.State :=
  match bridged with Ok (_, tk, _, _) => tk | Revert _ => tokens w_bridge_approved end.

Definition bridged_effects : list Effect :=
  match bridged with Ok (_, _, _, effects) => effects | Revert _ => [] end.

(** [alice] adds 400 units of liquidity for the other chain. *)
Definition pooled : result (Bridge.State * Token.State * list Effect) :=
  BridgeAssets.addLiquidity E0 (bridge w_bridge_approved) (tokens w_bridge_approved)
                            (at_time alice 100) other_chain 400.

Definition pooled_state : Bridge.State :=
  match pooled with Ok (s, _, _) => s | Revert _ => bridge w_bridge_approved end.

Definition pooled_tokens : Token.State :=
  match pooled with Ok (_, tk, _) => tk | Revert _ => tokens w_bridge_approved end.

(** The administrator has deactivated the other chain. *)
Definition w_deactivated : World :=
  exec E0 w_configured (at_time admin 60, DeactivateChain other_chain).

(** The administrator has set the auto-release delay to the largest
    uint256 while a trade stands delivered. *)
Definition w_uncapped_delay : World :=
  exec E0 (w_delivered 100) (at_time admin 35, UpdateAutoReleaseDelay MAX_UINT256).


(** * Proofs *)

(** ** Storage reads and the result monad *)

Section Storage.
Context {K V : Type} `{Countable K} `{Zero V}.

Lemma sload_insert (m : gmap K V) (k : K) (v : V) : (<[k := v]> m).[k] = v.
Proof. unfold sload. rewrite lookup_insert_eq. reflexivity. Qed.

Lemma sload_insert_ne (m : gmap K V) (k k' : K) (v : V) :
  k <> k' -> (<[k := v]> m).[k'] = m.[k'].
Proof. intros Hne. unfold sload. rewrite lookup_insert_ne by exact Hne. reflexivity. Qed.

Lemma sload_empty (k : K) : (∅ : gmap K V).[k] = zero.
Proof. unfold sload. rewrite lookup_empty. reflexivity. Qed.

Lemma sload_None (m : gmap K V) (k : K) : m !! k = None -> m.[k] = zero.
Proof. intros Hk. unfold sload. rewrite Hk. reflexivity. Qed.

End Storage.

Lemma bind_Ok {A B : Type} (m : result A) (k : A -> result B) (r : B) :
  bind m k = Ok r -> exists a, m = Ok a /\ k a = Ok r.
Proof. destruct m as [a|e]; simpl; intros Hr; [eauto | discriminate]. Qed.

Lemma revert_if_Ok (cond : bool) (e : Error) (u : unit) :
  revert_if cond e = Ok u -> cond = false.
Proof. destruct cond; simpl; [discriminate | reflexivity]. Qed.

Lemma require_Ok (cond : bool) (msg : string) (u : unit) :
  require cond msg = Ok u -> cond = true.
Proof. destruct cond; simpl; [reflexivity | discriminate]. Qed.

Lemma add256_Ok (a b r : Z) : add256 a b = Ok r -> r = a + b /\ a + b <= MAX_UINT256.
Proof.
  unfold add256. destruct (Z.leb_spec (a + b) MAX_UINT256); intros Hr; [|discriminate].
  inversion Hr. split; [reflexivity | assumption].
Qed.

Lemma sub256_Ok (a b r : Z) : sub256 a b = Ok r -> r = a - b /\ b <= a.
Proof.
  unfold sub256. destruct (Z.leb_spec b a); intros Hr; [|discriminate].
  inversion Hr. split; [reflexivity | assumption].
Qed.

Lemma mul256_Ok (a b r : Z) : mul256 a b = Ok r -> r = a * b /\ a * b <= MAX_UINT256.
Proof.
  unfold mul256. destruct (Z.leb_spec (a * b) MAX_UINT256); intros Hr; [|discriminate].
  inversion Hr. split; [reflexivity | assumption].
Qed.

Lemma add256_fits (a b : Z) : a + b <= MAX_UINT256 -> add256 a b = Ok (a + b).
Proof. intros Hle. unfold add256. destruct (Z.leb_spec (a + b) MAX_UINT256); [reflexivity | lia]. Qed.

Lemma onlyRole_Ok (rs : gmap (Role * Z) bool) (role : Role) (c : Ctx) (u : unit) :
  AccessControl.onlyRole rs role c = Ok u ->
  AccessControl.hasRole rs role (msg_sender c) = true.
Proof.
  unfold AccessControl.onlyRole. intros Hr. apply revert_if_Ok in Hr.
  destruct (AccessControl.hasRole rs role (msg_sender c)); [reflexivity | discriminate].
Qed.

Lemma onlyRole_granted (rs : gmap (Role * Z) bool) (role : Role) (c : Ctx) :
  AccessControl.hasRole rs role (msg_sender c) = true ->
  AccessControl.onlyRole rs role c = Ok tt.
Proof. intros Hr. unfold AccessControl.onlyRole. rewrite Hr. reflexivity. Qed.

Lemma onlyRole_denied (rs : gmap (Role * Z) bool) (role : Role) (c : Ctx) :
  AccessControl.hasRole rs role (msg_sender c) = false ->
  AccessControl.onlyRole rs role c = Revert (AccessControlUnauthorizedAccount (msg_sender c)).
Proof. intros Hr. unfold AccessControl.onlyRole. rewrite Hr. reflexivity. Qed.

(** Peel the successful prefix off a call that returned [Ok]. *)
Ltac inv_ok :=
  repeat match goal with
  | H : bind _ _ = Ok _ |- _ =>
      let a := fresh "a" in let Ha := fresh "Ha" in
      apply bind_Ok in H; destruct H as (a & Ha & H); cbv beta in H
  | H : revert_if _ _ = Ok _ |- _ => apply revert_if_Ok in H
  | H : require _ _ = Ok _ |- _ => apply require_Ok in H
  | H : AccessControl.onlyRole _ _ _ = Ok _ |- _ => apply onlyRole_Ok in H
  | H : add256 _ _ = Ok _ |- _ => apply add256_Ok in H; destruct H as [-> H]
  | H : sub256 _ _ = Ok _ |- _ => apply sub256_Ok in H; destruct H as [-> H]
  | H : mul256 _ _ = Ok _ |- _ => apply mul256_Ok in H; destruct H as [-> H]
  | H : Ok _ = Ok _ |- _ => inversion H; clear H; subst
  | H : Revert _ = Ok _ |- _ => discriminate H
  | H : match ?p with pair _ _ => _ end = Ok _ |- _ => destruct p
  end.

(** Closed conjunctions of equations, decided by evaluation. *)
Ltac evaluate :=
  repeat match goal with |- _ /\ _ => split end; vm_compute; reflexivity.

(** ** What each successful escrow call did *)

(** Turn the boolean guards that a successful call passed into facts. *)
Ltac guards :=
  repeat match goal with
  | H : negb _ = false |- _ => apply negb_false_iff in H
  | H : negb _ = true |- _ => apply negb_true_iff in H
  | H : _ || _ = false |- _ => apply orb_false_iff in H; destruct H
  | H : _ && _ = true |- _ => apply andb_true_iff in H; destruct H
  | H : bool_decide _ = true |- _ => apply bool_decide_eq_true_1 in H
  | H : bool_decide _ = false |- _ => apply bool_decide_eq_false_1 in H
  | H : (_ =? _) = true |- _ => apply Z.eqb_eq in H
  | H : (_ =? _) = false |- _ => apply Z.eqb_neq in H
  | H : (_ <? _) = false |- _ => apply Z.ltb_ge in H
  | H : (_ <? _) = true |- _ => apply Z.ltb_lt in H
  | H : (_ <=? _) = false |- _ => apply Z.leb_gt in H
  | H : (_ <=? _) = true |- _ => apply Z.leb_le in H
  | H : Escrow.status_is_not _ _ = false |- _ => unfold Escrow.status_is_not in H
  | H : Escrow.status_is_not _ _ = true |- _ => unfold Escrow.status_is_not in H
  end.

Lemma calculateFee_Ok (x : Escrow.State) (a fee : Z) :
  Escrow.calculateFee x a = Ok fee -> fee = a * Escrow.platformFeeRate x / 10000.
Proof.
  unfold Escrow.calculateFee, div256, Escrow.BASIS_POINTS. intros Hf. inv_ok.
  simpl in Hf. inv_ok. reflexivity.
Qed.

Lemma createTrade_record (E : Env) (x : Escrow.State) (tk : Token.State) (en : Engine.State)
    (c : Ctx) (seller token amt : Z) (desc : string) (expiry : Z)
    (x' : Escrow.State) (tk' : Token.State) (en' : Engine.State) (id : Z)
    (effects : list Effect) :
  Escrow.createTrade E x tk en c seller token amt desc expiry = Ok (x', tk', en', id, effects) ->
  id = keccak_trade E (msg_sender c) seller (block_timestamp c) (Escrow._tradeNonce x) /\
  Escrow.trades x' = <[id := (Escrow.trades x').[id]]> (Escrow.trades x) /\
  Escrow.status (Escrow.trades x').[id] = Escrow.Created /\
  Escrow.buyer (Escrow.trades x').[id] = msg_sender c /\
  Escrow.seller (Escrow.trades x').[id] = seller /\
  Escrow.paymentToken (Escrow.trades x').[id] = token /\
  Escrow.amount (Escrow.trades x').[id] = amt /\
  Escrow.platformFee (Escrow.trades x').[id] = amt * Escrow.platformFeeRate x / 10000 /\
  Escrow.buyerRating (Escrow.trades x').[id] = 0 /\
  Escrow.sellerRating (Escrow.trades x').[id] = 0 /\
  effects = [TransferIn token (msg_sender c) amt].
Proof.
  unfold Escrow.createTrade. intros Hc. inv_ok.
  match goal with H : Escrow.calculateFee _ _ = Ok _ |- _ => apply calculateFee_Ok in H; subst end.
  simpl. rewrite !sload_insert. simpl. repeat split.
Qed.

Lemma release_Ok (E : Env) (x : Escrow.State) (tk tk' : Token.State) (t : Escrow.Trade)
    (effects : list Effect) :
  Escrow.release E x tk t = Ok (tk', effects) ->
  Escrow.platformFee t <= Escrow.amount t /\
  effects = [TransferOut (Escrow.paymentToken t) (Escrow.seller t)
                         (Escrow.amount t - Escrow.platformFee t);
             TransferOut (Escrow.paymentToken t) (Escrow.feeRecipient x) (Escrow.platformFee t)].
Proof. unfold Escrow.release. intros Hr. inv_ok. split; [assumption | reflexivity]. Qed.

Lemma confirmDelivery_Ok (E : Env) (x x' : Escrow.State) (tk tk' : Token.State) (c : Ctx)
    (id rating : Z) (effects : list Effect) :
  Escrow.confirmDelivery E x tk c id rating = Ok (x', tk', effects) ->
  let t := (Escrow.trades x).[id] in
  Escrow.status t = Escrow.Delivered /\
  msg_sender c = Escrow.buyer t /\
  100 <= rating <= 500 /\
  Escrow.platformFee t <= Escrow.amount t /\
  x' = Escrow.set_trades x
         (<[id := Escrow.set_buyerRating
                    (Escrow.set_completedAt (Escrow.set_status t Escrow.Completed)
                                            (block_timestamp c)) rating]> (Escrow.trades x)) /\
  effects = [TransferOut (Escrow.paymentToken t) (Escrow.seller t)
                         (Escrow.amount t - Escrow.platformFee t);
             TransferOut (Escrow.paymentToken t) (Escrow.feeRecipient x) (Escrow.platformFee t)].
Proof.
  unfold Escrow.confirmDelivery, Escrow.status_is_not. intros Hc. inv_ok.
  match goal with H : Escrow.release _ _ _ _ = Ok _ |- _ => apply release_Ok in H; simpl in H;
    destruct H as [Hfee ->] end.
  simpl. repeat split; try assumption.
  - match goal with H : negb (bool_decide _) = false |- _ =>
      apply negb_false_iff, bool_decide_eq_true_1 in H; exact H end.
  - match goal with H : negb (_ =? _) = false |- _ =>
      apply negb_false_iff, Z.eqb_eq in H; exact H end.
  - match goal with H : (_ <? 100) || _ = false |- _ =>
      apply orb_false_iff in H; destruct H as [H _]; apply Z.ltb_ge in H; exact H end.
  - match goal with H : _ || (500 <? _) = false |- _ =>
      apply orb_false_iff in H; destruct H as [_ H]; apply Z.ltb_ge in H; exact H end.
Qed.

Lemma acceptTrade_Ok (x x' : Escrow.State) (c : Ctx) (id : Z) :
  Escrow.acceptTrade x c id = Ok x' ->
  let t := (Escrow.trades x).[id] in
  Escrow.status t = Escrow.Created /\
  msg_sender c = Escrow.seller t /\
  block_timestamp c <= Escrow.expiresAt t /\
  x' = Escrow.set_trades x (<[id := Escrow.set_status t Escrow.SellerAccepted]> (Escrow.trades x)).
Proof. unfold Escrow.acceptTrade. intros Hc. inv_ok. guards. simpl. repeat split; auto. Qed.

Lemma markDelivered_Ok (x x' : Escrow.State) (c : Ctx) (id : Z) (proof : string) :
  Escrow.markDelivered x c id proof = Ok x' ->
  let t := (Escrow.trades x).[id] in
  Escrow.status t = Escrow.SellerAccepted /\
  msg_sender c = Escrow.seller t /\
  x' = Escrow.set_trades x
         (<[id := Escrow.set_deliveryProof
                    (Escrow.set_deliveredAt (Escrow.set_status t Escrow.Delivered)
                                            (block_timestamp c)) proof]> (Escrow.trades x)).
Proof. unfold Escrow.markDelivered. intros Hc. inv_ok. guards. simpl. repeat split; auto. Qed.

Lemma rateBuyer_Ok (E : Env) (x x' : Escrow.State) (en en' : Engine.State)
    (b b' : Badge.State) (c : Ctx) (id rating : Z) :
  Escrow.rateBuyer E x en b c id rating = Ok (x', en', b') ->
  let t := (Escrow.trades x).[id] in
  Escrow.status t = Escrow.Completed /\
  msg_sender c = Escrow.seller t /\
  100 <= rating <= 500 /\
  Escrow.sellerRating t = 0 /\
  x' = Escrow.set_trades x (<[id := Escrow.set_sellerRating t rating]> (Escrow.trades x)) /\
  (if Escrow.buyerRating t =? 0
   then en' = en /\ b' = b
   else Engine.recordTrade E en b (Escrow.as_escrow E c) id (Escrow.seller t) (Escrow.buyer t)
                           (Escrow.amount t) (Escrow.buyerRating t) rating = Ok (en', b')).
Proof.
  unfold Escrow.rateBuyer. intros Hc. inv_ok. simpl in Hc.
  destruct (Escrow.buyerRating (Escrow.trades x).[id] =? 0) eqn:Hb; simpl in Hc; inv_ok; guards;
    simpl; repeat split; auto.
Qed.

Lemma cancelTrade_Ok (E : Env) (x x' : Escrow.State) (tk tk' : Token.State) (c : Ctx) (id : Z)
    (effects : list Effect) :
  Escrow.cancelTrade E x tk c id = Ok (x', tk', effects) ->
  let t := (Escrow.trades x).[id] in
  Escrow.status t = Escrow.Created /\
  msg_sender c = Escrow.buyer t /\
  x' = Escrow.set_trades x (<[id := Escrow.set_status t Escrow.Cancelled]> (Escrow.trades x)) /\
  effects = [TransferOut (Escrow.paymentToken t) (Escrow.buyer t) (Escrow.amount t)].
Proof. unfold Escrow.cancelTrade. intros Hc. inv_ok. guards. simpl. repeat split; auto. Qed.

Lemma claimExpiredTrade_Ok (E : Env) (x x' : Escrow.State) (tk tk' : Token.State) (c : Ctx)
    (id : Z) (effects : list Effect) :
  Escrow.claimExpiredTrade E x tk c id = Ok (x', tk', effects) ->
  let t := (Escrow.trades x).[id] in
  (Escrow.status t = Escrow.Created \/ Escrow.status t = Escrow.SellerAccepted) /\
  Escrow.expiresAt t < block_timestamp c /\
  x' = Escrow.set_trades x (<[id := Escrow.set_status t Escrow.Expired]> (Escrow.trades x)) /\
  effects = [TransferOut (Escrow.paymentToken t) (Escrow.buyer t) (Escrow.amount t)].
Proof.
  unfold Escrow.claimExpiredTrade, Escrow.status_is_not. intros Hc. inv_ok. guards. simpl.
  repeat split; auto.
  match goal with H : _ && _ = false |- _ => apply andb_false_iff in H; destruct H end;
    guards; auto.
Qed.

Lemma autoRelease_Ok (E : Env) (x x' : Escrow.State) (tk tk' : Token.State) (c : Ctx) (id : Z)
    (effects : list Effect) :
  Escrow.autoRelease E x tk c id = Ok (x', tk', effects) ->
  let t := (Escrow.trades x).[id] in
  Escrow.status t = Escrow.Delivered /\
  Escrow.deliveredAt t + Escrow.autoReleaseDelay x <= block_timestamp c /\
  Escrow.platformFee t <= Escrow.amount t /\
  x' = Escrow.set_trades x
         (<[id := Escrow.set_buyerRating
                    (Escrow.set_completedAt (Escrow.set_status t Escrow.Completed)
                                            (block_timestamp c)) 500]> (Escrow.trades x)) /\
  effects = [TransferOut (Escrow.paymentToken t) (Escrow.seller t)
                         (Escrow.amount t - Escrow.platformFee t);
             TransferOut (Escrow.paymentToken t) (Escrow.feeRecipient x) (Escrow.platformFee t)].
Proof.
  unfold Escrow.autoRelease. intros Hc. inv_ok.
  match goal with H : Escrow.release _ _ _ _ = Ok _ |- _ => apply release_Ok in H; simpl in H;
    destruct H as [Hfee ->] end.
  guards. simpl. repeat split; auto.
Qed.

Lemma raiseDispute_Ok (x x' : Escrow.State) (c : Ctx) (id : Z) (reason evidence : string) :
  Escrow.raiseDispute x c id reason evidence = Ok x' ->
  let t := (Escrow.trades x).[id] in
  Escrow.status t = Escrow.Delivered /\
  block_timestamp c <= Escrow.deliveredAt t + Escrow.disputeWindow x /\
  Escrow.trades x' = <[id := Escrow.set_status t Escrow.Disputed]> (Escrow.trades x) /\
  Escrow.feeRecipient x' = Escrow.feeRecipient x /\
  Escrow.buyerEvidence (Escrow.disputes x').[id]
    = (if msg_sender c =? Escrow.buyer t then evidence else EmptyString) /\
  Escrow.sellerEvidence (Escrow.disputes x').[id]
    = (if msg_sender c =? Escrow.seller t then evidence else EmptyString).
Proof.
  unfold Escrow.raiseDispute. intros Hc. inv_ok. guards. simpl. rewrite sload_insert. simpl.
  repeat split; auto.
Qed.

Lemma submitEvidence_Ok (x x' : Escrow.State) (c : Ctx) (id : Z) (evidence : string) :
  Escrow.submitEvidence x c id evidence = Ok x' ->
  Escrow.status (Escrow.trades x).[id] = Escrow.Disputed /\
  Escrow.trades x' = Escrow.trades x /\
  Escrow.feeRecipient x' = Escrow.feeRecipient x.
Proof. unfold Escrow.submitEvidence. intros Hc. inv_ok. guards. simpl. repeat split; auto. Qed.

Lemma resolveDispute_Ok (E : Env) (x x' : Escrow.State) (tk tk' : Token.State)
    (en en' : Engine.State) (c : Ctx) (id who : Z) (effects : list Effect) :
  Escrow.resolveDispute E x tk en c id who = Ok (x', tk', en', effects) ->
  let t := (Escrow.trades x).[id] in
  AccessControl.hasRole (Escrow.roles x) DISPUTE_RESOLVER_ROLE (msg_sender c) = true /\
  Escrow.status t = Escrow.Disputed /\
  (who = Escrow.buyer t \/ who = Escrow.seller t) /\
  Escrow.trades x' = <[id := Escrow.set_status t Escrow.Resolved]> (Escrow.trades x) /\
  Escrow.disputes x'
    = <[id := Escrow.set_resolution (Escrow.disputes x).[id] who (block_timestamp c)]>
        (Escrow.disputes x) /\
  Escrow.feeRecipient x' = Escrow.feeRecipient x /\
  effects = (if who =? Escrow.seller t
             then [TransferOut (Escrow.paymentToken t) who
                               (Escrow.amount t - Escrow.platformFee t);
                   TransferOut (Escrow.paymentToken t) (Escrow.feeRecipient x)
                               (Escrow.platformFee t)]
             else [TransferOut (Escrow.paymentToken t) who (Escrow.amount t)]) /\
  ((who =? Escrow.seller t) = true -> Escrow.platformFee t <= Escrow.amount t) /\
  Engine.recordDisputeResolution en (Escrow.as_escrow E c) id who
    (if who =? Escrow.buyer t then Escrow.seller t else Escrow.buyer t) = Ok en'.
Proof.
  unfold Escrow.resolveDispute. intros Hc. inv_ok.
  destruct (who =? Escrow.seller (Escrow.trades x).[id]) eqn:Hs; inv_ok; simpl;
    (split; [assumption|]); guards.
  - repeat split; auto.
  - repeat split; auto; try discriminate.
    match goal with H : _ && _ = false |- _ => simpl in H; rewrite andb_true_r in H end.
    guards. left. assumption.
Qed.

(** ** What a successful recordDisputeResolution did *)

Lemma recordDisputeResolution_user (e e' : Engine.State) (c : Ctx) (id winner loser : Z) :
  Engine.recordDisputeResolution e c id winner loser = Ok e' ->
  forall u : Z,
    let r := (Engine.userReputations e).[u] in
    let r' := (Engine.userReputations e').[u] in
    Engine.disputesWon r' = Engine.disputesWon r + indicator u winner /\
    Engine.disputesLost r' = Engine.disputesLost r + indicator u loser /\
    same_trade_fields r r'.
Proof.
  unfold Engine.recordDisputeResolution. intros Hcall u. inv_ok. simpl.
  unfold indicator, same_trade_fields.
  destruct (Z.eqb_spec u loser) as [->|Hl].
  - rewrite sload_insert. simpl.
    destruct (Z.eqb_spec loser winner) as [->|Hw].
    + rewrite !sload_insert. simpl. repeat split; lia.
    + rewrite !sload_insert_ne by congruence. repeat split; lia.
  - rewrite sload_insert_ne by congruence.
    destruct (Z.eqb_spec u winner) as [->|Hw].
    + rewrite !sload_insert. simpl. repeat split; lia.
    + rewrite !sload_insert_ne by congruence. repeat split; lia.
Qed.

Lemma recordDisputeResolution_rest (e e' : Engine.State) (c : Ctx) (id winner loser : Z) :
  Engine.recordDisputeResolution e c id winner loser = Ok e' ->
  Engine.userTradeHistory e' = Engine.userTradeHistory e /\
  Engine.tierThresholds e' = Engine.tierThresholds e /\
  Engine.processedCrossChainUpdates e' = Engine.processedCrossChainUpdates e /\
  Engine.roles e' = Engine.roles e /\
  Engine.chainId e' = Engine.chainId e.
Proof.
  unfold Engine.recordDisputeResolution. intros Hcall. inv_ok. simpl. repeat split.
Qed.

Lemma recordDisputeResolution_succeeds (e : Engine.State) (c : Ctx) (id winner loser : Z) :
  AccessControl.hasRole (Engine.roles e) DISPUTE_RESOLVER_ROLE (msg_sender c) = true ->
  Engine.disputesWon (Engine.userReputations e).[winner] < MAX_UINT256 ->
  Engine.disputesLost (Engine.userReputations e).[loser] < MAX_UINT256 ->
  exists e', Engine.recordDisputeResolution e c id winner loser = Ok e'.
Proof.
  intros Hrole Hw Hl. unfold Engine.recordDisputeResolution.
  rewrite (onlyRole_granted _ _ _ Hrole). simpl.
  rewrite add256_fits by lia. simpl.
  destruct (Z.eq_dec loser winner) as [->|Hne].
  - rewrite sload_insert. simpl. rewrite add256_fits by lia. simpl. eauto.
  - rewrite sload_insert_ne by congruence. rewrite add256_fits by lia. simpl. eauto.
Qed.


(** ** Fund conservation *)

(** A call that neither acts on trade [id] nor recreates it leaves the
    trade's record and its dispute record alone. *)
Lemma step_frame (E : Env) (w w' : World) (c : Ctx) (call : Call) (effects : list Effect)
    (id : Z) :
  step E w c call = Ok (w', effects) ->
  trade_of call <> Some id ->
  recreates E w c call id = false ->
  (Escrow.trades (escrow w')).[id] = (Escrow.trades (escrow w)).[id] /\
  (Escrow.disputes (escrow w')).[id] = (Escrow.disputes (escrow w)).[id].
Proof.
  intros Hstep Hother Hfresh.
  destruct call; simpl in Hstep, Hother, Hfresh; inv_ok; simpl; try (split; reflexivity);
    try (assert (Hne : tradeId <> id) by congruence).
  all: repeat match goal with
       | H : Escrow.createTrade _ _ _ _ _ _ _ _ _ _ = Ok _ |- _ =>
           unfold Escrow.createTrade in H
       | H : Escrow.acceptTrade _ _ _ = Ok _ |- _ => unfold Escrow.acceptTrade in H
       | H : Escrow.markDelivered _ _ _ _ = Ok _ |- _ => unfold Escrow.markDelivered in H
       | H : Escrow.confirmDelivery _ _ _ _ _ _ = Ok _ |- _ =>
           unfold Escrow.confirmDelivery in H
       | H : Escrow.rateBuyer _ _ _ _ _ _ _ = Ok _ |- _ =>
           apply rateBuyer_Ok in H; destruct H as (_ & _ & _ & _ & -> & _)
       | H : Escrow.cancelTrade _ _ _ _ _ = Ok _ |- _ => unfold Escrow.cancelTrade in H
       | H : Escrow.claimExpiredTrade _ _ _ _ _ = Ok _ |- _ =>
           unfold Escrow.claimExpiredTrade in H
       | H : Escrow.autoRelease _ _ _ _ _ = Ok _ |- _ => unfold Escrow.autoRelease in H
       | H : Escrow.raiseDispute _ _ _ _ _ = Ok _ |- _ => unfold Escrow.raiseDispute in H
       | H : Escrow.submitEvidence _ _ _ _ = Ok _ |- _ => unfold Escrow.submitEvidence in H
       | H : Escrow.resolveDispute _ _ _ _ _ _ _ = Ok _ |- _ =>
           unfold Escrow.resolveDispute in H
       | H : Escrow.addSupportedToken _ _ _ = Ok _ |- _ => unfold Escrow.addSupportedToken in H
       | H : Escrow.removeSupportedToken _ _ _ = Ok _ |- _ =>
           unfold Escrow.removeSupportedToken in H
       | H : Escrow.updateFeeRate _ _ _ = Ok _ |- _ => unfold Escrow.updateFeeRate in H
       | H : Escrow.updateFeeRecipient _ _ _ = Ok _ |- _ =>
           unfold Escrow.updateFeeRecipient in H
       | H : Escrow.updateDisputeWindow _ _ _ = Ok _ |- _ =>
           unfold Escrow.updateDisputeWindow in H
       | H : Escrow.updateAutoReleaseDelay _ _ _ = Ok _ |- _ =>
           unfold Escrow.updateAutoReleaseDelay in H
       | H : Escrow.pause _ _ = Ok _ |- _ => unfold Escrow.pause in H
       | H : Escrow.unpause _ _ = Ok _ |- _ => unfold Escrow.unpause in H
       end.
  all: inv_ok; simpl.
  all: guards; rewrite ?sload_insert_ne by congruence; split; reflexivity.
Qed.

Lemma same_terms_refl (t : Escrow.Trade) : same_terms t t.
Proof. repeat split. Qed.

(** A call that acts on trade [id]: the terms of the trade stay; a trade
    already terminal keeps its status and its dispute record and nothing is
    paid; a trade that becomes terminal pays exactly its disbursement; a
    trade that stays open pays nothing. *)
Ltac terms_kept := unfold same_terms; simpl; repeat split; reflexivity.

Lemma step_target (E : Env) (w w' : World) (c : Ctx) (call : Call) (effects : list Effect)
    (id : Z) :
  step E w c call = Ok (w', effects) ->
  trade_of call = Some id ->
  let t := (Escrow.trades (escrow w)).[id] in
  let t' := (Escrow.trades (escrow w')).[id] in
  let d := (Escrow.disputes (escrow w)).[id] in
  let d' := (Escrow.disputes (escrow w')).[id] in
  same_terms t t' /\
  (if is_terminal (Escrow.status t)
   then Escrow.status t' = Escrow.status t /\ Escrow.winner d' = Escrow.winner d /\
        transfers_out effects = []
   else if is_terminal (Escrow.status t')
        then transfers_out effects = disbursement t' d' (Escrow.feeRecipient (escrow w))
        else transfers_out effects = []).
Proof.
  intros Hstep Htarget.
  destruct call; simpl in Htarget; try discriminate; inversion Htarget; subst;
    simpl in Hstep; inv_ok; simpl.
  - (* acceptTrade *)
    apply acceptTrade_Ok in Ha. destruct Ha as (Hst & _ & _ & ->). simpl.
    rewrite sload_insert, Hst. simpl. split; [terms_kept | reflexivity].
  - (* markDelivered *)
    apply markDelivered_Ok in Ha. destruct Ha as (Hst & _ & ->). simpl.
    rewrite sload_insert, Hst. simpl. split; [terms_kept | reflexivity].
  - (* confirmDelivery *)
    apply confirmDelivery_Ok in Ha. destruct Ha as (Hst & _ & _ & _ & -> & ->). simpl.
    rewrite sload_insert, Hst. simpl. split; [terms_kept | reflexivity].
  - (* rateBuyer *)
    apply rateBuyer_Ok in Ha. destruct Ha as (Hst & _ & _ & _ & -> & _). simpl.
    rewrite sload_insert, Hst. simpl. split; [terms_kept | auto].
  - (* cancelTrade *)
    apply cancelTrade_Ok in Ha. destruct Ha as (Hst & _ & -> & ->). simpl.
    rewrite sload_insert, Hst. simpl. split; [terms_kept | reflexivity].
  - (* claimExpiredTrade *)
    apply claimExpiredTrade_Ok in Ha. destruct Ha as (Hst & _ & -> & ->). simpl.
    rewrite sload_insert. split; [terms_kept|].
    destruct Hst as [Hst|Hst]; rewrite Hst; reflexivity.
  - (* autoRelease *)
    apply autoRelease_Ok in Ha. destruct Ha as (Hst & _ & _ & -> & ->). simpl.
    rewrite sload_insert, Hst. simpl. split; [terms_kept | reflexivity].
  - (* raiseDispute *)
    apply raiseDispute_Ok in Ha. destruct Ha as (Hst & _ & Htr & _). rewrite Htr.
    rewrite sload_insert, Hst. simpl. split; [terms_kept | reflexivity].
  - (* submitEvidence *)
    apply submitEvidence_Ok in Ha. destruct Ha as (Hst & Htr & _). rewrite Htr, Hst. simpl.
    split; [terms_kept | reflexivity].
  - (* resolveDispute *)
    apply resolveDispute_Ok in Ha.
    destruct Ha as (_ & Hst & Hwho & Htr & Hdis & _ & -> & _ & _).
    rewrite Htr, Hdis, !sload_insert, Hst. simpl. split; [terms_kept|].
    unfold disbursement. simpl.
    destruct (Z.eqb_spec winner (Escrow.seller (Escrow.trades (escrow w)).[id])) as [Hs|Hs].
    + rewrite Hs. reflexivity.
    + destruct Hwho as [Hb|Hb]; [rewrite Hb; reflexivity | contradiction].
Qed.










(** ** Tiers *)

Lemma update_highest (b b' : Badge.State) (to id from : Z) :
  Badge._update b to id = Ok (b', from) -> Badge.userHighestTier b' = Badge.userHighestTier b.
Proof. unfold Badge._update. intros Hu. inv_ok. reflexivity. Qed.

Lemma safeMint_highest (E : Env) (b b' : Badge.State) (to id : Z) :
  Badge._safeMint E b to id = Ok b' -> Badge.userHighestTier b' = Badge.userHighestTier b.
Proof.
  unfold Badge._safeMint. intros Hm. inv_ok.
  match goal with H : Badge._update _ _ _ = Ok _ |- _ => apply update_highest in H; exact H end.
Qed.

Lemma mintBadge_highest (E : Env) (b b' : Badge.State) (c : Ctx) (to : Z) (tier : BadgeTier)
    (trades rating chain id : Z) :
  Badge.mintBadge E b c to tier trades rating chain = Ok (b', id) ->
  forall u : Z,
    highest b' u = highest b u \/
    (u = to /\ highest b' u = tier /\ tier_rank (highest b u) < tier_rank tier).
Proof.
  unfold Badge.mintBadge. intros Hm u. inv_ok.
  match goal with H : Badge._safeMint _ _ _ _ = Ok _ |- _ => apply safeMint_highest in H;
    simpl in H; rename H into Hh end.
  unfold highest. rewrite Hh.
  destruct (tier_rank (Badge.userHighestTier b).[to] <? tier_rank tier) eqn:Hlt;
    [|left; reflexivity].
  destruct (Z.eq_dec to u) as [->|Hne].
  - right. rewrite sload_insert. apply Z.ltb_lt in Hlt. auto.
  - left. apply sload_insert_ne. exact Hne.
Qed.

Lemma upgradeBadge_highest (E : Env) (b b' : Badge.State) (c : Ctx) (holder : Z)
    (tier : BadgeTier) (trades rating chain id : Z) :
  Badge.upgradeBadge E b c holder tier trades rating chain = Ok (b', id) ->
  forall u : Z,
    highest b' u = highest b u \/
    (u = holder /\ highest b' u = tier /\ tier_rank (highest b u) < tier_rank tier).
Proof.
  unfold Badge.upgradeBadge. intros Hm. inv_ok. eapply mintBadge_highest. exact Hm.
Qed.

Lemma determineEligibleTier_meets (e : Engine.State) (trades rating : Z) :
  Engine._determineEligibleTier e trades rating = TierNone \/
  Engine._meetsThreshold e (Engine._determineEligibleTier e trades rating) trades rating = true.
Proof.
  unfold Engine._determineEligibleTier.
  destruct (Engine._meetsThreshold e Diamond trades rating) eqn:H5; [right; exact H5|].
  destruct (Engine._meetsThreshold e Platinum trades rating) eqn:H4; [right; exact H4|].
  destruct (Engine._meetsThreshold e Gold trades rating) eqn:H3; [right; exact H3|].
  destruct (Engine._meetsThreshold e Silver trades rating) eqn:H2; [right; exact H2|].
  destruct (Engine._meetsThreshold e Bronze trades rating) eqn:H1; [right; exact H1|].
  left. reflexivity.
Qed.

Lemma tier_rank_nonneg (t : BadgeTier) : 0 <= tier_rank t.
Proof. destruct t; simpl; lia. Qed.

Lemma tier_rank_inj (s t : BadgeTier) : tier_rank s = tier_rank t -> s = t.
Proof. destruct s, t; simpl; intros Hr; try reflexivity; discriminate. Qed.

Lemma checkAndMintBadge_merit (E : Env) (e : Engine.State) (b : Badge.State) (c : Ctx)
    (user : Z) :
  raised_on_merit e b (Engine._checkAndMintBadge E e b c user).
Proof.
  unfold Engine._checkAndMintBadge. intros u.
  destruct (tier_rank (Badge.userHighestTier b).[user] <? tier_rank _) eqn:Hlt;
    [|left; reflexivity].
  destruct (Badge.mintBadge E b _ user _ _ _ _) as [[b' id]|err] eqn:Hm; [|left; reflexivity].
  destruct (mintBadge_highest _ _ _ _ _ _ _ _ _ _ Hm u) as [Hsame|(-> & Hnew & Hup)];
    [left; exact Hsame|].
  right. rewrite Hnew. split; [exact Hup|].
  unfold Engine.meetsThreshold.
  destruct (determineEligibleTier_meets e
              (Engine.successfulTrades (Engine.userReputations e).[user])
              (Engine._calculateAverageRating e user)) as [Hnone|Hmeets]; [|exact Hmeets].
  rewrite Hnone in Hup. simpl in Hup. pose proof (tier_rank_nonneg (highest b user)). lia.
Qed.

Lemma raised_on_merit_refl (e : Engine.State) (b : Badge.State) : raised_on_merit e b b.
Proof. intros u. left. reflexivity. Qed.

Lemma raised_on_merit_trans (e : Engine.State) (b1 b2 b3 : Badge.State) :
  raised_on_merit e b1 b2 -> raised_on_merit e b2 b3 -> raised_on_merit e b1 b3.
Proof.
  intros H12 H23 u. destruct (H23 u) as [Heq|[Hlt Hm]].
  - rewrite Heq. apply H12.
  - right. split; [|exact Hm].
    destruct (H12 u) as [Heq|[Hlt' _]]; [rewrite <- Heq; exact Hlt | lia].
Qed.

Lemma recordTrade_merit (E : Env) (e e' : Engine.State) (b b' : Badge.State) (c : Ctx)
    (id seller buyer amt sr br : Z) :
  Engine.recordTrade E e b c id seller buyer amt sr br = Ok (e', b') ->
  raised_on_merit e' b b'.
Proof.
  unfold Engine.recordTrade. intros Hr. inv_ok.
  eapply raised_on_merit_trans; apply checkAndMintBadge_merit.
Qed.

Lemma sync_merit (E : Env) (e e' : Engine.State) (b b' : Badge.State) (c : Ctx)
    (user src t p n syncId : Z) :
  Engine.syncCrossChainReputation E e b c user src t p n syncId = Ok (e', b') ->
  raised_on_merit e' b b'.
Proof.
  unfold Engine.syncCrossChainReputation. intros Hs. inv_ok.
  destruct ((Engine.processedCrossChainUpdates e).[syncId]); inv_ok.
  - apply raised_on_merit_refl.
  - apply checkAndMintBadge_merit.
Qed.

Lemma rateBuyer_merit (E : Env) (x x' : Escrow.State) (en en' : Engine.State)
    (b b' : Badge.State) (c : Ctx) (id rating : Z) :
  Escrow.rateBuyer E x en b c id rating = Ok (x', en', b') -> raised_on_merit en' b b'.
Proof.
  intros Hr. apply rateBuyer_Ok in Hr. destruct Hr as (_ & _ & _ & _ & _ & Hrec).
  destruct (Escrow.buyerRating (Escrow.trades x).[id] =? 0).
  - destruct Hrec as [_ ->]. apply raised_on_merit_refl.
  - eapply recordTrade_merit. exact Hrec.
Qed.

Lemma ccipReceive_merit (E : Env) (s s' : Bridge.State) (tk tk' : Token.State)
    (en en' : Engine.State) (b b' : Badge.State) (c : Ctx) (m : Bridge.Any2EVMMessage)
    (effects : list Effect) :
  Bridge.ccipReceive E s tk en b c m = Ok (s', tk', en', b', effects) ->
  raised_on_merit en' b b'.
Proof.
  unfold Bridge.ccipReceive, Bridge._ccipReceive. intros Hr. inv_ok.
  destruct (messageType _); inv_ok; try apply raised_on_merit_refl.
  match goal with H : Bridge._handleReputationSync _ _ _ _ _ _ _ = Ok _ |- _ =>
    unfold Bridge._handleReputationSync in H; inv_ok; eapply sync_merit; exact H end.
Qed.

(** Every successful call leaves each pointer where it was or higher; a
    call other than a direct mint moves it only on merit. *)
Lemma step_tier (E : Env) (w w' : World) (c : Ctx) (call : Call) (effects : list Effect) :
  step E w c call = Ok (w', effects) ->
  (forall u, tier_rank (highest (badge w) u) <= tier_rank (highest (badge w') u)) /\
  (direct_mint call = false -> raised_on_merit (engine w') (badge w) (badge w')).
Proof.
  intros Hstep.
  assert (Hmono : forall e b b', raised_on_merit e b b' ->
            forall u, tier_rank (highest b u) <= tier_rank (highest b' u)).
  { intros e b b' Hm u. destruct (Hm u) as [->|[Hlt _]]; lia. }
  destruct call; simpl in Hstep; inv_ok; simpl;
    try (split; [intros u; unfold highest; simpl; lia | intros _ u; left; reflexivity]).
  - (* mintBadge *)
    split; [|discriminate]. intros u.
    match goal with H : Badge.mintBadge _ _ _ _ _ _ _ _ = Ok _ |- _ =>
      destruct (mintBadge_highest _ _ _ _ _ _ _ _ _ _ H u) as [->|(_ & -> & Hlt)]; lia end.
  - (* upgradeBadge *)
    split; [|discriminate]. intros u.
    match goal with H : Badge.upgradeBadge _ _ _ _ _ _ _ _ = Ok _ |- _ =>
      destruct (upgradeBadge_highest _ _ _ _ _ _ _ _ _ _ H u) as [->|(_ & -> & Hlt)]; lia end.
  - (* recordTrade *)
    match goal with H : Engine.recordTrade _ _ _ _ _ _ _ _ _ _ = Ok _ |- _ =>
      apply recordTrade_merit in H; split; [eapply Hmono; exact H | intros _; exact H] end.
  - (* syncCrossChainReputation *)
    match goal with H : Engine.syncCrossChainReputation _ _ _ _ _ _ _ _ _ _ = Ok _ |- _ =>
      apply sync_merit in H; split; [eapply Hmono; exact H | intros _; exact H] end.
  - (* rateBuyer *)
    match goal with H : Escrow.rateBuyer _ _ _ _ _ _ _ = Ok _ |- _ =>
      apply rateBuyer_merit in H; split; [eapply Hmono; exact H | intros _; exact H] end.
  - (* ccipReceive *)
    match goal with H : Bridge.ccipReceive _ _ _ _ _ _ _ = Ok _ |- _ =>
      apply ccipReceive_merit in H; split; [eapply Hmono; exact H | intros _; exact H] end.
Qed.

Lemma exec_tier (E : Env) (w : World) (tx : Ctx * Call) (u : Z) :
  tier_rank (highest (badge w) u) <= tier_rank (highest (badge (exec E w tx)) u).
Proof.
  unfold exec. destruct (step E w (fst tx) (snd tx)) as [[w' effects]|err] eqn:Hs; simpl;
    [|lia].
  apply (proj1 (step_tier _ _ _ _ _ _ Hs)).
Qed.

Lemma run_tier (E : Env) (txs : list (Ctx * Call)) (w : World) (u : Z) :
  tier_rank (highest (badge w) u) <= tier_rank (highest (badge (run E w txs)) u).
Proof.
  revert w. induction txs as [|tx txs IH]; intros w; [simpl; lia|].
  change (run E w (tx :: txs)) with (run E (exec E w tx) txs).
  pose proof (exec_tier E w tx u). specialize (IH (exec E w tx)). lia.
Qed.

(** What a successful direct mint did to the pointers. *)
Lemma mintBadge_pointer (E : Env) (b b' : Badge.State) (c : Ctx) (to : Z) (tier : BadgeTier)
    (trades rating chain id : Z) :
  Badge.mintBadge E b c to tier trades rating chain = Ok (b', id) ->
  AccessControl.hasRole (Badge.roles b) MINTER_ROLE (msg_sender c) = true /\
  forall u : Z,
    highest b' u
    = if (u =? to) && (tier_rank (highest b u) <? tier_rank tier) then tier else highest b u.
Proof.
  unfold Badge.mintBadge. intros Hm. inv_ok.
  match goal with H : Badge._safeMint _ _ _ _ = Ok _ |- _ => apply safeMint_highest in H;
    simpl in H; rename H into Hh end.
  split; [assumption|]. intros u. unfold highest. rewrite Hh.
  destruct (Z.eqb_spec u to) as [->|Hne]; simpl.
  - destruct (tier_rank (Badge.userHighestTier b).[to] <? tier_rank tier);
      [apply sload_insert | reflexivity].
  - destruct (tier_rank (Badge.userHighestTier b).[to] <? tier_rank tier);
      [apply sload_insert_ne; congruence | reflexivity].
Qed.

Lemma upgradeBadge_pointer (E : Env) (b b' : Badge.State) (c : Ctx) (holder : Z)
    (tier : BadgeTier) (trades rating chain id : Z) :
  Badge.upgradeBadge E b c holder tier trades rating chain = Ok (b', id) ->
  AccessControl.hasRole (Badge.roles b) MINTER_ROLE (msg_sender c) = true /\
  AccessControl.hasRole (Badge.roles b) MINTER_ROLE (badge_address E) = true /\
  tier_rank (highest b holder) < tier_rank tier /\
  forall u : Z, highest b' u = if u =? holder then tier else highest b u.
Proof.
  unfold Badge.upgradeBadge. intros Hm. inv_ok.
  match goal with H : (_ <=? _) = false |- _ => apply Z.leb_gt in H; rename H into Hup end.
  apply mintBadge_pointer in Hm. destruct Hm as [Hself Hptr]. simpl in Hself.
  split; [assumption|]. split; [exact Hself|]. split; [exact Hup|].
  intros u. rewrite Hptr. destruct (Z.eqb_spec u holder) as [->|Hne]; simpl;
    [|reflexivity].
  unfold highest. rewrite (proj2 (Z.ltb_lt _ _) Hup). reflexivity.
Qed.

(** C2, as the code has it.  Over any sequence of transactions, calls of
    any of the four contracts included, a user's highest-tier pointer never
    goes down.  A successful call other than a direct [mintBadge] or
    [upgradeBadge], so [recordTrade], [syncCrossChainReputation] and the
    escrow and bridge calls that reach them, changes a pointer only to a
    tier strictly above the old one whose trade-count and rating
    thresholds the user's stored successful trades and average rating both
    meet after the call.  A successful direct [mintBadge] was made by a
    holder of the minter role and consults no threshold: it sets the
    recipient's pointer to the minted tier when that tier ranks above the
    pointer, and leaves every pointer as it was otherwise.  A successful
    direct [upgradeBadge] needed more: the caller and the badge contract
    itself both held the minter role and the tier ranked above the
    holder's pointer, which it then set to that tier. *)
Theorem tier_monotone (E : Env) (w : World) (c : Ctx) (call : Call) (w' : World)
    (effects : list Effect) (u : address) :
  step E w c call = Ok (w', effects) ->
  (forall (w0 : World) (txs : list (Ctx * Call)),
     tier_rank (highest (badge w0) u) <= tier_rank (highest (badge (run E w0 txs)) u)) /\
  tier_rank (highest (badge w) u) <= tier_rank (highest (badge w') u) /\
  (direct_mint call = false ->
   highest (badge w') u <> highest (badge w) u ->
   tier_rank (highest (badge w) u) < tier_rank (highest (badge w') u) /\
   Engine.meetsThreshold (engine w') u (highest (badge w') u) = true) /\
  match call with
  | MintBadge to tier _ _ _ =>
      AccessControl.hasRole (Badge.roles (badge w)) MINTER_ROLE (msg_sender c) = true /\
      highest (badge w') u
      = (if (u =? to) && (tier_rank (highest (badge w) u) <? tier_rank tier)
         then tier else highest (badge w) u)
  | UpgradeBadge holder tier _ _ _ =>
      AccessControl.hasRole (Badge.roles (badge w)) MINTER_ROLE (msg_sender c) = true /\
      AccessControl.hasRole (Badge.roles (badge w)) MINTER_ROLE (badge_address E) = true /\
      tier_rank (highest (badge w) holder) < tier_rank tier /\
      highest (badge w') u = (if u =? holder then tier else highest (badge w) u)
  | _ => True
  end.
Proof.
  intros Hstep. split; [intros w0 txs; apply run_tier|].
  destruct (step_tier _ _ _ _ _ _ Hstep) as [Hmono Hmerit].
  split; [apply Hmono|]. split.
  - intros Hengine Hmoved.
    destruct (Hmerit Hengine u) as [Hsame|Hup]; [contradiction | exact Hup].
  - destruct call; try exact I; simpl in Hstep; inv_ok; simpl.
    + match goal with H : Badge.mintBadge _ _ _ _ _ _ _ _ = Ok _ |- _ =>
        apply mintBadge_pointer in H; destruct H as [Hrole Hptr] end.
      split; [exact Hrole | apply Hptr].
    + match goal with H : Badge.upgradeBadge _ _ _ _ _ _ _ _ = Ok _ |- _ =>
        apply upgradeBadge_pointer in H; destruct H as (Hrole & Hself & Hup & Hptr) end.
      split; [exact Hrole|]. split; [exact Hself|]. split; [exact Hup | apply Hptr].
Qed.

Lemma tier_monotone_witness :
  highest (badge w_configured) carol = TierNone /\
  highest (badge w_bronze) carol = Bronze /\
  Engine.meetsThreshold (engine w_bronze) carol Bronze = true.
Proof.
  assert (Hstep : step E0 w_configured (at_time router 70) (CcipReceive inbound_bronze)
                  = Ok (w_bronze, [])) by (vm_compute; reflexivity).
  destruct (tier_monotone E0 _ _ _ _ _ carol Hstep) as (_ & _ & Hmerit & _).
  assert (H0 : highest (badge w_configured) carol = TierNone) by (vm_compute; reflexivity).
  assert (H1 : highest (badge w_bronze) carol = Bronze) by (vm_compute; reflexivity).
  split; [exact H0|]. split; [exact H1|].
  destruct Hmerit as [_ Hm]; [reflexivity | rewrite H0, H1; discriminate |].
  rewrite H1 in Hm. exact Hm.
Defined.

(** Scenario B: ten successful trades at an average of exactly 400 reach
    Bronze; 24 trades at 460 do not reach Silver. *)
Example scenario_B :
  let e := Engine.constructor admin 31337 in
  Engine._determineEligibleTier e 10 400 = Bronze /\
  Engine._determineEligibleTier e 9 400 = TierNone /\
  Engine._determineEligibleTier e 10 399 = TierNone /\
  Engine._determineEligibleTier e 24 460 = Bronze /\
  Engine._determineEligibleTier e 25 460 = Silver.
Proof. cbv zeta. evaluate. Qed.

(** C2 as stated fails for a direct mint: the deployer mints Bronze to a
    user with no successful trade, and the user's pointer goes from None to
    Bronze although the Bronze thresholds are not met. *)
Lemma direct_mint_ignores_thresholds :
  AccessControl.hasRole (Badge.roles (badge w_configured)) MINTER_ROLE admin = true /\
  step E0 w_configured (at_time admin 5) (MintBadge carol Bronze 10 400 31337)
    = Ok (w_minted, []) /\
  highest (badge w_configured) carol = TierNone /\
  highest (badge w_minted) carol = Bronze /\
  Engine.successfulTrades (Engine.userReputations (engine w_minted)).[carol] = 0 /\
  Engine.meetsThreshold (engine w_minted) carol Bronze = false.
Proof. evaluate. Qed.

(** ** Replay protection *)

Lemma ensureRegistered_processed (e : Engine.State) (c : Ctx) (u : Z) :
  Engine.processedCrossChainUpdates (Engine._ensureRegistered e c u)
  = Engine.processedCrossChainUpdates e.
Proof. unfold Engine._ensureRegistered. destruct (negb _); reflexivity. Qed.

Lemma ensureRegistered_roles (e : Engine.State) (c : Ctx) (u : Z) :
  Engine.roles (Engine._ensureRegistered e c u) = Engine.roles e.
Proof. unfold Engine._ensureRegistered. destruct (negb _); reflexivity. Qed.

Lemma ensureRegistered_totalTrades (e : Engine.State) (c : Ctx) (u : Z) :
  Engine.totalTrades (Engine.userReputations (Engine._ensureRegistered e c u)).[u]
  = registered_totalTrades e u.
Proof.
  unfold Engine._ensureRegistered, registered_totalTrades.
  destruct (Engine.isActive (Engine.userReputations e).[u]); simpl; [reflexivity|].
  rewrite sload_insert. reflexivity.
Qed.

Lemma sync_marks_processed (E : Env) (e e1 : Engine.State) (b b1 : Badge.State) (c : Ctx)
    (user src t p n syncId : Z) :
  Engine.syncCrossChainReputation E e b c user src t p n syncId = Ok (e1, b1) ->
  (Engine.processedCrossChainUpdates e1).[syncId] = true.
Proof.
  unfold Engine.syncCrossChainReputation. intros Hs. inv_ok.
  destruct ((Engine.processedCrossChainUpdates e).[syncId]) eqn:Hp; inv_ok; [exact Hp|].
  simpl. rewrite ensureRegistered_processed. simpl. apply sload_insert.
Qed.

Lemma sync_processed_noop (E : Env) (e : Engine.State) (b : Badge.State) (c : Ctx)
    (user src t p n syncId : Z) :
  (Engine.processedCrossChainUpdates e).[syncId] = true ->
  after_sync (e, b) (Engine.syncCrossChainReputation E e b c user src t p n syncId) = (e, b).
Proof.
  intros Hp. unfold Engine.syncCrossChainReputation, AccessControl.onlyRole.
  destruct (AccessControl.hasRole (Engine.roles e) CROSS_CHAIN_ROLE (msg_sender c)); simpl;
    [rewrite Hp|]; reflexivity.
Qed.

Lemma sync_fresh_totalTrades (E : Env) (e e1 : Engine.State) (b b1 : Badge.State) (c : Ctx)
    (user src t p n syncId : Z) :
  Engine.syncCrossChainReputation E e b c user src t p n syncId = Ok (e1, b1) ->
  (Engine.processedCrossChainUpdates e).[syncId] = false ->
  Engine.totalTrades (Engine.userReputations e1).[user] = registered_totalTrades e user + t.
Proof.
  unfold Engine.syncCrossChainReputation. intros Hs Hp. inv_ok. rewrite Hp in Hs. inv_ok.
  simpl. rewrite sload_insert. simpl.
  rewrite ensureRegistered_totalTrades. reflexivity.
Qed.

Lemma ccipReceive_marks_processed (E : Env) (s s1 : Bridge.State) (tk tk1 : Token.State)
    (en en1 : Engine.State) (b b1 : Badge.State) (c : Ctx) (m : Bridge.Any2EVMMessage)
    (effects : list Effect) :
  Bridge._ccipReceive E s tk en b c m = Ok (s1, tk1, en1, b1, effects) ->
  (Bridge.processedMessages s).[Bridge.messageId m] = false /\
  Bridge.i_ccipRouter s1 = Bridge.i_ccipRouter s /\
  (Bridge.processedMessages s1).[Bridge.messageId m] = true.
Proof.
  unfold Bridge._ccipReceive. intros Hr. inv_ok.
  split; [assumption|].
  destruct (messageType _); inv_ok; simpl; (split; [reflexivity | apply sload_insert]).
Qed.

(** C3.  A successful [syncCrossChainReputation] marks its [syncId], and
    every later call with that [syncId], whatever its caller and other
    arguments, leaves the engine and the badges exactly as they were; a
    first application under a fresh [syncId] raises the user's total trades
    by the [additionalTrades] given, so 5 applied twice adds 5.  A
    successfully received inbound message marks its message id, and a
    second delivery under that id reverts: through the internal dispatch
    with [MessageAlreadyProcessed], through the external entry point with
    that or, for a caller other than the router, [InvalidRouter]. *)
Theorem replay_idempotent (E : Env) :
  (forall (e e1 : Engine.State) (b b1 : Badge.State) (c : Ctx) (user src t p n syncId : Z),
     Engine.syncCrossChainReputation E e b c user src t p n syncId = Ok (e1, b1) ->
     (forall (c' : Ctx) (user' src' t' p' n' : Z),
        after_sync (e1, b1)
          (Engine.syncCrossChainReputation E e1 b1 c' user' src' t' p' n' syncId) = (e1, b1)) /\
     ((Engine.processedCrossChainUpdates e).[syncId] = false ->
        Engine.totalTrades (Engine.userReputations e1).[user]
        = registered_totalTrades e user + t /\
        forall c' : Ctx,
          Engine.totalTrades
            (Engine.userReputations
               (fst (after_sync (e1, b1)
                       (Engine.syncCrossChainReputation E e1 b1 c' user src t p n syncId)))).[user]
          = registered_totalTrades e user + t)) /\
  (forall (s s1 : Bridge.State) (tk tk1 : Token.State) (en en1 : Engine.State)
          (b b1 : Badge.State) (c : Ctx) (m : Bridge.Any2EVMMessage) (effects : list Effect),
     Bridge.ccipReceive E s tk en b c m = Ok (s1, tk1, en1, b1, effects) ->
     forall (c' : Ctx) (m' : Bridge.Any2EVMMessage),
       Bridge.messageId m' = Bridge.messageId m ->
       Bridge._ccipReceive E s1 tk1 en1 b1 c' m' = Revert MessageAlreadyProcessed /\
       Bridge.ccipReceive E s1 tk1 en1 b1 c' m'
       = (if msg_sender c' =? Bridge.i_ccipRouter s1
          then Revert MessageAlreadyProcessed
          else Revert (InvalidRouter (msg_sender c'))) /\
       commit (s1, tk1, en1, b1)
              (let! r := Bridge.ccipReceive E s1 tk1 en1 b1 c' m' in Ok (fst r))
       = (s1, tk1, en1, b1)).
Proof.
  split.
  - intros e e1 b b1 c user src t p n syncId Hs.
    pose proof (sync_marks_processed _ _ _ _ _ _ _ _ _ _ _ _ Hs) as Hmark.
    split.
    + intros c' user' src' t' p' n'. apply sync_processed_noop. exact Hmark.
    + intros Hfresh.
      pose proof (sync_fresh_totalTrades _ _ _ _ _ _ _ _ _ _ _ _ Hs Hfresh) as Htot.
      split; [exact Htot|]. intros c'.
      rewrite sync_processed_noop by exact Hmark. simpl. exact Htot.
  - intros s s1 tk tk1 en en1 b b1 c m effects Hr c' m' Hid.
    unfold Bridge.ccipReceive in Hr. inv_ok.
    apply ccipReceive_marks_processed in Hr. destruct Hr as (_ & _ & Hmark).
    assert (Hint : Bridge._ccipReceive E s1 tk1 en1 b1 c' m' = Revert MessageAlreadyProcessed).
    { unfold Bridge._ccipReceive. rewrite Hid, Hmark. reflexivity. }
    split; [exact Hint|].
    unfold Bridge.ccipReceive. rewrite Hint.
    destruct (msg_sender c' =? Bridge.i_ccipRouter s1); simpl; split; reflexivity.
Qed.

Lemma replay_idempotent_witness :
  exists e1 b1,
    Engine.syncCrossChainReputation E0 (engine w_configured) (badge w_configured)
      (at_time (bridge_address E0) 70) carol other_chain 5 2400 5 9555 = Ok (e1, b1) /\
    Engine.totalTrades (Engine.userReputations (engine w_configured)).[carol] = 0 /\
    Engine.totalTrades (Engine.userReputations e1).[carol] = 5 /\
    Engine.totalTrades
      (Engine.userReputations
         (fst (after_sync (e1, b1)
                 (Engine.syncCrossChainReputation E0 e1 b1 (at_time (bridge_address E0) 80)
                    carol other_chain 5 2400 5 9555)))).[carol] = 5.
Proof.
  destruct (Engine.syncCrossChainReputation E0 (engine w_configured) (badge w_configured)
              (at_time (bridge_address E0) 70) carol other_chain 5 2400 5 9555)
    as [[e1 b1]|err] eqn:Hsync; [|vm_compute in Hsync; discriminate].
  destruct (proj1 (replay_idempotent E0) _ _ _ _ _ _ _ _ _ _ _ Hsync) as (_ & Hfresh).
  destruct Hfresh as (Hfirst & Hsecond); [vm_compute; reflexivity|].
  exists e1, b1. split; [reflexivity|]. split; [vm_compute; reflexivity|].
  split; [exact Hfirst | exact (Hsecond (at_time (bridge_address E0) 80))].
Defined.

(** The same through the bridge: the message is applied once, and its
    redelivery by the router reverts. *)
Example inbound_sync_once :
  exists w1,
    step E0 w_configured (at_time router 70) (CcipReceive inbound_sync) = Ok (w1, []) /\
    Engine.totalTrades (Engine.userReputations (engine w1)).[carol] = 5 /\
    step E0 w1 (at_time router 80) (CcipReceive inbound_sync) = Revert MessageAlreadyProcessed /\
    run E0 w_configured [(at_time router 70, CcipReceive inbound_sync);
                         (at_time router 80, CcipReceive inbound_sync)] = w1.
Proof.
  eexists. split; [vm_compute; reflexivity|].
  split; [vm_compute; reflexivity|]. split; vm_compute; reflexivity.
Qed.

(** ** Fee arithmetic *)

(** C4, as the code has it.  [createTrade] stores
    [platformFee = floor (amount * platformFeeRate / 10000)], an integer
    number of smallest units, and [confirmDelivery] pays the seller
    [amount - platformFee] and the fee recipient [platformFee].  At 250
    basis points a trade of 100 smallest units has fee 2 and pays the
    seller 98; a trade of 100,000,000 smallest units (100 tokens of a
    six-decimal asset) has fee 2,500,000 and pays the seller 97,500,000. *)
Theorem scenario_A_fee (E : Env) (x : Escrow.State) (tk : Token.State) (en : Engine.State)
    (c : Ctx) (seller token amt : Z) (desc : string) (expiry : Z)
    (x' : Escrow.State) (tk' : Token.State) (en' : Engine.State) (id : Z)
    (effects : list Effect) :
  Escrow.createTrade E x tk en c seller token amt desc expiry = Ok (x', tk', en', id, effects) ->
  let t := (Escrow.trades x').[id] in
  Escrow.amount t = amt /\
  Escrow.platformFee t = amt * Escrow.platformFeeRate x / 10000 /\
  (Escrow.platformFeeRate x = 250 -> amt = 100 ->
     Escrow.platformFee t = 2 /\ Escrow.amount t - Escrow.platformFee t = 98) /\
  (Escrow.platformFeeRate x = 250 -> amt = 100000000 ->
     Escrow.platformFee t = 2500000 /\ Escrow.amount t - Escrow.platformFee t = 97500000) /\
  (forall (x1 x2 : Escrow.State) (tk1 tk2 : Token.State) (c1 : Ctx) (rating : Z)
          (paid : list Effect),
     Escrow.amount (Escrow.trades x1).[id] = Escrow.amount t ->
     Escrow.platformFee (Escrow.trades x1).[id] = Escrow.platformFee t ->
     Escrow.confirmDelivery E x1 tk1 c1 id rating = Ok (x2, tk2, paid) ->
     paid = [TransferOut (Escrow.paymentToken (Escrow.trades x1).[id])
                         (Escrow.seller (Escrow.trades x1).[id])
                         (amt - amt * Escrow.platformFeeRate x / 10000);
             TransferOut (Escrow.paymentToken (Escrow.trades x1).[id])
                         (Escrow.feeRecipient x1)
                         (amt * Escrow.platformFeeRate x / 10000)]).
Proof.
  intros Hc. apply createTrade_record in Hc.
  destruct Hc as (_ & _ & _ & _ & _ & _ & Ha & Hf & _). cbv zeta.
  split; [exact Ha|]. split; [exact Hf|]. split; [|split].
  - intros Hr ->. rewrite Hf, Ha, Hr. split; reflexivity.
  - intros Hr ->. rewrite Hf, Ha, Hr. split; reflexivity.
  - intros x1 x2 tk1 tk2 c1 rating paid Ha1 Hf1 Hconf.
    apply confirmDelivery_Ok in Hconf. destruct Hconf as (_ & _ & _ & _ & _ & ->).
    rewrite Ha1, Hf1, Ha, Hf. reflexivity.
Qed.

Lemma scenario_A_fee_witness :
  exists x' tk' en',
    Escrow.createTrade E0 (escrow w_configured) (tokens w_configured) (engine w_configured)
      (at_time alice 10) bob usdc 100 "Test item" 0
    = Ok (x', tk', en', 7000, [TransferIn usdc alice 100]) /\
    Escrow.platformFee (Escrow.trades x').[7000] = 2 /\
    Escrow.amount (Escrow.trades x').[7000] - Escrow.platformFee (Escrow.trades x').[7000] = 98.
Proof.
  assert (Hcreate : exists x' tk' en',
            Escrow.createTrade E0 (escrow w_configured) (tokens w_configured)
              (engine w_configured) (at_time alice 10) bob usdc 100 "Test item" 0
            = Ok (x', tk', en', 7000, [TransferIn usdc alice 100]))
    by (do 3 eexists; vm_compute; reflexivity).
  destruct Hcreate as (x' & tk' & en' & Hcreate).
  exists x', tk', en'. split; [exact Hcreate|].
  destruct (scenario_A_fee _ _ _ _ _ _ _ _ _ _ _ _ _ _ _ Hcreate) as (_ & _ & H100 & _).
  apply H100; [vm_compute; reflexivity | reflexivity].
Defined.

(** C4 as stated fails: in smallest units the fee of a 100-unit trade at
    250 basis points is 2, not 2.5, and [confirmDelivery] pays the seller
    98, not 97.5. *)
Lemma scenario_A_not_fractional :
  let w := w_delivered 100 in
  Escrow.platformFeeRate (escrow w) = 250 /\
  Escrow.amount (Escrow.trades (escrow w)).[7000] = 100 /\
  Escrow.platformFee (Escrow.trades (escrow w)).[7000] = 2 /\
  ~ Qeq (inject_Z (Escrow.platformFee (Escrow.trades (escrow w)).[7000])) (Qmake 5 2) /\
  exists w',
    step E0 w (at_time alice 40) (ConfirmDelivery 7000 500)
      = Ok (w', [TransferOut usdc bob 98; TransferOut usdc admin 2]) /\
    ~ Qeq (inject_Z 98) (Qmake 195 2).
Proof.
  cbv zeta. split; [vm_compute; reflexivity|]. split; [vm_compute; reflexivity|].
  split; [vm_compute; reflexivity|]. split.
  - vm_compute. discriminate.
  - eexists. split; [vm_compute; reflexivity|]. vm_compute. discriminate.
Qed.

(** ** Dispute resolution *)

Lemma resolveDispute_needs_engine_role (E : Env) (x : Escrow.State) (tk : Token.State)
    (en : Engine.State) (c : Ctx) (id who : Z) :
  AccessControl.hasRole (Engine.roles en) DISPUTE_RESOLVER_ROLE (escrow_address E) = false ->
  forall r, Escrow.resolveDispute E x tk en c id who <> Ok r.
Proof.
  intros Hno [[[x' tk'] en'] effects] Hcall. apply resolveDispute_Ok in Hcall.
  destruct Hcall as (_ & _ & _ & _ & _ & _ & _ & _ & Hrec).
  unfold Engine.recordDisputeResolution in Hrec. inv_ok.
  simpl in *. congruence.
Qed.

(** What a successful [resolveDispute] does: the trade becomes Resolved,
    the winner is paid [amount] if the buyer and [amount - platformFee] if
    the seller, the fee goes to the fee recipient in the second case only,
    and the engine counts a dispute won for the winner and a dispute lost
    for the other party. *)
Lemma resolveDispute_when_it_succeeds (E : Env) (x x' : Escrow.State) (tk tk' : Token.State)
    (en en' : Engine.State) (c : Ctx) (id who : Z) (effects : list Effect) :
  Escrow.resolveDispute E x tk en c id who = Ok (x', tk', en', effects) ->
  let t := (Escrow.trades x).[id] in
  let loser := if who =? Escrow.buyer t then Escrow.seller t else Escrow.buyer t in
  Escrow.status t = Escrow.Disputed /\
  Escrow.status (Escrow.trades x').[id] = Escrow.Resolved /\
  Escrow.winner (Escrow.disputes x').[id] = who /\
  Escrow.isResolved (Escrow.disputes x').[id] = true /\
  effects = (if who =? Escrow.seller t
             then [TransferOut (Escrow.paymentToken t) who
                               (Escrow.amount t - Escrow.platformFee t);
                   TransferOut (Escrow.paymentToken t) (Escrow.feeRecipient x)
                               (Escrow.platformFee t)]
             else [TransferOut (Escrow.paymentToken t) who (Escrow.amount t)]) /\
  Engine.disputesWon (Engine.userReputations en').[who]
    = Engine.disputesWon (Engine.userReputations en).[who] + 1 /\
  Engine.disputesLost (Engine.userReputations en').[loser]
    = Engine.disputesLost (Engine.userReputations en).[loser] + 1.
Proof.
  intros Hcall. apply resolveDispute_Ok in Hcall.
  destruct Hcall as (_ & Hst & _ & Htr & Hdis & _ & Heff & _ & Hrec). cbv zeta.
  rewrite Htr, Hdis, !sload_insert. simpl.
  pose proof (recordDisputeResolution_user _ _ _ _ _ _ Hrec) as Huser.
  repeat split; try assumption.
  - destruct (Huser who) as (Hwon & _). unfold indicator in Hwon.
    rewrite Z.eqb_refl in Hwon. exact Hwon.
  - destruct (Huser (if who =? Escrow.buyer (Escrow.trades x).[id]
                     then Escrow.seller (Escrow.trades x).[id]
                     else Escrow.buyer (Escrow.trades x).[id])) as (_ & Hlost & _).
    unfold indicator in Hlost. rewrite Z.eqb_refl in Hlost. exact Hlost.
Qed.

(** C5 on the deployment that the deploy script and the test set-up
    produce.  The trade is Disputed, the caller holds the escrow's
    dispute-resolver role, the winner is the buyer (or the seller), the
    escrow holds the locked 100 units; [resolveDispute] reverts, because the
    escrow contract lacks the role that guards the engine's
    [recordDisputeResolution].  The trade stays Disputed. *)
Theorem resolveDispute_reverts_as_deployed :
  Escrow.status (Escrow.trades (escrow w_disputed)).[7000] = Escrow.Disputed /\
  Escrow.buyer (Escrow.trades (escrow w_disputed)).[7000] = alice /\
  Escrow.seller (Escrow.trades (escrow w_disputed)).[7000] = bob /\
  AccessControl.hasRole (Escrow.roles (escrow w_disputed)) DISPUTE_RESOLVER_ROLE resolver = true /\
  (Token.balanceOf (tokens w_disputed)).[(usdc, escrow_address E0)] = 100 /\
  AccessControl.hasRole (Engine.roles (engine w_disputed)) ESCROW_ROLE (escrow_address E0) = true /\
  AccessControl.hasRole (Engine.roles (engine w_disputed)) DISPUTE_RESOLVER_ROLE
                        (escrow_address E0) = false /\
  step E0 w_disputed (at_time resolver 60) (ResolveDispute 7000 alice)
    = Revert (AccessControlUnauthorizedAccount (escrow_address E0)) /\
  step E0 w_disputed (at_time resolver 60) (ResolveDispute 7000 bob)
    = Revert (AccessControlUnauthorizedAccount (escrow_address E0)) /\
  Escrow.status
    (Escrow.trades (escrow (exec E0 w_disputed (at_time resolver 60, ResolveDispute 7000 alice)))).[7000]
    = Escrow.Disputed.
Proof. evaluate. Qed.

(** With the engine's role granted to the escrow contract as well, the same
    call pays the buyer the full amount and records the outcome. *)
Example resolveDispute_once_granted :
  exists w',
    step E0 w_disputed_granted (at_time resolver 60) (ResolveDispute 7000 alice)
      = Ok (w', [TransferOut usdc alice 100]) /\
    Escrow.status (Escrow.trades (escrow w')).[7000] = Escrow.Resolved /\
    Engine.disputesWon (Engine.userReputations (engine w')).[alice] = 1 /\
    Engine.disputesLost (Engine.userReputations (engine w')).[bob] = 1.
Proof. eexists. evaluate. Qed.

(** ** Role gates of ReputationEngine *)


Lemma exec_ok (E : Env) (w w' : World) (c : Ctx) (call : Call) (effects : list Effect) :
  step E w c call = Ok (w', effects) -> exec E w (c, call) = w'.
Proof. intros Hs. unfold exec. simpl. rewrite Hs. reflexivity. Qed.




(** ** Outbound reputation sync *)

(** C7, as the code has it.  A successful [syncReputation] sends one
    ReputationSync message to the destination's peer bridge, from and for
    the caller, whose three payload words are the caller's stored
    successful-trade count, the floored average rating multiplied by that
    count, and that count again.  The middle word is the stored
    [totalRatingPoints] when [ratingCount] equals the successful-trade
    count and divides the points.  The payload is the stored triple of
    trade count, rating points and rating count exactly when [ratingCount]
    equals the successful-trade count and divides the points, the points
    being zero when the count is.  When [ratingCount] equals the
    successful-trade count and is positive, the middle word is the stored
    points rounded down to a multiple of the count: at most the points and
    less than one count below them. *)
Theorem syncReputation_payload (E : Env) (s : Bridge.State) (tk tk' : Token.State)
    (en : Engine.State) (b : Badge.State) (c : Ctx) (dest : Z) (router : Bridge.RouterReply)
    (mid : Z) (effects : list Effect) :
  Bridge.syncReputation E s tk en b c dest router = Ok (tk', mid, effects) ->
  let rep := (Engine.userReputations en).[msg_sender c] in
  let avg := if Engine.ratingCount rep =? 0 then 0
             else Engine.totalRatingPoints rep / Engine.ratingCount rep in
  Bridge.isActive (Bridge.chainConfigs s).[dest] = true /\
  mid = Bridge.sentMessageId router /\
  effects =
    [CcipSend dest (Bridge.bridgeContract (Bridge.chainConfigs s).[dest])
       {| messageType := ReputationSync;
          sender := msg_sender c;
          recipient := msg_sender c;
          amount := 0;
          data := [Engine.successfulTrades rep;
                   avg * Engine.successfulTrades rep;
                   Engine.successfulTrades rep] |}] /\
  (Engine.ratingCount rep = Engine.successfulTrades rep ->
   Engine.ratingCount rep <> 0 ->
   Engine.totalRatingPoints rep mod Engine.ratingCount rep = 0 ->
   avg * Engine.successfulTrades rep = Engine.totalRatingPoints rep) /\
  ([Engine.successfulTrades rep; avg * Engine.successfulTrades rep;
    Engine.successfulTrades rep]
   = [Engine.successfulTrades rep; Engine.totalRatingPoints rep; Engine.ratingCount rep]
   <-> Engine.ratingCount rep = Engine.successfulTrades rep /\
       (if Engine.ratingCount rep =? 0 then Engine.totalRatingPoints rep = 0
        else Engine.totalRatingPoints rep mod Engine.ratingCount rep = 0)) /\
  (Engine.ratingCount rep = Engine.successfulTrades rep ->
   0 < Engine.ratingCount rep ->
   Engine.totalRatingPoints rep - Engine.ratingCount rep
   < avg * Engine.successfulTrades rep <= Engine.totalRatingPoints rep).
Proof.
  unfold Bridge.syncReputation, Bridge.reputation_payload, Engine.getReputation,
    Engine._calculateAverageRating.
  intros Hs. inv_ok. simpl in *. inv_ok. simpl.
  set (rep := (Engine.userReputations en).[msg_sender c]) in *.
  split; [|split; [reflexivity|split; [reflexivity|split; [|split]]]].
  - match goal with H : negb _ = false |- _ => apply negb_false_iff in H; exact H end.
  - intros Hcount Hnz Hmod. rewrite <- Hcount.
    destruct (Z.eqb_spec (Engine.ratingCount rep) 0); [contradiction|].
    rewrite Z.mul_comm. symmetry. apply Z.div_exact; assumption.
  - split.
    + intros Heq. injection Heq as Hmid Hcount. split; [symmetry; exact Hcount|].
      rewrite Hcount in Hmid. revert Hmid.
      destruct (Z.eqb_spec (Engine.ratingCount rep) 0) as [H0|Hnz]; intros Hmid.
      * lia.
      * apply Z.div_exact; [exact Hnz|]. rewrite Z.mul_comm. symmetry. exact Hmid.
    + intros [Hcount Hdiv]. rewrite <- Hcount. revert Hdiv.
      destruct (Z.eqb_spec (Engine.ratingCount rep) 0) as [H0|Hnz]; intros Hdiv.
      * rewrite Hdiv, H0. reflexivity.
      * apply (Z.div_exact _ _ Hnz) in Hdiv.
        rewrite (Z.mul_comm (_ / _)). rewrite <- Hdiv. reflexivity.
  - intros Hcount Hpos. rewrite <- Hcount.
    destruct (Z.eqb_spec (Engine.ratingCount rep) 0) as [H0|Hnz]; [lia|].
    pose proof (Z.mul_div_le (Engine.totalRatingPoints rep) _ Hpos).
    pose proof (Z.mul_succ_div_gt (Engine.totalRatingPoints rep) _ Hpos).
    lia.
Qed.

Lemma syncReputation_payload_witness :
  exists tk',
    Bridge.syncReputation E0 (bridge w_two_trades) (tokens w_two_trades) (engine w_two_trades)
      (badge w_two_trades) (at_time bob 60) other_chain reply0
    = Ok (tk', 77,
          [CcipSend other_chain peer_bridge
             {| messageType := ReputationSync; sender := bob; recipient := bob; amount := 0;
                data := [2; 900; 2] |}]).
Proof.
  destruct (Bridge.syncReputation E0 (bridge w_two_trades) (tokens w_two_trades)
              (engine w_two_trades) (badge w_two_trades) (at_time bob 60) other_chain reply0)
    as [[[tk' mid] effects]|err] eqn:Hsync; [|vm_compute in Hsync; discriminate].
  destruct (syncReputation_payload _ _ _ _ _ _ _ _ _ _ _ Hsync) as (_ & -> & -> & _).
  exists tk'. vm_compute. reflexivity.
Defined.

(** C7 as stated fails: the seller's stored rating points are 901 over 2
    ratings, and the message carries 900. *)
Lemma syncReputation_payload_is_rounded :
  let rep := (Engine.userReputations (engine w_two_trades)).[bob] in
  Engine.successfulTrades rep = 2 /\
  Engine.totalRatingPoints rep = 901 /\
  Engine.ratingCount rep = 2 /\
  exists tk' message,
    Bridge.syncReputation E0 (bridge w_two_trades) (tokens w_two_trades) (engine w_two_trades)
      (badge w_two_trades) (at_time bob 60) other_chain reply0
    = Ok (tk', 77, [CcipSend other_chain peer_bridge message]) /\
    data message = [2; 900; 2] /\
    data message <> [Engine.successfulTrades rep; Engine.totalRatingPoints rep;
                     Engine.ratingCount rep].
Proof.
  cbv zeta. split; [vm_compute; reflexivity|]. split; [vm_compute; reflexivity|].
  split; [vm_compute; reflexivity|].
  eexists. eexists. split; [vm_compute; reflexivity|].
  split; [reflexivity|]. vm_compute. discriminate.
Qed.

(** With a rating count other than the trade count the middle word is not
    a rounding of the stored points: ten trades and one rating of 500 go
    out as ten ratings worth 5000. *)
Example syncReputation_payload_uneven :
  let rep := (Engine.userReputations (engine w_uneven)).[bob] in
  Engine.successfulTrades rep = 10 /\
  Engine.totalRatingPoints rep = 500 /\
  Engine.ratingCount rep = 1 /\
  exists tk',
    Bridge.syncReputation E0 (bridge w_uneven) (tokens w_uneven) (engine w_uneven)
      (badge w_uneven) (at_time bob 80) other_chain reply0
    = Ok (tk', 77,
          [CcipSend other_chain peer_bridge
             {| messageType := ReputationSync; sender := bob; recipient := bob; amount := 0;
                data := [10; 5000; 10] |}]).
Proof.
  cbv zeta. split; [vm_compute; reflexivity|]. split; [vm_compute; reflexivity|].
  split; [vm_compute; reflexivity|].
  eexists. vm_compute. reflexivity.
Qed.

(** ** Evidence *)

(** C8, as the code has it.  For a trade in status Disputed,
    [submitEvidence] called by the buyer or the seller succeeds and stores
    the submitted text in the caller's evidence slot, replacing what the
    slot held; the other party's slot, the rest of the dispute record and
    every trade are as before. *)
Theorem submitEvidence_replaces (x : Escrow.State) (c : Ctx) (id : Z) (evidence : string) :
  Escrow.status (Escrow.trades x).[id] = Escrow.Disputed ->
  msg_sender c = Escrow.buyer (Escrow.trades x).[id] \/
  msg_sender c = Escrow.seller (Escrow.trades x).[id] ->
  exists x',
    Escrow.submitEvidence x c id evidence = Ok x' /\
    let d := (Escrow.disputes x).[id] in
    let d' := (Escrow.disputes x').[id] in
    (if msg_sender c =? Escrow.buyer (Escrow.trades x).[id]
     then Escrow.buyerEvidence d' = evidence /\
          Escrow.sellerEvidence d' = Escrow.sellerEvidence d
     else Escrow.sellerEvidence d' = evidence /\
          Escrow.buyerEvidence d' = Escrow.buyerEvidence d) /\
    Escrow.d_tradeId d' = Escrow.d_tradeId d /\
    Escrow.initiator d' = Escrow.initiator d /\
    Escrow.reason d' = Escrow.reason d /\
    Escrow.winner d' = Escrow.winner d /\
    Escrow.initiatedAt d' = Escrow.initiatedAt d /\
    Escrow.resolvedAt d' = Escrow.resolvedAt d /\
    Escrow.isResolved d' = Escrow.isResolved d /\
    Escrow.trades x' = Escrow.trades x.
Proof.
  intros Hst Hwho. unfold Escrow.submitEvidence, Escrow.status_is_not.
  rewrite Hst. rewrite bool_decide_eq_true_2 by reflexivity. simpl.
  assert (Hauth : negb (msg_sender c =? Escrow.buyer (Escrow.trades x).[id])
                  && negb (msg_sender c =? Escrow.seller (Escrow.trades x).[id]) = false).
  { destruct Hwho as [Hb|Hs].
    - rewrite <- Hb, Z.eqb_refl. reflexivity.
    - rewrite <- Hs, Z.eqb_refl. apply andb_false_r. }
  rewrite Hauth. simpl. eexists. split; [reflexivity|]. simpl.
  rewrite sload_insert.
  destruct (msg_sender c =? Escrow.buyer (Escrow.trades x).[id]); simpl; repeat split.
Qed.

Lemma submitEvidence_replaces_witness :
  exists x',
    Escrow.submitEvidence (escrow w_disputed) (at_time bob 50) 7000 "ipfs://reply" = Ok x' /\
    Escrow.sellerEvidence (Escrow.disputes x').[7000] = "ipfs://reply" /\
    Escrow.buyerEvidence (Escrow.disputes x').[7000] = "ipfs://evidence".
Proof.
  destruct (submitEvidence_replaces (escrow w_disputed) (at_time bob 50) 7000 "ipfs://reply")
    as (x' & Hcall & Hslots & _).
  - vm_compute. reflexivity.
  - right. vm_compute. reflexivity.
  - exists x'. split; [exact Hcall|].
    change (at_time bob 50) with (mkCtx bob 50) in Hslots. cbv zeta in Hslots.
    replace (msg_sender (mkCtx bob 50) =? Escrow.buyer (Escrow.trades (escrow w_disputed)).[7000])
      with false in Hslots by (vm_compute; reflexivity).
    destruct Hslots as [Hs Hb]. split; [exact Hs|]. rewrite Hb. vm_compute. reflexivity.
Defined.

(** C8 as stated fails: the buyer's evidence given at [raiseDispute] is
    gone after the buyer's [submitEvidence]; nothing is appended. *)
Lemma submitEvidence_overwrites :
  Escrow.status (Escrow.trades (escrow w_disputed)).[7000] = Escrow.Disputed /\
  Escrow.buyerEvidence (Escrow.disputes (escrow w_disputed)).[7000] = "ipfs://evidence" /\
  exists x',
    Escrow.submitEvidence (escrow w_disputed) (at_time alice 50) 7000 "ipfs://more" = Ok x' /\
    Escrow.buyerEvidence (Escrow.disputes x').[7000] = "ipfs://more" /\
    Escrow.buyerEvidence (Escrow.disputes x').[7000]
      <> String.append "ipfs://evidence" "ipfs://more" /\
    String.prefix "ipfs://evidence" (Escrow.buyerEvidence (Escrow.disputes x').[7000]) = false.
Proof.
  split; [vm_compute; reflexivity|]. split; [vm_compute; reflexivity|].
  eexists. split; [vm_compute; reflexivity|].
  split; [vm_compute; reflexivity|]. split; [vm_compute; discriminate | vm_compute; reflexivity].
Qed.

(** ** Ratings of completed trades *)

Lemma completed_rated_insert (m : gmap Z Escrow.Trade) (id : Z) (t : Escrow.Trade) :
  completed_rated m ->
  (Escrow.status t = Escrow.Completed -> 100 <= Escrow.buyerRating t <= 500) ->
  completed_rated (<[id := t]> m).
Proof.
  intros Hm Ht id'. destruct (Z.eq_dec id id') as [->|Hne].
  - rewrite sload_insert. exact Ht.
  - rewrite sload_insert_ne by exact Hne. apply Hm.
Qed.

Lemma completed_rated_deploy (d : Deployment) : completed_rated (Escrow.trades (escrow (deploy d))).
Proof. intros id. simpl. rewrite sload_empty. discriminate. Qed.

Lemma completed_rated_step (E : Env) (w w' : World) (c : Ctx) (call : Call)
    (effects : list Effect) :
  step E w c call = Ok (w', effects) ->
  completed_rated (Escrow.trades (escrow w)) ->
  completed_rated (Escrow.trades (escrow w')).
Proof.
  intros Hstep Hinv.
  destruct call; simpl in Hstep; inv_ok; simpl; try assumption.
  all: repeat match goal with
       | H : Escrow.addSupportedToken _ _ _ = Ok _ |- _ => unfold Escrow.addSupportedToken in H
       | H : Escrow.removeSupportedToken _ _ _ = Ok _ |- _ =>
           unfold Escrow.removeSupportedToken in H
       | H : Escrow.updateFeeRate _ _ _ = Ok _ |- _ => unfold Escrow.updateFeeRate in H
       | H : Escrow.updateFeeRecipient _ _ _ = Ok _ |- _ =>
           unfold Escrow.updateFeeRecipient in H
       | H : Escrow.updateDisputeWindow _ _ _ = Ok _ |- _ =>
           unfold Escrow.updateDisputeWindow in H
       | H : Escrow.updateAutoReleaseDelay _ _ _ = Ok _ |- _ =>
           unfold Escrow.updateAutoReleaseDelay in H
       | H : Escrow.pause _ _ = Ok _ |- _ => unfold Escrow.pause in H
       | H : Escrow.unpause _ _ = Ok _ |- _ => unfold Escrow.unpause in H
       end; inv_ok; simpl; try assumption.
  - (* createTrade *)
    match goal with H : Escrow.createTrade _ _ _ _ _ _ _ _ _ _ = Ok _ |- _ =>
      apply createTrade_record in H; destruct H as (_ & Htr & Hst & _) end.
    rewrite Htr. apply completed_rated_insert; [assumption | rewrite Hst; discriminate].
  - (* acceptTrade *)
    apply acceptTrade_Ok in Ha. destruct Ha as (_ & _ & _ & ->). simpl.
    apply completed_rated_insert; [assumption | discriminate].
  - (* markDelivered *)
    apply markDelivered_Ok in Ha. destruct Ha as (_ & _ & ->). simpl.
    apply completed_rated_insert; [assumption | discriminate].
  - (* confirmDelivery *)
    apply confirmDelivery_Ok in Ha. destruct Ha as (_ & _ & Hr & _ & -> & _). simpl.
    apply completed_rated_insert; [assumption | intros _; exact Hr].
  - (* rateBuyer *)
    apply rateBuyer_Ok in Ha. destruct Ha as (Hst & _ & _ & _ & -> & _). simpl.
    apply completed_rated_insert; [assumption | intros _; simpl; apply Hinv; exact Hst].
  - (* cancelTrade *)
    apply cancelTrade_Ok in Ha. destruct Ha as (_ & _ & -> & _). simpl.
    apply completed_rated_insert; [assumption | discriminate].
  - (* claimExpiredTrade *)
    apply claimExpiredTrade_Ok in Ha. destruct Ha as (_ & _ & -> & _). simpl.
    apply completed_rated_insert; [assumption | discriminate].
  - (* autoRelease *)
    apply autoRelease_Ok in Ha. destruct Ha as (_ & _ & _ & -> & _). simpl.
    apply completed_rated_insert; [assumption | intros _; simpl; lia].
  - (* raiseDispute *)
    apply raiseDispute_Ok in Ha. destruct Ha as (_ & _ & -> & _).
    apply completed_rated_insert; [assumption | discriminate].
  - (* submitEvidence *)
    apply submitEvidence_Ok in Ha. destruct Ha as (_ & -> & _). assumption.
  - (* resolveDispute *)
    apply resolveDispute_Ok in Ha. destruct Ha as (_ & _ & _ & -> & _).
    apply completed_rated_insert; [assumption | discriminate].
Qed.

Lemma reachable_completed_rated (E : Env) (w : World) :
  reachable E w -> completed_rated (Escrow.trades (escrow w)).
Proof.
  induction 1 as [d|w c call w' effects _ IH Hstep].
  - apply completed_rated_deploy.
  - eapply completed_rated_step; eassumption.
Qed.

Lemma reachable_exec (E : Env) (w : World) (tx : Ctx * Call) :
  reachable E w -> reachable E (exec E w tx).
Proof.
  intros Hr. unfold exec.
  destruct (step E w (fst tx) (snd tx)) as [[w' effects]|err] eqn:Hs; simpl; [|exact Hr].
  eapply reachable_step; eassumption.
Qed.

Lemma reachable_run (E : Env) (txs : list (Ctx * Call)) (w : World) :
  reachable E w -> reachable E (run E w txs).
Proof.
  revert w. induction txs as [|tx txs IH]; intros w Hr; [exact Hr|].
  change (run E w (tx :: txs)) with (run E (exec E w tx) txs).
  apply IH, reachable_exec, Hr.
Qed.

(** C9.  In every world reachable from a deployment, every trade whose
    status is Completed has [buyerRating] between 100 and 500.  So a
    successful [rateBuyer] found the trade Completed, rated by the buyer and
    not yet rated by the seller, and it called [recordTrade] with the two
    ratings, which returned the engine and badge storage the call ends
    with; after it the seller's rating is set, and no later [rateBuyer] on
    that trade succeeds. *)
Theorem completed_trades_are_rated (E : Env) (w : World) :
  reachable E w ->
  (forall id : bytes32,
     Escrow.status (Escrow.trades (escrow w)).[id] = Escrow.Completed ->
     100 <= Escrow.buyerRating (Escrow.trades (escrow w)).[id] <= 500) /\
  (forall (c : Ctx) (id rating : Z) (x' : Escrow.State) (en' : Engine.State)
          (b' : Badge.State),
     Escrow.rateBuyer E (escrow w) (engine w) (badge w) c id rating = Ok (x', en', b') ->
     let t := (Escrow.trades (escrow w)).[id] in
     Escrow.status t = Escrow.Completed /\
     Escrow.buyerRating t <> 0 /\
     Escrow.sellerRating t = 0 /\
     Engine.recordTrade E (engine w) (badge w) (Escrow.as_escrow E c) id
       (Escrow.seller t) (Escrow.buyer t) (Escrow.amount t) (Escrow.buyerRating t) rating
       = Ok (en', b') /\
     Escrow.sellerRating (Escrow.trades x').[id] = rating /\
     forall (c2 : Ctx) (rating2 : Z) (en2 : Engine.State) (b2 : Badge.State) r,
       Escrow.rateBuyer E x' en2 b2 c2 id rating2 <> Ok r).
Proof.
  intros Hreach. pose proof (reachable_completed_rated E w Hreach) as Hinv.
  split; [exact Hinv|].
  intros c id rating x' en' b' Hrate. cbv zeta.
  apply rateBuyer_Ok in Hrate. destruct Hrate as (Hst & _ & Hr & Hs & -> & Hrec).
  pose proof (Hinv id Hst) as Hb.
  split; [exact Hst|]. split; [lia|]. split; [exact Hs|].
  destruct (Z.eqb_spec (Escrow.buyerRating (Escrow.trades (escrow w)).[id]) 0) as [H0|_];
    [lia|].
  split; [exact Hrec|]. simpl. rewrite sload_insert. simpl. split; [reflexivity|].
  intros c2 rating2 en2 b2 [[x2 en3] b3] Hagain.
  apply rateBuyer_Ok in Hagain. destruct Hagain as (_ & _ & _ & Hs2 & _).
  simpl in Hs2. rewrite sload_insert in Hs2. simpl in Hs2. lia.
Qed.

Lemma completed_trades_are_rated_witness :
  Escrow.status (Escrow.trades (escrow w_completed)).[7000] = Escrow.Completed /\
  100 <= Escrow.buyerRating (Escrow.trades (escrow w_completed)).[7000] <= 500.
Proof.
  assert (Hst : Escrow.status (Escrow.trades (escrow w_completed)).[7000] = Escrow.Completed)
    by (vm_compute; reflexivity).
  split; [exact Hst|].
  refine (proj1 (completed_trades_are_rated E0 w_completed _) 7000 Hst).
  unfold w_completed. apply reachable_run.
  unfold w_delivered. apply reachable_run.
  unfold w_configured. apply reachable_run.
  apply reachable_deploy.
Defined.

(** The seller's first rating of the completed trade reaches the engine:
    both parties now have one successful trade. *)
Example rateBuyer_records_trade :
  step E0 w_completed (at_time bob 50) (RateBuyer 7000 500) = Ok (w_rated, []) /\
  Engine.successfulTrades (Engine.userReputations (engine w_rated)).[bob] = 1 /\
  Engine.totalRatingPoints (Engine.userReputations (engine w_rated)).[bob] = 450 /\
  Engine.successfulTrades (Engine.userReputations (engine w_rated)).[alice] = 1 /\
  Engine.totalRatingPoints (Engine.userReputations (engine w_rated)).[alice] = 500 /\
  step E0 w_rated (at_time bob 60) (RateBuyer 7000 400) = Revert AlreadyRated.
Proof. evaluate. Qed.

(** ** recordDisputeResolution *)

(** C10.  [recordDisputeResolution], called by a holder of the engine's
    dispute-resolver role, goes through for any winner and loser whose
    counters are not saturated, registered or not.  It adds one to the
    winner's [disputesWon] and one to the loser's [disputesLost], and every
    other field of every [UserReputation], and the rest of the engine's
    storage, is as before; it does not register anyone.  A party whose
    record was untouched storage ends with a positive counter, [isActive]
    false and [joinTimestamp] zero. *)
Theorem recordDisputeResolution_frame (e : Engine.State) (c : Ctx) (id winner loser : Z) :
  AccessControl.hasRole (Engine.roles e) DISPUTE_RESOLVER_ROLE (msg_sender c) = true ->
  Engine.disputesWon (Engine.userReputations e).[winner] < MAX_UINT256 ->
  Engine.disputesLost (Engine.userReputations e).[loser] < MAX_UINT256 ->
  exists e',
    Engine.recordDisputeResolution e c id winner loser = Ok e' /\
    (forall u : Z,
       let r := (Engine.userReputations e).[u] in
       let r' := (Engine.userReputations e').[u] in
       Engine.disputesWon r' = Engine.disputesWon r + indicator u winner /\
       Engine.disputesLost r' = Engine.disputesLost r + indicator u loser /\
       same_trade_fields r r') /\
    (Engine.userTradeHistory e' = Engine.userTradeHistory e /\
     Engine.tierThresholds e' = Engine.tierThresholds e /\
     Engine.processedCrossChainUpdates e' = Engine.processedCrossChainUpdates e /\
     Engine.roles e' = Engine.roles e /\
     Engine.chainId e' = Engine.chainId e) /\
    (Engine.userReputations e !! winner = None ->
       0 < Engine.disputesWon (Engine.userReputations e').[winner] /\
       Engine.isActive (Engine.userReputations e').[winner] = false /\
       Engine.joinTimestamp (Engine.userReputations e').[winner] = 0) /\
    (Engine.userReputations e !! loser = None ->
       0 < Engine.disputesLost (Engine.userReputations e').[loser] /\
       Engine.isActive (Engine.userReputations e').[loser] = false /\
       Engine.joinTimestamp (Engine.userReputations e').[loser] = 0).
Proof.
  intros Hrole Hw Hl.
  destruct (recordDisputeResolution_succeeds e c id winner loser Hrole Hw Hl) as [e' He'].
  exists e'. split; [exact He'|].
  pose proof (recordDisputeResolution_user _ _ _ _ _ _ He') as Huser.
  split; [exact Huser|]. split; [exact (recordDisputeResolution_rest _ _ _ _ _ _ He')|].
  split; intros Hnone.
  - destruct (Huser winner) as (Hwon & _ & Hsame). unfold same_trade_fields in Hsame.
    rewrite (sload_None _ _ Hnone) in Hwon, Hsame. simpl in Hwon, Hsame.
    unfold indicator in Hwon. rewrite Z.eqb_refl in Hwon.
    destruct Hsame as (_ & _ & _ & _ & _ & Hj & Ha). repeat split; [lia | exact Ha | exact Hj].
  - destruct (Huser loser) as (_ & Hlost & Hsame). unfold same_trade_fields in Hsame.
    rewrite (sload_None _ _ Hnone) in Hlost, Hsame. simpl in Hlost, Hsame.
    unfold indicator in Hlost. rewrite Z.eqb_refl in Hlost.
    destruct Hsame as (_ & _ & _ & _ & _ & Hj & Ha). repeat split; [lia | exact Ha | exact Hj].
Qed.

Lemma recordDisputeResolution_frame_witness :
  exists e',
    Engine.recordDisputeResolution (engine_granting DISPUTE_RESOLVER_ROLE)
      (at_time (escrow_address E0) 1000) 1 alice bob = Ok e' /\
    Engine.disputesWon (Engine.userReputations e').[alice] = 1 /\
    Engine.disputesLost (Engine.userReputations e').[bob] = 1 /\
    Engine.isActive (Engine.userReputations e').[alice] = false /\
    Engine.joinTimestamp (Engine.userReputations e').[bob] = 0.
Proof.
  destruct (recordDisputeResolution_frame (engine_granting DISPUTE_RESOLVER_ROLE)
              (at_time (escrow_address E0) 1000) 1 alice bob)
    as (e' & Hcall & Huser & _ & Hw & Hl).
  - reflexivity.
  - vm_compute. reflexivity.
  - vm_compute. reflexivity.
  - exists e'. split; [exact Hcall|].
    destruct (Huser alice) as (Hwon & _). destruct (Huser bob) as (_ & Hlost & _).
    destruct (Hw eq_refl) as (_ & Ha & _). destruct (Hl eq_refl) as (_ & _ & Hj).
    repeat split; [exact Hwon | exact Hlost | exact Ha | exact Hj].
Defined.

(** * Further properties *)

(** ** The trade state machine *)

Lemma step_status (E : Env) (w w' : World) (c : Ctx) (call : Call) (effects : list Effect)
    (id : Z) :
  step E w c call = Ok (w', effects) ->
  let s := Escrow.status (Escrow.trades (escrow w)).[id] in
  let s' := Escrow.status (Escrow.trades (escrow w')).[id] in
  s' = s \/ edge s s' = true \/ (recreates E w c call id = true /\ s' = Escrow.Created).
Proof.
  intros Hstep. cbv zeta.
  destruct (recreates E w c call id) eqn:Hre.
  - right. right. split; [reflexivity|].
    destruct call; simpl in Hre; try discriminate. simpl in Hstep. inv_ok.
    match goal with H : Escrow.createTrade _ _ _ _ _ _ _ _ _ _ = Ok _ |- _ =>
      apply createTrade_record in H; destruct H as (Hid & _ & Hst & _) end.
    apply Z.eqb_eq in Hre. simpl. rewrite <- Hre, <- Hid. exact Hst.
  - destruct (decide (trade_of call = Some id)) as [Htarget|Hother].
    + destruct call; simpl in Htarget; try discriminate; inversion Htarget; subst;
        simpl in Hstep; inv_ok; simpl.
      * apply acceptTrade_Ok in Ha. destruct Ha as (Hst & _ & _ & ->). simpl.
        rewrite sload_insert, Hst. auto.
      * apply markDelivered_Ok in Ha. destruct Ha as (Hst & _ & ->). simpl.
        rewrite sload_insert, Hst. auto.
      * apply confirmDelivery_Ok in Ha. destruct Ha as (Hst & _ & _ & _ & -> & _). simpl.
        rewrite sload_insert, Hst. auto.
      * apply rateBuyer_Ok in Ha. destruct Ha as (Hst & _ & _ & _ & -> & _). simpl.
        rewrite sload_insert. auto.
      * apply cancelTrade_Ok in Ha. destruct Ha as (Hst & _ & -> & _). simpl.
        rewrite sload_insert, Hst. auto.
      * apply claimExpiredTrade_Ok in Ha. destruct Ha as (Hst & _ & -> & _). simpl.
        rewrite sload_insert. destruct Hst as [Hst|Hst]; rewrite Hst; auto.
      * apply autoRelease_Ok in Ha. destruct Ha as (Hst & _ & _ & -> & _). simpl.
        rewrite sload_insert, Hst. auto.
      * apply raiseDispute_Ok in Ha. destruct Ha as (Hst & _ & -> & _).
        rewrite sload_insert, Hst. auto.
      * apply submitEvidence_Ok in Ha. destruct Ha as (_ & -> & _). auto.
      * apply resolveDispute_Ok in Ha. destruct Ha as (_ & Hst & _ & -> & _).
        rewrite sload_insert, Hst. auto.
    + left. destruct (step_frame _ _ _ _ _ _ _ Hstep Hother Hre) as [-> _]. reflexivity.
Qed.

Lemma edge_from_terminal (s s' : Escrow.TradeStatus) :
  is_terminal s = true -> edge s s' = false.
Proof. destruct s; simpl; try discriminate; reflexivity. Qed.

(** X1.  A successful call changes the status of a trade only along an
    edge of the state machine: Created to SellerAccepted, Cancelled or
    Expired; SellerAccepted to Delivered or Expired; Delivered to Completed
    or Disputed; Disputed to Resolved; the one other change is
    [createTrade] writing a new Created record under the identifier it
    derives. *)
Theorem status_moves_along_edges (E : Env) (w w' : World) (c : Ctx) (call : Call)
    (effects : list Effect) (id : bytes32) :
  step E w c call = Ok (w', effects) ->
  Escrow.status (Escrow.trades (escrow w')).[id] = Escrow.status (Escrow.trades (escrow w)).[id] \/
  edge (Escrow.status (Escrow.trades (escrow w)).[id])
       (Escrow.status (Escrow.trades (escrow w')).[id]) = true \/
  (recreates E w c call id = true /\
   Escrow.status (Escrow.trades (escrow w')).[id] = Escrow.Created).
Proof. intros Hstep. exact (step_status E w w' c call effects id Hstep). Qed.

Lemma exec_terminal (E : Env) (w : World) (tx : Ctx * Call) (id : Z) :
  is_terminal (Escrow.status (Escrow.trades (escrow w)).[id]) = true ->
  recreates E w (fst tx) (snd tx) id = false ->
  Escrow.status (Escrow.trades (escrow (exec E w tx))).[id]
  = Escrow.status (Escrow.trades (escrow w)).[id].
Proof.
  intros Hterm Hfresh. unfold exec.
  destruct (step E w (fst tx) (snd tx)) as [[w' effects]|err] eqn:Hstep; simpl;
    [|reflexivity].
  destruct (step_status _ _ _ _ _ _ id Hstep) as [Hsame|[Hedge|[Hre _]]].
  - exact Hsame.
  - rewrite (edge_from_terminal _ _ Hterm) in Hedge. discriminate.
  - rewrite Hfresh in Hre. discriminate.
Qed.

(** X2.  Completed, Cancelled, Expired and Resolved are final: over any
    sequence of transactions in which [createTrade] does not derive the
    trade's identifier again, a trade in one of them keeps its status. *)
Theorem terminal_status_is_final (E : Env) (id : bytes32) (txs : list (Ctx * Call)) (w : World) :
  is_terminal (Escrow.status (Escrow.trades (escrow w)).[id]) = true ->
  never_recreated E id w txs ->
  Escrow.status (Escrow.trades (escrow (run E w txs))).[id]
  = Escrow.status (Escrow.trades (escrow w)).[id].
Proof.
  revert w. induction txs as [|tx txs IH]; intros w Hterm Hfresh; [reflexivity|].
  change (run E w (tx :: txs)) with (run E (exec E w tx) txs).
  destruct Hfresh as [Hfresh Hrest].
  pose proof (exec_terminal E w tx id Hterm Hfresh) as Hkept.
  rewrite IH; [exact Hkept | rewrite Hkept; exact Hterm | exact Hrest].
Qed.

Lemma status_moves_along_edges_witness :
  Escrow.status (Escrow.trades (escrow w_completed)).[7000]
  = Escrow.status (Escrow.trades (escrow (w_delivered 100))).[7000] \/
  edge (Escrow.status (Escrow.trades (escrow (w_delivered 100))).[7000])
       (Escrow.status (Escrow.trades (escrow w_completed)).[7000]) = true \/
  (recreates E0 (w_delivered 100) (at_time alice 40) (ConfirmDelivery 7000 450) 7000 = true /\
   Escrow.status (Escrow.trades (escrow w_completed)).[7000] = Escrow.Created).
Proof.
  assert (Hstep : step E0 (w_delivered 100) (at_time alice 40) (ConfirmDelivery 7000 450)
                  = Ok (w_completed, [TransferOut usdc bob 98; TransferOut usdc admin 2]))
    by (vm_compute; reflexivity).
  exact (status_moves_along_edges E0 (w_delivered 100) w_completed (at_time alice 40)
           (ConfirmDelivery 7000 450) _ 7000 Hstep).
Defined.

(** The buyer's confirmation takes the delivered trade to Completed. *)
Example delivered_to_completed :
  Escrow.status (Escrow.trades (escrow (w_delivered 100))).[7000] = Escrow.Delivered /\
  Escrow.status (Escrow.trades (escrow w_completed)).[7000] = Escrow.Completed.
Proof. evaluate. Qed.

Lemma terminal_status_is_final_witness :
  Escrow.status (Escrow.trades (escrow (run E0 w_completed retry_after_settlement))).[7000]
  = Escrow.Completed.
Proof.
  assert (Hterm : is_terminal (Escrow.status (Escrow.trades (escrow w_completed)).[7000]) = true)
    by (vm_compute; reflexivity).
  assert (Hfresh : never_recreated E0 7000 w_completed retry_after_settlement).
  { unfold retry_after_settlement. cbn [never_recreated].
    repeat (split; [vm_compute; reflexivity|]). exact I. }
  assert (Hnow : Escrow.status (Escrow.trades (escrow w_completed)).[7000] = Escrow.Completed)
    by (vm_compute; reflexivity).
  exact (eq_trans (terminal_status_is_final E0 7000 retry_after_settlement w_completed
                     Hterm Hfresh) Hnow).
Defined.

(** ** Deadlines *)

Lemma eqb_party (who b s : Z) :
  who = b \/ who = s -> negb (who =? b) && negb (who =? s) = false.
Proof.
  intros [->| ->]; rewrite Z.eqb_refl; simpl; [reflexivity | apply andb_false_r].
Qed.

(** X3.  For a Delivered trade and a caller who is its buyer or seller,
    [raiseDispute] goes through up to and including
    [deliveredAt + disputeWindow] and moves the trade to Disputed with the
    caller as initiator; one second later, and ever after, it reverts with
    [DisputeWindowClosed]. *)
Theorem raiseDispute_window (x : Escrow.State) (c : Ctx) (id : bytes32)
    (reason evidence : string) :
  Escrow.status (Escrow.trades x).[id] = Escrow.Delivered ->
  msg_sender c = Escrow.buyer (Escrow.trades x).[id] \/
  msg_sender c = Escrow.seller (Escrow.trades x).[id] ->
  Escrow.deliveredAt (Escrow.trades x).[id] + Escrow.disputeWindow x <= MAX_UINT256 ->
  (block_timestamp c <= Escrow.deliveredAt (Escrow.trades x).[id] + Escrow.disputeWindow x ->
   exists x',
     Escrow.raiseDispute x c id reason evidence = Ok x' /\
     Escrow.status (Escrow.trades x').[id] = Escrow.Disputed /\
     Escrow.initiator (Escrow.disputes x').[id] = msg_sender c /\
     Escrow.isResolved (Escrow.disputes x').[id] = false) /\
  (Escrow.deliveredAt (Escrow.trades x).[id] + Escrow.disputeWindow x < block_timestamp c ->
   Escrow.raiseDispute x c id reason evidence = Revert DisputeWindowClosed).
Proof.
  intros Hst Hwho Hfit. unfold Escrow.raiseDispute, Escrow.status_is_not.
  rewrite Hst, bool_decide_eq_true_2 by reflexivity. simpl.
  rewrite (eqb_party _ _ _ Hwho). simpl. rewrite add256_fits by exact Hfit. simpl.
  split; intros Hnow.
  - rewrite (proj2 (Z.ltb_ge _ _)) by lia. simpl.
    eexists. split; [reflexivity|]. simpl. rewrite !sload_insert. simpl. auto.
  - rewrite (proj2 (Z.ltb_lt _ _)) by lia. reflexivity.
Qed.

Lemma raiseDispute_window_witness :
  Escrow.raiseDispute (escrow (w_delivered 100)) (at_time alice (30 + 259200 + 1)) 7000
    "late" "ipfs://late" = Revert DisputeWindowClosed.
Proof.
  assert (Hst : Escrow.status (Escrow.trades (escrow (w_delivered 100))).[7000]
                = Escrow.Delivered) by (vm_compute; reflexivity).
  assert (Hwho : msg_sender (at_time alice (30 + 259200 + 1))
                 = Escrow.buyer (Escrow.trades (escrow (w_delivered 100))).[7000])
    by (vm_compute; reflexivity).
  assert (Hfit : Escrow.deliveredAt (Escrow.trades (escrow (w_delivered 100))).[7000]
                 + Escrow.disputeWindow (escrow (w_delivered 100)) <= MAX_UINT256)
    by (vm_compute; discriminate).
  assert (Hlate : Escrow.deliveredAt (Escrow.trades (escrow (w_delivered 100))).[7000]
                  + Escrow.disputeWindow (escrow (w_delivered 100))
                  < block_timestamp (at_time alice (30 + 259200 + 1)))
    by (vm_compute; reflexivity).
  exact (proj2 (raiseDispute_window _ _ 7000 "late" "ipfs://late" Hst (or_introl Hwho) Hfit)
               Hlate).
Defined.

(** ** The asset ledger *)

Lemma transfer_balances (tk tk' : Token.State) (token from to amt : Z) :
  Token.safeTransfer tk token from to amt = Ok tk' ->
  to <> 0 /\ amt <= (Token.balanceOf tk).[(token, from)] /\
  Token.allowance tk' = Token.allowance tk /\
  forall h : Z,
    (Token.balanceOf tk').[(token, h)]
    = (Token.balanceOf tk).[(token, h)] - indicator h from * amt + indicator h to * amt.
Proof.
  unfold Token.safeTransfer, Token._transfer. intros Ht. inv_ok. guards. simpl.
  split; [assumption|]. split; [assumption|]. split; [reflexivity|].
  intros h. unfold indicator.
  destruct (Z.eqb_spec h to) as [->|Hto].
  - rewrite sload_insert.
    destruct (Z.eqb_spec to from) as [->|Hfrom].
    + rewrite sload_insert. lia.
    + rewrite sload_insert_ne by congruence. lia.
  - rewrite sload_insert_ne by congruence.
    destruct (Z.eqb_spec h from) as [->|Hfrom].
    + rewrite sload_insert. lia.
    + rewrite sload_insert_ne by congruence. lia.
Qed.

Lemma transfer_succeeds (tk : Token.State) (token from to amt : Z) :
  to <> 0 -> amt <= (Token.balanceOf tk).[(token, from)] ->
  exists tk', Token.safeTransfer tk token from to amt = Ok tk'.
Proof.
  intros Hto Hbal. unfold Token.safeTransfer, Token._transfer.
  rewrite (proj2 (Z.eqb_neq _ _) Hto). simpl.
  rewrite (proj2 (Z.ltb_ge _ _) Hbal). simpl. eauto.
Qed.

(** X4.  [autoRelease] of a Delivered trade.  When
    [deliveredAt + autoReleaseDelay] does not fit in a uint256, which the
    administrator can bring about since [updateAutoReleaseDelay] has no
    cap, the checked addition panics: the call reverts for every caller at
    every time.  When it fits, the call reverts with [InvalidTrade] before
    [deliveredAt + autoReleaseDelay]; from that instant on, for any
    caller, provided the fee does not exceed the amount, seller and fee
    recipient are not the zero address and the escrow holds the amount, it
    succeeds: the trade becomes Completed with buyer rating 500, the seller
    is paid [amount - platformFee] and the fee recipient [platformFee]. *)
Theorem autoRelease_deadline (E : Env) (x : Escrow.State) (tk : Token.State) (c : Ctx)
    (id : bytes32) :
  let t := (Escrow.trades x).[id] in
  Escrow.status t = Escrow.Delivered ->
  (MAX_UINT256 < Escrow.deliveredAt t + Escrow.autoReleaseDelay x ->
   Escrow.autoRelease E x tk c id = Revert Panic) /\
  (Escrow.deliveredAt t + Escrow.autoReleaseDelay x <= MAX_UINT256 ->
   (block_timestamp c < Escrow.deliveredAt t + Escrow.autoReleaseDelay x ->
    Escrow.autoRelease E x tk c id = Revert InvalidTrade) /\
   (Escrow.deliveredAt t + Escrow.autoReleaseDelay x <= block_timestamp c ->
    0 <= Escrow.platformFee t <= Escrow.amount t ->
    Escrow.seller t <> 0 -> Escrow.feeRecipient x <> 0 ->
    Escrow.amount t <= (Token.balanceOf tk).[(Escrow.paymentToken t, escrow_address E)] ->
    exists x' tk',
      Escrow.autoRelease E x tk c id
      = Ok (x', tk',
            [TransferOut (Escrow.paymentToken t) (Escrow.seller t)
                         (Escrow.amount t - Escrow.platformFee t);
             TransferOut (Escrow.paymentToken t) (Escrow.feeRecipient x)
                         (Escrow.platformFee t)]) /\
      Escrow.status (Escrow.trades x').[id] = Escrow.Completed /\
      Escrow.buyerRating (Escrow.trades x').[id] = 500 /\
      Escrow.completedAt (Escrow.trades x').[id] = block_timestamp c)).
Proof.
  cbv zeta. intros Hst. unfold Escrow.autoRelease, Escrow.status_is_not.
  rewrite Hst, bool_decide_eq_true_2 by reflexivity. simpl. split.
  - intros Hover. unfold add256. rewrite (proj2 (Z.leb_gt _ _) Hover). reflexivity.
  - intros Hfit. rewrite add256_fits by exact Hfit. simpl. split.
    + intros Hearly. rewrite (proj2 (Z.ltb_lt _ _) Hearly). reflexivity.
    + intros Hdue Hfee Hseller Hsink Hbal.
      rewrite (proj2 (Z.ltb_ge _ _) Hdue). simpl.
      unfold Escrow.release. simpl. unfold sub256.
      rewrite (proj2 (Z.leb_le _ _)) by lia. simpl.
      destruct (transfer_succeeds tk (Escrow.paymentToken (Escrow.trades x).[id])
                  (escrow_address E) (Escrow.seller (Escrow.trades x).[id])
                  (Escrow.amount (Escrow.trades x).[id]
                   - Escrow.platformFee (Escrow.trades x).[id]) Hseller) as [tk1 H1];
        [lia|].
      rewrite H1. simpl.
      destruct (transfer_balances _ _ _ _ _ _ H1) as (_ & _ & _ & Hb1).
      destruct (transfer_succeeds tk1 (Escrow.paymentToken (Escrow.trades x).[id])
                  (escrow_address E) (Escrow.feeRecipient x)
                  (Escrow.platformFee (Escrow.trades x).[id]) Hsink) as [tk2 H2].
      { rewrite Hb1. unfold indicator. rewrite Z.eqb_refl.
        destruct (escrow_address E =? Escrow.seller (Escrow.trades x).[id]); lia. }
      rewrite H2. simpl. eexists. eexists. split; [reflexivity|].
      simpl. rewrite sload_insert. simpl. auto.
Qed.

Lemma autoRelease_deadline_witness :
  Escrow.autoRelease E0 (escrow (w_delivered 100)) (tokens (w_delivered 100))
    (at_time carol (30 + 1209600 - 1)) 7000 = Revert InvalidTrade /\
  (exists x' tk',
    Escrow.autoRelease E0 (escrow (w_delivered 100)) (tokens (w_delivered 100))
      (at_time carol (30 + 1209600)) 7000
    = Ok (x', tk',
          [TransferOut (Escrow.paymentToken (Escrow.trades (escrow (w_delivered 100))).[7000])
             (Escrow.seller (Escrow.trades (escrow (w_delivered 100))).[7000])
             (Escrow.amount (Escrow.trades (escrow (w_delivered 100))).[7000]
              - Escrow.platformFee (Escrow.trades (escrow (w_delivered 100))).[7000]);
           TransferOut (Escrow.paymentToken (Escrow.trades (escrow (w_delivered 100))).[7000])
             (Escrow.feeRecipient (escrow (w_delivered 100)))
             (Escrow.platformFee (Escrow.trades (escrow (w_delivered 100))).[7000])]) /\
    Escrow.status (Escrow.trades x').[7000] = Escrow.Completed /\
    Escrow.buyerRating (Escrow.trades x').[7000] = 500 /\
    Escrow.completedAt (Escrow.trades x').[7000]
    = block_timestamp (at_time carol (30 + 1209600))) /\
  Escrow.autoRelease E0 (escrow w_uncapped_delay) (tokens w_uncapped_delay)
    (at_time carol (30 + 1209600)) 7000 = Revert Panic.
Proof.
  assert (Hst : Escrow.status (Escrow.trades (escrow (w_delivered 100))).[7000]
                = Escrow.Delivered) by (vm_compute; reflexivity).
  assert (Hfit : Escrow.deliveredAt (Escrow.trades (escrow (w_delivered 100))).[7000]
                 + Escrow.autoReleaseDelay (escrow (w_delivered 100)) <= MAX_UINT256)
    by (vm_compute; discriminate).
  assert (Hst' : Escrow.status (Escrow.trades (escrow w_uncapped_delay)).[7000]
                 = Escrow.Delivered) by (vm_compute; reflexivity).
  split; [|split].
  - refine (proj1 (proj2 (autoRelease_deadline E0 (escrow (w_delivered 100))
                            (tokens (w_delivered 100))
                            (at_time carol (30 + 1209600 - 1)) 7000 Hst) Hfit) _).
    vm_compute. reflexivity.
  - refine (proj2 (proj2 (autoRelease_deadline E0 (escrow (w_delivered 100))
                            (tokens (w_delivered 100))
                            (at_time carol (30 + 1209600)) 7000 Hst) Hfit) _ _ _ _ _).
    + vm_compute. discriminate.
    + split; vm_compute; discriminate.
    + vm_compute. discriminate.
    + vm_compute. discriminate.
    + vm_compute. discriminate.
  - refine (proj1 (autoRelease_deadline E0 (escrow w_uncapped_delay)
                     (tokens w_uncapped_delay) (at_time carol (30 + 1209600)) 7000 Hst') _).
    vm_compute. reflexivity.
Defined.

(** ** Ratings *)

(** X5.  No call of [confirmDelivery] or [rateBuyer] with a rating below
    100 or above 500 succeeds, whatever the state and the caller; made by
    the buyer of a Delivered trade, or by the seller of a Completed trade he
    has not rated, it reverts with [InvalidRating]. *)
Theorem ratings_out_of_range_rejected (E : Env) (w : World) (c : Ctx) (id : bytes32)
    (rating : uint256) :
  rating < 100 \/ 500 < rating ->
  (forall r, step E w c (ConfirmDelivery id rating) <> Ok r) /\
  (forall r, step E w c (RateBuyer id rating) <> Ok r) /\
  (Escrow.status (Escrow.trades (escrow w)).[id] = Escrow.Delivered ->
   msg_sender c = Escrow.buyer (Escrow.trades (escrow w)).[id] ->
   step E w c (ConfirmDelivery id rating) = Revert InvalidRating) /\
  (Escrow.status (Escrow.trades (escrow w)).[id] = Escrow.Completed ->
   msg_sender c = Escrow.seller (Escrow.trades (escrow w)).[id] ->
   step E w c (RateBuyer id rating) = Revert InvalidRating).
Proof.
  intros Hbad.
  assert (Hcheck : (rating <? 100) || (500 <? rating) = true).
  { apply orb_true_iff. destruct Hbad; [left; apply Z.ltb_lt | right; apply Z.ltb_lt]; lia. }
  split; [|split; [|split]].
  - intros [w' effects] Hstep. simpl in Hstep. inv_ok.
    apply confirmDelivery_Ok in Ha. lia.
  - intros [w' effects] Hstep. simpl in Hstep. inv_ok.
    apply rateBuyer_Ok in Ha. lia.
  - intros Hst Hwho. simpl. unfold Escrow.confirmDelivery, Escrow.status_is_not.
    rewrite Hst, bool_decide_eq_true_2 by reflexivity. simpl.
    rewrite Hwho, Z.eqb_refl. simpl. rewrite Hcheck. reflexivity.
  - intros Hst Hwho. simpl. unfold Escrow.rateBuyer, Escrow.status_is_not.
    rewrite Hst, bool_decide_eq_true_2 by reflexivity. simpl.
    rewrite Hwho, Z.eqb_refl. simpl. rewrite Hcheck. reflexivity.
Qed.

Lemma ratings_out_of_range_rejected_witness :
  step E0 (w_delivered 100) (at_time alice 40) (ConfirmDelivery 7000 501)
  = Revert InvalidRating.
Proof.
  assert (Hst : Escrow.status (Escrow.trades (escrow (w_delivered 100))).[7000]
                = Escrow.Delivered) by (vm_compute; reflexivity).
  assert (Hwho : msg_sender (at_time alice 40)
                 = Escrow.buyer (Escrow.trades (escrow (w_delivered 100))).[7000])
    by (vm_compute; reflexivity).
  assert (Hbad : 501 < 100 \/ 500 < 501) by (right; reflexivity).
  exact (proj1 (proj2 (proj2 (ratings_out_of_range_rejected E0 (w_delivered 100)
                                (at_time alice 40) 7000 501 Hbad))) Hst Hwho).
Defined.

(** ** Who may call *)

(** X6.  Every successful escrow call was made by a caller its guards
    admit: the seller for [acceptTrade], [markDelivered] and [rateBuyer];
    the buyer for [confirmDelivery] and [cancelTrade]; either party for
    [raiseDispute] and [submitEvidence]; a holder of the dispute-resolver
    role for [resolveDispute], of the admin role for the settings and role
    grants, of the pauser role for [pause] and [unpause]. *)
Theorem successful_calls_are_authorised (E : Env) (w w' : World) (c : Ctx) (call : Call)
    (effects : list Effect) :
  step E w c call = Ok (w', effects) -> authorised w c call.
Proof.
  intros Hstep. unfold authorised.
  destruct call; simpl in Hstep; inv_ok; try exact I;
    repeat match goal with
    | H : Escrow.addSupportedToken _ _ _ = Ok _ |- _ => unfold Escrow.addSupportedToken in H
    | H : Escrow.removeSupportedToken _ _ _ = Ok _ |- _ =>
        unfold Escrow.removeSupportedToken in H
    | H : Escrow.updateFeeRate _ _ _ = Ok _ |- _ => unfold Escrow.updateFeeRate in H
    | H : Escrow.updateFeeRecipient _ _ _ = Ok _ |- _ => unfold Escrow.updateFeeRecipient in H
    | H : Escrow.updateDisputeWindow _ _ _ = Ok _ |- _ =>
        unfold Escrow.updateDisputeWindow in H
    | H : Escrow.updateAutoReleaseDelay _ _ _ = Ok _ |- _ =>
        unfold Escrow.updateAutoReleaseDelay in H
    | H : Escrow.pause _ _ = Ok _ |- _ => unfold Escrow.pause in H
    | H : Escrow.unpause _ _ = Ok _ |- _ => unfold Escrow.unpause in H
    | H : Escrow.only_admin _ _ = Ok _ |- _ => unfold Escrow.only_admin in H
    | H : AccessControl.grantRole _ _ _ _ = Ok _ |- _ => unfold AccessControl.grantRole in H
    | H : AccessControl.revokeRole _ _ _ _ = Ok _ |- _ => unfold AccessControl.revokeRole in H
    end; inv_ok;
    try match goal with
        | H : Escrow.only_admin _ _ = Ok _ |- _ => unfold Escrow.only_admin in H; inv_ok
        end;
    try assumption.
  - apply acceptTrade_Ok in Ha. apply Ha.
  - apply markDelivered_Ok in Ha. apply Ha.
  - apply confirmDelivery_Ok in Ha. apply Ha.
  - apply rateBuyer_Ok in Ha. apply Ha.
  - apply cancelTrade_Ok in Ha. apply Ha.
  - unfold Escrow.raiseDispute in Ha. inv_ok. guards.
    match goal with H : _ && _ = false |- _ => apply andb_false_iff in H; destruct H end;
      guards; auto.
  - unfold Escrow.submitEvidence in Ha. inv_ok. guards.
    match goal with H : _ && _ = false |- _ => apply andb_false_iff in H; destruct H end;
      guards; auto.
  - apply resolveDispute_Ok in Ha. apply Ha.
Qed.

Lemma successful_calls_are_authorised_witness :
  authorised (w_delivered 100) (at_time alice 40) (ConfirmDelivery 7000 450).
Proof.
  assert (Hstep : step E0 (w_delivered 100) (at_time alice 40) (ConfirmDelivery 7000 450)
                  = Ok (w_completed, [TransferOut usdc bob 98; TransferOut usdc admin 2]))
    by (vm_compute; reflexivity).
  exact (successful_calls_are_authorised E0 (w_delivered 100) w_completed (at_time alice 40)
           (ConfirmDelivery 7000 450) _ Hstep).
Defined.

(** ** Invariants of the trade records *)

Ltac unfold_escrow_call :=
  repeat match goal with
  | H : Escrow.createTrade _ _ _ _ _ _ _ _ _ _ = Ok _ |- _ => unfold Escrow.createTrade in H
  | H : Escrow.acceptTrade _ _ _ = Ok _ |- _ => unfold Escrow.acceptTrade in H
  | H : Escrow.markDelivered _ _ _ _ = Ok _ |- _ => unfold Escrow.markDelivered in H
  | H : Escrow.confirmDelivery _ _ _ _ _ _ = Ok _ |- _ => unfold Escrow.confirmDelivery in H
  | H : Escrow.rateBuyer _ _ _ _ _ _ _ = Ok _ |- _ =>
      apply rateBuyer_Ok in H; destruct H as (_ & _ & _ & _ & -> & _)
  | H : Escrow.cancelTrade _ _ _ _ _ = Ok _ |- _ => unfold Escrow.cancelTrade in H
  | H : Escrow.claimExpiredTrade _ _ _ _ _ = Ok _ |- _ => unfold Escrow.claimExpiredTrade in H
  | H : Escrow.autoRelease _ _ _ _ _ = Ok _ |- _ => unfold Escrow.autoRelease in H
  | H : Escrow.raiseDispute _ _ _ _ _ = Ok _ |- _ => unfold Escrow.raiseDispute in H
  | H : Escrow.submitEvidence _ _ _ _ = Ok _ |- _ => unfold Escrow.submitEvidence in H
  | H : Escrow.resolveDispute _ _ _ _ _ _ _ = Ok _ |- _ => unfold Escrow.resolveDispute in H
  | H : Escrow.addSupportedToken _ _ _ = Ok _ |- _ => unfold Escrow.addSupportedToken in H
  | H : Escrow.removeSupportedToken _ _ _ = Ok _ |- _ =>
      unfold Escrow.removeSupportedToken in H
  | H : Escrow.updateFeeRate _ _ _ = Ok _ |- _ => unfold Escrow.updateFeeRate in H
  | H : Escrow.updateFeeRecipient _ _ _ = Ok _ |- _ => unfold Escrow.updateFeeRecipient in H
  | H : Escrow.updateDisputeWindow _ _ _ = Ok _ |- _ => unfold Escrow.updateDisputeWindow in H
  | H : Escrow.updateAutoReleaseDelay _ _ _ = Ok _ |- _ =>
      unfold Escrow.updateAutoReleaseDelay in H
  | H : Escrow.pause _ _ = Ok _ |- _ => unfold Escrow.pause in H
  | H : Escrow.unpause _ _ = Ok _ |- _ => unfold Escrow.unpause in H
  end.

(** A call that does not recreate a trade keeps the fields fixed at its
    creation, its identifier among them. *)
Lemma step_keeps_terms (E : Env) (w w' : World) (c : Ctx) (call : Call) (effects : list Effect)
    (id : Z) :
  step E w c call = Ok (w', effects) ->
  recreates E w c call id = false ->
  same_terms (Escrow.trades (escrow w)).[id] (Escrow.trades (escrow w')).[id] /\
  Escrow.tradeId (Escrow.trades (escrow w')).[id] = Escrow.tradeId (Escrow.trades (escrow w)).[id].
Proof.
  intros Hstep Hfresh.
  destruct (decide (trade_of call = Some id)) as [Htarget|Hother].
  - split; [exact (proj1 (step_target _ _ _ _ _ _ _ Hstep Htarget))|].
    destruct call; simpl in Htarget; try discriminate; inversion Htarget; subst;
      simpl in Hstep; inv_ok; unfold_escrow_call; inv_ok; simpl;
      rewrite ?sload_insert; reflexivity.
  - destruct (step_frame _ _ _ _ _ _ _ Hstep Hother Hfresh) as [-> _].
    split; [apply same_terms_refl | reflexivity].
Qed.

Lemma createTrade_guards (E : Env) (x : Escrow.State) (tk : Token.State) (en : Engine.State)
    (c : Ctx) (seller token amt : Z) (desc : string) (expiry : Z)
    (x' : Escrow.State) (tk' : Token.State) (en' : Engine.State) (id : Z)
    (effects : list Effect) :
  Escrow.createTrade E x tk en c seller token amt desc expiry = Ok (x', tk', en', id, effects) ->
  Escrow._paused x = false /\
  (Escrow.supportedTokens x).[token] = true /\
  amt <> 0 /\ seller <> 0 /\ seller <> msg_sender c /\
  Escrow.tradeId (Escrow.trades x').[id] = id /\
  Escrow.platformFeeRate x' = Escrow.platformFeeRate x.
Proof.
  unfold Escrow.createTrade. intros Hc. inv_ok. guards. simpl. rewrite sload_insert. simpl.
  repeat split; auto.
Qed.

Lemma fee_rate_step (E : Env) (w w' : World) (c : Ctx) (call : Call) (effects : list Effect) :
  step E w c call = Ok (w', effects) ->
  Escrow.platformFeeRate (escrow w) <= Escrow.MAX_FEE_RATE ->
  Escrow.platformFeeRate (escrow w') <= Escrow.MAX_FEE_RATE.
Proof.
  intros Hstep Hcap.
  destruct call; simpl in Hstep; inv_ok; simpl; try assumption;
    unfold_escrow_call; inv_ok; simpl; guards; assumption.
Qed.

Lemma trades_step (E : Env) (w w' : World) (c : Ctx) (call : Call) (effects : list Effect) :
  step E w c call = Ok (w', effects) ->
  Escrow.platformFeeRate (escrow w) <= Escrow.MAX_FEE_RATE ->
  well_formed_trades (Escrow.trades (escrow w)) /\ fees_bounded (Escrow.trades (escrow w)) ->
  well_formed_trades (Escrow.trades (escrow w')) /\ fees_bounded (Escrow.trades (escrow w')).
Proof.
  intros Hstep Hcap [Hwf Hfee].
  assert (Hboth : forall id,
            (Escrow.status (Escrow.trades (escrow w')).[id] <> Escrow.StatusNone ->
             Escrow.tradeId (Escrow.trades (escrow w')).[id] = id /\
             Escrow.seller (Escrow.trades (escrow w')).[id] <> 0 /\
             Escrow.buyer (Escrow.trades (escrow w')).[id]
               <> Escrow.seller (Escrow.trades (escrow w')).[id] /\
             Escrow.amount (Escrow.trades (escrow w')).[id] <> 0) /\
            (0 <= Escrow.amount (Escrow.trades (escrow w')).[id] ->
             10 * Escrow.platformFee (Escrow.trades (escrow w')).[id]
             <= Escrow.amount (Escrow.trades (escrow w')).[id])).
  { intros id. destruct (recreates E w c call id) eqn:Hre.
    - destruct call; simpl in Hre; try discriminate. simpl in Hstep. inv_ok.
      apply Z.eqb_eq in Hre.
      match goal with H : Escrow.createTrade _ _ _ _ _ _ _ _ _ _ = Ok _ |- _ =>
        pose proof (createTrade_guards _ _ _ _ _ _ _ _ _ _ _ _ _ _ _ H)
          as (_ & _ & Hamt & Hs0 & Hsb & Hid & _);
        apply createTrade_record in H;
        destruct H as (Hkey & _ & _ & Hb & Hs & _ & Ha & Hf & _) end.
      simpl. rewrite <- Hre, <- Hkey. split.
      + intros _. rewrite Hs, Hb, Ha. auto.
      + rewrite Ha, Hf. intros Hpos.
        unfold Escrow.MAX_FEE_RATE in Hcap.
        assert (Hprod : amount0 * Escrow.platformFeeRate (escrow w) <= amount0 * 1000) by nia.
        pose proof (Z.div_le_mono _ _ 10000 ltac:(lia) Hprod) as Hdiv.
        assert (Hten : amount0 * 1000 / 10000 = amount0 / 10).
        { replace 10000 with (1000 * 10) by reflexivity.
          rewrite (Z.mul_comm amount0 1000), Z.div_mul_cancel_l by lia. reflexivity. }
        pose proof (Z.mul_div_le amount0 10 ltac:(lia)). lia.
    - destruct (step_keeps_terms _ _ _ _ _ _ id Hstep Hre) as [(Hb & Hs & _ & Ha & Hf) Hid].
      rewrite Hb, Hs, Ha, Hf, Hid. split; [|apply Hfee].
      intros Hsome. apply Hwf. intros Hnone.
      destruct (step_status _ _ _ _ _ _ id Hstep) as [Hsame|[Hedge|[Hre' _]]].
      + rewrite Hsame in Hsome. contradiction.
      + rewrite Hnone in Hedge. discriminate.
      + rewrite Hre in Hre'. discriminate. }
  split; intros id; apply Hboth.
Qed.

(** X7.  In every world reachable from a deployment the fee rate is at
    most 1000 basis points; every trade that exists is stored under its own
    identifier and has a seller other than the zero address, a buyer other
    than the seller and a non-zero amount; and the fee of a trade with a
    non-negative amount is at most a tenth of the amount, so the payout
    [amount - platformFee] never underflows. *)
Theorem trades_stay_well_formed (E : Env) (w : World) :
  reachable E w ->
  Escrow.platformFeeRate (escrow w) <= Escrow.MAX_FEE_RATE /\
  well_formed_trades (Escrow.trades (escrow w)) /\
  fees_bounded (Escrow.trades (escrow w)).
Proof.
  induction 1 as [d|w c call w' effects _ IH Hstep].
  - split; [simpl; unfold Escrow.MAX_FEE_RATE; lia|]. split; intros id; simpl;
      rewrite sload_empty; simpl; [congruence | lia].
  - destruct IH as [Hcap Hinv]. split; [eapply fee_rate_step; eassumption|].
    eapply trades_step; eassumption.
Qed.

Lemma trades_stay_well_formed_witness :
  Escrow.platformFeeRate (escrow w_completed) <= Escrow.MAX_FEE_RATE /\
  well_formed_trades (Escrow.trades (escrow w_completed)) /\
  fees_bounded (Escrow.trades (escrow w_completed)).
Proof.
  apply (trades_stay_well_formed E0 w_completed).
  unfold w_completed. apply reachable_run.
  unfold w_delivered. apply reachable_run.
  unfold w_configured. apply reachable_run.
  apply reachable_deploy.
Defined.

(** X8.  For a Created trade the expiry splits time in two.  Up to and
    including [expiresAt] the seller's [acceptTrade] succeeds and
    [claimExpiredTrade] reverts with [TradeNotExpired]; after it the
    seller's [acceptTrade] reverts with [InvalidTrade] and
    [claimExpiredTrade], by any caller, refunds the buyer the full amount
    and marks the trade Expired, provided the buyer is not the zero address
    and the escrow holds the amount. *)
Theorem expiry_deadline (E : Env) (x : Escrow.State) (tk : Token.State) (c : Ctx)
    (id : bytes32) :
  let t := (Escrow.trades x).[id] in
  Escrow.status t = Escrow.Created ->
  (block_timestamp c <= Escrow.expiresAt t ->
   Escrow.claimExpiredTrade E x tk c id = Revert TradeNotExpired /\
   (msg_sender c = Escrow.seller t ->
    exists x', Escrow.acceptTrade x c id = Ok x' /\
               Escrow.status (Escrow.trades x').[id] = Escrow.SellerAccepted)) /\
  (Escrow.expiresAt t < block_timestamp c ->
   (msg_sender c = Escrow.seller t -> Escrow.acceptTrade x c id = Revert InvalidTrade) /\
   (Escrow.buyer t <> 0 ->
    Escrow.amount t <= (Token.balanceOf tk).[(Escrow.paymentToken t, escrow_address E)] ->
    exists x' tk',
      Escrow.claimExpiredTrade E x tk c id
      = Ok (x', tk', [TransferOut (Escrow.paymentToken t) (Escrow.buyer t) (Escrow.amount t)]) /\
      Escrow.status (Escrow.trades x').[id] = Escrow.Expired)).
Proof.
  cbv zeta. intros Hst.
  unfold Escrow.claimExpiredTrade, Escrow.acceptTrade, Escrow.status_is_not.
  rewrite Hst. simpl. split.
  - intros Hearly. rewrite (proj2 (Z.leb_le _ _) Hearly). split; [reflexivity|].
    intros ->. rewrite Z.eqb_refl. simpl.
    rewrite (proj2 (Z.ltb_ge _ _) Hearly). simpl.
    eexists. split; [reflexivity|]. simpl. rewrite sload_insert. reflexivity.
  - intros Hlate. split.
    + intros ->. rewrite Z.eqb_refl. simpl.
      rewrite (proj2 (Z.ltb_lt _ _) Hlate). reflexivity.
    + intros Hbuyer Hbal. rewrite (proj2 (Z.leb_gt _ _) Hlate). simpl.
      destruct (transfer_succeeds tk (Escrow.paymentToken (Escrow.trades x).[id])
                  (escrow_address E) (Escrow.buyer (Escrow.trades x).[id])
                  (Escrow.amount (Escrow.trades x).[id]) Hbuyer Hbal) as [tk' ->].
      simpl. eexists. eexists. split; [reflexivity|]. simpl. rewrite sload_insert.
      reflexivity.
Qed.

Lemma expiry_deadline_witness :
  Escrow.claimExpiredTrade E0 (escrow w_created) (tokens w_created) (at_time carol 604810) 7000
  = Revert TradeNotExpired /\
  exists x' tk',
    Escrow.claimExpiredTrade E0 (escrow w_created) (tokens w_created) (at_time carol 604811) 7000
    = Ok (x', tk',
          [TransferOut (Escrow.paymentToken (Escrow.trades (escrow w_created)).[7000])
             (Escrow.buyer (Escrow.trades (escrow w_created)).[7000])
             (Escrow.amount (Escrow.trades (escrow w_created)).[7000])]) /\
    Escrow.status (Escrow.trades x').[7000] = Escrow.Expired.
Proof.
  assert (Hst : Escrow.status (Escrow.trades (escrow w_created)).[7000] = Escrow.Created)
    by (vm_compute; reflexivity).
  split.
  - refine (proj1 (proj1 (expiry_deadline E0 (escrow w_created) (tokens w_created)
                            (at_time carol 604810) 7000 Hst) _)).
    vm_compute. discriminate.
  - refine (proj2 (proj2 (expiry_deadline E0 (escrow w_created) (tokens w_created)
                            (at_time carol 604811) 7000 Hst) _) _ _).
    + vm_compute. reflexivity.
    + vm_compute. discriminate.
    + vm_compute. discriminate.
Defined.

(** ** Pausing *)

(** Run the next guard or sub-call of a call that succeeded, in the
    hypothesis and in the goal at once. *)
Ltac run_both H :=
  repeat (simpl in H |- *;
    match type of H with
    | Revert _ = Ok _ => discriminate H
    | context [revert_if ?g ?e] =>
        let Hg := fresh "Hg" in destruct g eqn:Hg; unfold revert_if in H |- *
    | context [require ?g ?e] =>
        let Hg := fresh "Hg" in destruct g eqn:Hg; unfold require in H |- *
    | context [AccessControl.onlyRole ?r ?role ?c] =>
        let Hg := fresh "Hg" in destruct (AccessControl.onlyRole r role c) eqn:Hg
    | context [add256 ?a ?b] => let Hg := fresh "Hg" in destruct (add256 a b) eqn:Hg
    | context [sub256 ?a ?b] => let Hg := fresh "Hg" in destruct (sub256 a b) eqn:Hg
    | context [mul256 ?a ?b] => let Hg := fresh "Hg" in destruct (mul256 a b) eqn:Hg
    | context [div256 ?a ?b] => let Hg := fresh "Hg" in destruct (div256 a b) eqn:Hg
    | context [Token.safeTransfer ?t ?a ?b ?c ?d] =>
        let Hg := fresh "Hg" in destruct (Token.safeTransfer t a b c d) eqn:Hg
    | context [Token.safeTransferFrom ?t ?a ?b ?c ?d ?e] =>
        let Hg := fresh "Hg" in destruct (Token.safeTransferFrom t a b c d e) eqn:Hg
    | context [Engine.recordTrade ?a ?b ?c ?d ?e ?f ?g ?h ?i ?j] =>
        let Hg := fresh "Hg" in
        destruct (Engine.recordTrade a b c d e f g h i j) as [[? ?]|?] eqn:Hg
    | context [Engine.recordDisputeResolution ?a ?b ?c ?d ?e] =>
        let Hg := fresh "Hg" in destruct (Engine.recordDisputeResolution a b c d e) eqn:Hg
    | context [if ?g then _ else _] => let Hg := fresh "Hg" in destruct g eqn:Hg
    | context [match ?x with pair _ _ => _ end] => is_var x; destruct x
    | context [bind ?m _] => let Hg := fresh "Hg" in destruct m eqn:Hg
    end).

Lemma step_ignores_pause (E : Env) (w w' : World) (c : Ctx) (call : Call)
    (effects : list Effect) (p : bool) :
  ignores_pause call = true ->
  step E w c call = Ok (w', effects) ->
  step E (with_pause w p) c call = Ok (with_pause w' p, effects).
Proof.
  intros Hign Hstep.
  destruct call; try discriminate Hign; clear Hign; unfold with_pause;
    simpl in Hstep |- *.
  all: unfold Escrow.acceptTrade, Escrow.markDelivered, Escrow.confirmDelivery,
         Escrow.rateBuyer, Escrow.cancelTrade, Escrow.claimExpiredTrade, Escrow.autoRelease,
         Escrow.raiseDispute, Escrow.submitEvidence, Escrow.resolveDispute,
         Escrow.addSupportedToken, Escrow.removeSupportedToken, Escrow.updateFeeRate,
         Escrow.updateFeeRecipient, Escrow.updateDisputeWindow, Escrow.updateAutoReleaseDelay,
         Escrow.only_admin, Escrow.release, Escrow.status_is_not,
         AccessControl.grantRole, AccessControl.revokeRole in Hstep |- *.
  all: run_both Hstep; inversion Hstep; subst; reflexivity.
Qed.

(** X9.  Pausing the escrow blocks [createTrade] and nothing else: every
    other call that succeeds with the pause flag as it is succeeds with the
    flag set either way, with the same effects and the same resulting
    world, flag apart; so funds of existing trades can be released,
    refunded, disputed and resolved while the escrow is paused.  A paused
    escrow rejects [createTrade] with [EnforcedPause]. *)
Theorem pause_blocks_creation_only (E : Env) (w w' : World) (c : Ctx) (call : Call)
    (effects : list Effect) :
  step E w c call = Ok (w', effects) ->
  (forall p : bool,
     ignores_pause call = true ->
     step E (with_pause w p) c call = Ok (with_pause w' p, effects)) /\
  (forall (seller token amt : Z) (desc : string) (expiry : Z),
     step E (with_pause w true) c (CreateTrade seller token amt desc expiry)
     = Revert EnforcedPause).
Proof.
  intros Hstep. split.
  - intros p Hign. apply step_ignores_pause; assumption.
  - intros seller token amt desc expiry. reflexivity.
Qed.

Lemma pause_blocks_creation_only_witness :
  step E0 (with_pause (w_delivered 100) true) (at_time alice 40) (ConfirmDelivery 7000 450)
  = Ok (with_pause w_completed true, [TransferOut usdc bob 98; TransferOut usdc admin 2]).
Proof.
  assert (Hstep : step E0 (w_delivered 100) (at_time alice 40) (ConfirmDelivery 7000 450)
                  = Ok (w_completed, [TransferOut usdc bob 98; TransferOut usdc admin 2]))
    by (vm_compute; reflexivity).
  exact (proj1 (pause_blocks_creation_only E0 (w_delivered 100) w_completed (at_time alice 40)
                  (ConfirmDelivery 7000 450) _ Hstep) true eq_refl).
Defined.

(** ** The reputation engine's trade history *)

Lemma last_cons_default {A : Type} (rest : list A) (x y : A) :
  List.last (y :: rest) x = List.last rest y.
Proof.
  revert x y. induction rest as [|a rest IH]; intros x y; [reflexivity|].
  change (List.last (y :: a :: rest) x) with (List.last (a :: rest) x).
  rewrite (IH x a). symmetry. apply IH.
Qed.

Lemma shift_history_shifts (rest pre : list Engine.TradeRecord) (x : Engine.TradeRecord) :
  Engine.shift_history (length rest) (length pre) (pre ++ x :: rest)
  = Ok (pre ++ rest ++ [List.last rest x]).
Proof.
  revert pre x. induction rest as [|y rest IH]; intros pre x; [reflexivity|].
  cbn [length Engine.shift_history].
  replace ((pre ++ x :: y :: rest) !! S (length pre)) with (Some y).
  2:{ symmetry. change (x :: y :: rest) with ([x] ++ y :: rest). rewrite app_assoc.
      replace (S (length pre)) with (length (pre ++ [x])) by (rewrite length_app; simpl; lia).
      apply list_lookup_middle. reflexivity. }
  rewrite insert_app_r_alt by lia. rewrite Nat.sub_diag. cbn [list_insert insert].
  change (pre ++ y :: y :: rest) with (pre ++ [y] ++ y :: rest). rewrite app_assoc.
  replace (S (length pre)) with (length (pre ++ [y])) by (rewrite length_app; simpl; lia).
  rewrite IH. rewrite <- app_assoc. rewrite last_cons_default. reflexivity.
Qed.

Lemma push_history_Ok (h : list Engine.TradeRecord) (r : Engine.TradeRecord) :
  Engine.push_history h r
  = Ok ((if 100 <=? Z.of_nat (length h) then drop 1 h else h) ++ [r]).
Proof.
  unfold Engine.push_history.
  destruct (100 <=? Z.of_nat (length h)) eqn:Hfull; [|reflexivity].
  destruct h as [|x rest]; [discriminate|].
  cbn [length]. rewrite Nat.sub_1_r. cbn [Nat.pred].
  pose proof (shift_history_shifts rest [] x) as Hs. cbn [length app] in Hs. rewrite Hs.
  cbn [bind]. rewrite removelast_last. reflexivity.
Qed.

(** X10.  [_updateReputation]'s history buffer: pushing a record never
    reverts; below 100 stored records it appends, and from 100 on the loop
    and [pop] drop exactly the oldest record, keep the order of the others
    and then append. *)
Theorem history_keeps_latest_100 (h : list Engine.TradeRecord) (r : Engine.TradeRecord) :
  Engine.push_history h r
  = Ok ((if 100 <=? Z.of_nat (length h) then drop 1 h else h) ++ [r]).
Proof. apply push_history_Ok. Qed.

(** ** What every call keeps of a stored reputation *)

Lemma engine_evolves_refl (e : Engine.State) : engine_evolves e e.
Proof. intros u. cbv zeta. auto. Qed.

Lemma engine_evolves_trans (e1 e2 e3 : Engine.State) :
  engine_evolves e1 e2 -> engine_evolves e2 e3 -> engine_evolves e1 e3.
Proof.
  intros H12 H23 u. destruct (H12 u) as (Ha & Ht & Hh). destruct (H23 u) as (Ha' & Ht' & Hh').
  cbv zeta in *. split; [|split].
  - intros Hact. destruct (Ha Hact) as [Hact2 Hj]. destruct (Ha' Hact2) as [Hact3 Hj'].
    split; [exact Hact3 | congruence].
  - auto.
  - auto.
Qed.

Lemma engine_evolves_same (e e' : Engine.State) :
  Engine.userReputations e' = Engine.userReputations e ->
  Engine.userTradeHistory e' = Engine.userTradeHistory e ->
  engine_evolves e e'.
Proof. intros Hr Hh u. unfold history. rewrite Hr, Hh. cbv zeta. auto. Qed.

Lemma registerUser_evolves (e : Engine.State) (c : Ctx) (user : Z) :
  engine_evolves e (Engine.registerUser e c user).
Proof.
  unfold Engine.registerUser.
  destruct (Engine.isActive (Engine.userReputations e).[user]) eqn:Hact; simpl;
    [apply engine_evolves_refl|].
  intros u. cbv zeta. unfold history. simpl.
  destruct (Z.eq_dec user u) as [->|Hne].
  - rewrite sload_insert. simpl. rewrite Hact. repeat split; auto; discriminate.
  - rewrite sload_insert_ne by exact Hne. auto.
Qed.

Lemma ensureRegistered_evolves (e : Engine.State) (c : Ctx) (user : Z) :
  engine_evolves e (Engine._ensureRegistered e c user).
Proof. apply registerUser_evolves. Qed.

Lemma updateReputation_evolves (e e' : Engine.State) (c : Ctx) (user rating cp amt id : Z)
    (wb : bool) :
  Engine._updateReputation e c user rating cp amt id wb = Ok e' -> engine_evolves e e'.
Proof.
  unfold Engine._updateReputation. intros Hu. inv_ok.
  rewrite push_history_Ok in Ha3. inversion Ha3. subst a3. clear Ha3.
  intros u. cbv zeta. unfold history. simpl.
  destruct (Z.eq_dec user u) as [->|Hne].
  - rewrite !sload_insert. simpl. repeat split; auto.
    + intros ->. reflexivity.
    + intros Hlen. rewrite length_app. simpl.
      destruct (Z.leb_spec 100 (Z.of_nat (length (Engine.userTradeHistory e).[u]))).
      * rewrite length_drop. lia.
      * lia.
  - rewrite !sload_insert_ne by exact Hne. auto.
Qed.

Lemma recordTrade_evolves (E : Env) (e e' : Engine.State) (b b' : Badge.State) (c : Ctx)
    (id seller buyer amt sr br : Z) :
  Engine.recordTrade E e b c id seller buyer amt sr br = Ok (e', b') -> engine_evolves e e'.
Proof.
  unfold Engine.recordTrade. intros Hr. inv_ok.
  eapply engine_evolves_trans; [apply ensureRegistered_evolves|].
  eapply engine_evolves_trans; [apply ensureRegistered_evolves|].
  eapply engine_evolves_trans; eapply updateReputation_evolves; eassumption.
Qed.

Lemma recordDisputeResolution_evolves (e e' : Engine.State) (c : Ctx) (id winner loser : Z) :
  Engine.recordDisputeResolution e c id winner loser = Ok e' -> engine_evolves e e'.
Proof.
  intros Hr u. cbv zeta.
  destruct (recordDisputeResolution_user _ _ _ _ _ _ Hr u) as (_ & _ & Hs).
  destruct (recordDisputeResolution_rest _ _ _ _ _ _ Hr) as (Hh & _).
  unfold same_trade_fields in Hs. destruct Hs as (Ht & Hsu & _ & _ & _ & Hj & Hact).
  unfold history. rewrite Hh, Ht, Hsu, Hj, Hact. auto.
Qed.

Lemma sync_evolves (E : Env) (e e' : Engine.State) (b b' : Badge.State) (c : Ctx)
    (user src t p n syncId : Z) :
  Engine.syncCrossChainReputation E e b c user src t p n syncId = Ok (e', b') ->
  engine_evolves e e'.
Proof.
  unfold Engine.syncCrossChainReputation. intros Hs. inv_ok.
  destruct ((Engine.processedCrossChainUpdates e).[syncId]); inv_ok;
    [apply engine_evolves_refl|].
  set (e1 := Engine.set_processedCrossChainUpdates e _) in *.
  apply engine_evolves_trans with e1; [apply engine_evolves_same; reflexivity|].
  apply engine_evolves_trans with (Engine._ensureRegistered e1 c user);
    [apply ensureRegistered_evolves|].
  intros u. cbv zeta. unfold history. simpl.
  destruct (Z.eq_dec user u) as [->|Hne].
  - rewrite !sload_insert. simpl. split; [|split]; auto. intros ->. reflexivity.
  - rewrite !sload_insert_ne by exact Hne. auto.
Qed.

Lemma step_engine_evolves (E : Env) (w w' : World) (c : Ctx) (call : Call)
    (effects : list Effect) :
  step E w c call = Ok (w', effects) -> engine_evolves (engine w) (engine w').
Proof.
  intros Hstep.
  destruct call; simpl in Hstep; inv_ok; simpl; try apply engine_evolves_refl.
  - apply registerUser_evolves.
  - eapply recordTrade_evolves; eassumption.
  - eapply recordDisputeResolution_evolves; eassumption.
  - eapply sync_evolves; eassumption.
  - unfold Engine.updateTierThreshold in Ha. inv_ok. apply engine_evolves_same; reflexivity.
  - apply engine_evolves_same; reflexivity.
  - apply engine_evolves_same; reflexivity.
  - (* createTrade *)
    unfold Escrow.createTrade in Ha. inv_ok.
    eapply engine_evolves_trans; apply registerUser_evolves.
  - (* rateBuyer *)
    apply rateBuyer_Ok in Ha. destruct Ha as (_ & _ & _ & _ & _ & Hrec).
    destruct (Escrow.buyerRating (Escrow.trades (escrow w)).[tradeId] =? 0).
    + destruct Hrec as [-> _]. apply engine_evolves_refl.
    + eapply recordTrade_evolves; eassumption.
  - (* resolveDispute *)
    unfold Escrow.resolveDispute in Ha. inv_ok.
    match goal with H : Engine.recordDisputeResolution _ _ _ _ _ = Ok _ |- _ =>
      eapply recordDisputeResolution_evolves; exact H end.
  - (* ccipReceive *)
    unfold Bridge.ccipReceive, Bridge._ccipReceive in Ha. inv_ok.
    destruct (messageType _); inv_ok; try apply engine_evolves_refl.
    match goal with H : Bridge._handleReputationSync _ _ _ _ _ _ _ = Ok _ |- _ =>
      unfold Bridge._handleReputationSync in H; inv_ok; eapply sync_evolves; exact H end.
Qed.

Lemma reachable_engine (E : Env) (w : World) :
  reachable E w ->
  forall u : Z,
    Engine.totalTrades (Engine.userReputations (engine w)).[u]
    = Engine.successfulTrades (Engine.userReputations (engine w)).[u] /\
    (length (history (engine w) u) <= 100)%nat.
Proof.
  induction 1 as [d|w c call w' effects _ IH Hstep]; intros u.
  - unfold history. simpl. rewrite !sload_empty. simpl. split; [reflexivity | lia].
  - destruct (IH u) as [Ht Hh].
    destruct (step_engine_evolves _ _ _ _ _ _ Hstep u) as (_ & Ht' & Hh'). auto.
Qed.

Lemma reachable_w_rated : reachable E0 w_rated.
Proof.
  unfold w_rated. apply reachable_exec.
  unfold w_completed. apply reachable_run.
  unfold w_delivered. apply reachable_run.
  unfold w_configured. apply reachable_run.
  apply reachable_deploy.
Qed.

(** X11.  In every world reachable from a deployment, every user's
    [totalTrades] equals its [successfulTrades]: no call counts a trade
    that is not also counted as successful. *)
Theorem every_counted_trade_is_successful (E : Env) (w : World) (u : address) :
  reachable E w ->
  Engine.totalTrades (Engine.userReputations (engine w)).[u]
  = Engine.successfulTrades (Engine.userReputations (engine w)).[u].
Proof. intros Hr. apply (reachable_engine E w Hr u). Qed.

Lemma every_counted_trade_is_successful_witness :
  Engine.totalTrades (Engine.userReputations (engine w_rated)).[bob]
  = Engine.successfulTrades (Engine.userReputations (engine w_rated)).[bob].
Proof. exact (every_counted_trade_is_successful E0 w_rated bob reachable_w_rated). Defined.

(** X12.  In every world reachable from a deployment, no user's stored
    trade history is longer than 100 records. *)
Theorem history_never_exceeds_100 (E : Env) (w : World) (u : address) :
  reachable E w -> (length (history (engine w) u) <= 100)%nat.
Proof. intros Hr. apply (reachable_engine E w Hr u). Qed.

Lemma history_never_exceeds_100_witness : (length (history (engine w_rated) bob) <= 100)%nat.
Proof. exact (history_never_exceeds_100 E0 w_rated bob reachable_w_rated). Defined.

Lemma exec_engine_evolves (E : Env) (w : World) (tx : Ctx * Call) :
  engine_evolves (engine w) (engine (exec E w tx)).
Proof.
  unfold exec. destruct (step E w (fst tx) (snd tx)) as [[w' effects]|err] eqn:Hs; simpl;
    [|apply engine_evolves_refl].
  eapply step_engine_evolves. exact Hs.
Qed.

Lemma run_engine_evolves (E : Env) (txs : list (Ctx * Call)) (w : World) :
  engine_evolves (engine w) (engine (run E w txs)).
Proof.
  revert w. induction txs as [|tx txs IH]; intros w; [apply engine_evolves_refl|].
  change (run E w (tx :: txs)) with (run E (exec E w tx) txs).
  eapply engine_evolves_trans; [apply exec_engine_evolves | apply IH].
Qed.

(** X13.  Registration is permanent.  Over any sequence of transactions,
    calls of any of the four contracts included, a user whose reputation is
    active stays active and keeps the join time it has: no later
    [registerUser], trade, dispute or cross-chain update resets it. *)
Theorem membership_is_permanent (E : Env) (w : World) (txs : list (Ctx * Call)) (u : address) :
  Engine.isActive (Engine.userReputations (engine w)).[u] = true ->
  Engine.isActive (Engine.userReputations (engine (run E w txs))).[u] = true /\
  Engine.joinTimestamp (Engine.userReputations (engine (run E w txs))).[u]
  = Engine.joinTimestamp (Engine.userReputations (engine w)).[u].
Proof. intros Hact. apply (run_engine_evolves E txs w u). exact Hact. Qed.

Lemma membership_is_permanent_witness :
  Engine.isActive (Engine.userReputations (engine w_created)).[bob] = true /\
  Engine.isActive
    (Engine.userReputations
       (engine (run E0 w_created [(at_time carol 99, RegisterUser bob)]))).[bob] = true /\
  Engine.joinTimestamp
    (Engine.userReputations
       (engine (run E0 w_created [(at_time carol 99, RegisterUser bob)]))).[bob]
  = Engine.joinTimestamp (Engine.userReputations (engine w_created)).[bob].
Proof.
  assert (Hact : Engine.isActive (Engine.userReputations (engine w_created)).[bob] = true)
    by (vm_compute; reflexivity).
  split; [exact Hact|].
  exact (membership_is_permanent E0 w_created [(at_time carol 99, RegisterUser bob)] bob Hact).
Defined.

(** ** Ratings *)

Lemma average_in_range (r : Engine.UserReputation) :
  ratings_in_range r -> 0 < Engine.ratingCount r ->
  100 <= Engine.totalRatingPoints r / Engine.ratingCount r <= 500.
Proof.
  intros (Hn & Hlo & Hhi) Hpos. split.
  - apply Z.div_le_lower_bound; lia.
  - apply Z.div_le_upper_bound; lia.
Qed.

Lemma ensureRegistered_rep (e : Engine.State) (c : Ctx) (user u : Z) :
  (Engine.userReputations (Engine._ensureRegistered e c user)).[u]
  = if u =? user then as_registered (Engine.userReputations e).[u] (block_timestamp c)
    else (Engine.userReputations e).[u].
Proof.
  unfold Engine._ensureRegistered, as_registered.
  destruct (Z.eqb_spec u user) as [->|Hne].
  - destruct (Engine.isActive (Engine.userReputations e).[user]); simpl; [reflexivity|].
    apply sload_insert.
  - destruct (Engine.isActive (Engine.userReputations e).[user]); simpl; [reflexivity|].
    apply sload_insert_ne. congruence.
Qed.

Lemma updateReputation_rep (e e' : Engine.State) (c : Ctx) (user rating cp amt id : Z)
    (wb : bool) :
  Engine._updateReputation e c user rating cp amt id wb = Ok e' ->
  forall u : Z,
    (Engine.userReputations e').[u]
    = if u =? user then credited (Engine.userReputations e).[u] rating (block_timestamp c)
      else (Engine.userReputations e).[u].
Proof.
  unfold Engine._updateReputation. intros Hu u. inv_ok. simpl.
  destruct (Z.eqb_spec u user) as [->|Hne].
  - rewrite sload_insert. reflexivity.
  - apply sload_insert_ne. congruence.
Qed.

Lemma as_registered_range (r : Engine.UserReputation) (now : Z) :
  ratings_in_range r -> ratings_in_range (as_registered r now).
Proof.
  intros Hr. unfold as_registered. destruct (Engine.isActive r); [exact Hr|].
  unfold ratings_in_range. simpl. lia.
Qed.

Lemma credited_range (r : Engine.UserReputation) (rating now : Z) :
  ratings_in_range r -> 100 <= rating <= 500 ->
  ratings_in_range (credited r rating now) /\ 0 < Engine.ratingCount (credited r rating now).
Proof. unfold ratings_in_range. simpl. intros (Hn & Hlo & Hhi) Hr. lia. Qed.

Lemma check_rating_Ok (r : Z) (u : unit) : Engine.check_rating r = Ok u -> 100 <= r <= 500.
Proof. unfold Engine.check_rating. intros Hc. inv_ok. guards. lia. Qed.

(** X14.  [recordTrade] keeps ratings sound.  If the ratings a user has
    accumulated so far were each between 100 and 500, they still are after
    a successful [recordTrade], and the average rating the engine then
    computes for the seller and for the buyer lies between 100 and 500. *)
Theorem recordTrade_keeps_ratings_in_range (E : Env) (e e' : Engine.State)
    (b b' : Badge.State) (c : Ctx) (id seller buyer amt sr br : Z) (u : address) :
  Engine.recordTrade E e b c id seller buyer amt sr br = Ok (e', b') ->
  ratings_in_range (Engine.userReputations e).[u] ->
  ratings_in_range (Engine.userReputations e').[u] /\
  (u = seller \/ u = buyer -> 100 <= Engine._calculateAverageRating e' u <= 500).
Proof.
  unfold Engine.recordTrade. intros Hr Hu. inv_ok.
  apply check_rating_Ok in Ha0, Ha1.
  pose proof (updateReputation_rep _ _ _ _ _ _ _ _ _ Ha2 u) as H1.
  pose proof (updateReputation_rep _ _ _ _ _ _ _ _ _ Ha3 u) as H2.
  rewrite !ensureRegistered_rep in H1.
  assert (Hreg : ratings_in_range
            (if u =? buyer
             then as_registered
                    (if u =? seller
                     then as_registered (Engine.userReputations e).[u] (block_timestamp c)
                     else (Engine.userReputations e).[u]) (block_timestamp c)
             else if u =? seller
                  then as_registered (Engine.userReputations e).[u] (block_timestamp c)
                  else (Engine.userReputations e).[u])).
  { destruct (u =? buyer), (u =? seller); repeat apply as_registered_range; exact Hu. }
  set (r0 := if u =? buyer then _ else _) in *.
  assert (H12 : ratings_in_range (Engine.userReputations e').[u] /\
                (u = seller \/ u = buyer ->
                 0 < Engine.ratingCount (Engine.userReputations e').[u])).
  { rewrite H2, H1.
    destruct (Z.eqb_spec u seller) as [Hs|Hs], (Z.eqb_spec u buyer) as [Hb|Hb].
    - destruct (credited_range r0 sr (block_timestamp c) Hreg Ha0) as [Hc1 _].
      destruct (credited_range _ br (block_timestamp c) Hc1 Ha1) as [Hc2 Hp]. auto.
    - destruct (credited_range r0 sr (block_timestamp c) Hreg Ha0) as [Hc1 Hp]. auto.
    - destruct (credited_range r0 br (block_timestamp c) Hreg Ha1) as [Hc1 Hp]. auto.
    - split; [exact Hreg | intros [?|?]; contradiction]. }
  destruct H12 as [Hrange Hpos]. split; [exact Hrange|].
  intros Hparty. specialize (Hpos Hparty). unfold Engine._calculateAverageRating.
  destruct (Z.eqb_spec (Engine.ratingCount (Engine.userReputations e').[u]) 0) as [H0|_];
    [lia|].
  apply average_in_range; assumption.
Qed.

Lemma recordTrade_keeps_ratings_in_range_witness :
  ratings_in_range (Engine.userReputations (engine w_rated)).[bob] /\
  (bob = bob \/ bob = alice ->
   100 <= Engine._calculateAverageRating (engine w_rated) bob <= 500).
Proof.
  assert (Hrec : Engine.recordTrade E0 (engine w_completed) (badge w_completed)
                   (Escrow.as_escrow E0 (at_time bob 50)) 7000 bob alice 100 450 500
                 = Ok (engine w_rated, badge w_rated))
    by (vm_compute; reflexivity).
  refine (recordTrade_keeps_ratings_in_range E0 (engine w_completed) (engine w_rated)
            (badge w_completed) (badge w_rated) (Escrow.as_escrow E0 (at_time bob 50))
            7000 bob alice 100 450 500 bob Hrec _).
  unfold ratings_in_range. repeat split; vm_compute; discriminate.
Defined.

Lemma as_registered_twice (r : Engine.UserReputation) (now : Z) :
  as_registered (as_registered r now) now = as_registered r now.
Proof. unfold as_registered. destruct (Engine.isActive r) eqn:Hact; simpl; rewrite ?Hact; reflexivity. Qed.

(** X15.  What a successful [recordTrade] did to every stored reputation.
    The caller held the escrow role and both ratings were between 100 and
    500.  Seller and buyer were registered if they were not, then each was
    credited with one total and one successful trade, the rating given to
    it and the block time as last trade time; a party that is both seller
    and buyer was credited twice.  Dispute counters, join time and every
    other user's reputation stayed as they were. *)
Theorem recordTrade_credits_both_parties (E : Env) (e e' : Engine.State)
    (b b' : Badge.State) (c : Ctx) (id seller buyer amt sr br : Z) (u : address) :
  Engine.recordTrade E e b c id seller buyer amt sr br = Ok (e', b') ->
  let now := block_timestamp c in
  let r0 := if (u =? seller) || (u =? buyer)
            then as_registered (Engine.userReputations e).[u] now
            else (Engine.userReputations e).[u] in
  let r1 := if u =? seller then credited r0 sr now else r0 in
  AccessControl.hasRole (Engine.roles e) ESCROW_ROLE (msg_sender c) = true /\
  100 <= sr <= 500 /\ 100 <= br <= 500 /\
  (Engine.userReputations e').[u] = (if u =? buyer then credited r1 br now else r1).
Proof.
  unfold Engine.recordTrade. intros Hr. cbv zeta. inv_ok.
  apply check_rating_Ok in Ha0, Ha1.
  split; [assumption|]. split; [assumption|]. split; [assumption|].
  rewrite (updateReputation_rep _ _ _ _ _ _ _ _ _ Ha3 u).
  rewrite (updateReputation_rep _ _ _ _ _ _ _ _ _ Ha2 u).
  rewrite !ensureRegistered_rep.
  destruct (u =? seller), (u =? buyer); simpl; rewrite ?as_registered_twice; reflexivity.
Qed.

Lemma recordTrade_credits_both_parties_witness :
  AccessControl.hasRole (Engine.roles (engine w_completed)) ESCROW_ROLE
    (msg_sender (Escrow.as_escrow E0 (at_time bob 50))) = true /\
  100 <= 450 <= 500 /\ 100 <= 500 <= 500 /\
  (Engine.userReputations (engine w_rated)).[bob]
  = (if bob =? alice
     then credited
            (if bob =? bob
             then credited
                    (if (bob =? bob) || (bob =? alice)
                     then as_registered (Engine.userReputations (engine w_completed)).[bob]
                            (block_timestamp (Escrow.as_escrow E0 (at_time bob 50)))
                     else (Engine.userReputations (engine w_completed)).[bob])
                    450 (block_timestamp (Escrow.as_escrow E0 (at_time bob 50)))
             else if (bob =? bob) || (bob =? alice)
                  then as_registered (Engine.userReputations (engine w_completed)).[bob]
                         (block_timestamp (Escrow.as_escrow E0 (at_time bob 50)))
                  else (Engine.userReputations (engine w_completed)).[bob])
            500 (block_timestamp (Escrow.as_escrow E0 (at_time bob 50)))
     else if bob =? bob
          then credited
                 (if (bob =? bob) || (bob =? alice)
                  then as_registered (Engine.userReputations (engine w_completed)).[bob]
                         (block_timestamp (Escrow.as_escrow E0 (at_time bob 50)))
                  else (Engine.userReputations (engine w_completed)).[bob])
                 450 (block_timestamp (Escrow.as_escrow E0 (at_time bob 50)))
          else if (bob =? bob) || (bob =? alice)
               then as_registered (Engine.userReputations (engine w_completed)).[bob]
                      (block_timestamp (Escrow.as_escrow E0 (at_time bob 50)))
               else (Engine.userReputations (engine w_completed)).[bob]).
Proof.
  assert (Hrec : Engine.recordTrade E0 (engine w_completed) (badge w_completed)
                   (Escrow.as_escrow E0 (at_time bob 50)) 7000 bob alice 100 450 500
                 = Ok (engine w_rated, badge w_rated))
    by (vm_compute; reflexivity).
  exact (recordTrade_credits_both_parties E0 (engine w_completed) (engine w_rated)
           (badge w_completed) (badge w_rated) (Escrow.as_escrow E0 (at_time bob 50))
           7000 bob alice 100 450 500 bob Hrec).
Defined.

(** ** Queries *)

Lemma copy_slice_Ok (history : list Engine.TradeRecord) (offset n k : nat)
    (page : list Engine.TradeRecord) :
  (offset + k + n <= length history)%nat -> (k + n <= length page)%nat ->
  EngineQueries.copy_slice n (offset + k) offset history page
  = Ok (take k page ++ take n (drop (offset + k) history) ++ drop (k + n) page).
Proof.
  revert k page. induction n as [|n IH]; intros k page Hh Hp.
  - simpl. rewrite Nat.add_0_r. rewrite take_drop. reflexivity.
  - cbn [EngineQueries.copy_slice].
    destruct (history !! (offset + k)%nat) as [r|] eqn:Hr.
    2:{ apply lookup_ge_None in Hr. lia. }
    replace (offset + k - offset)%nat with k by lia.
    replace (S (offset + k)) with (offset + S k)%nat by lia.
    rewrite IH by (rewrite ?length_insert; lia).
    rewrite (take_S_r (<[k:=r]> page) k r) by (apply list_lookup_insert_eq; lia).
    rewrite take_insert_ge by lia.
    rewrite drop_insert_lt by lia.
    rewrite (drop_S history r (offset + k) Hr).
    replace (S (offset + k)) with (offset + S k)%nat by lia.
    replace (S k + n)%nat with (k + S n)%nat by lia.
    rewrite <- !app_assoc. reflexivity.
Qed.

(** X16.  [getTradeHistory] pages through the stored history.  With
    unsigned arguments it returns the records from position [offset] on,
    at most [limit] of them and in order, and the empty array when [offset]
    is past the end; the one case in which it reverts is an [offset] inside
    the history with [offset + limit] above the largest uint256, where the
    addition panics. *)
Theorem getTradeHistory_pages (e : Engine.State) (u : address) (offset limit : uint256) :
  0 <= offset -> 0 <= limit ->
  EngineQueries.getTradeHistory e u offset limit
  = if (offset <? Z.of_nat (length (history e u))) && (MAX_UINT256 <? offset + limit)
    then Revert Panic
    else Ok (take (Z.to_nat limit) (drop (Z.to_nat offset) (history e u))).
Proof.
  intros Hoff Hlim. unfold EngineQueries.getTradeHistory, history.
  set (h := (Engine.userTradeHistory e).[u]).
  destruct (Z.leb_spec (Z.of_nat (length h)) offset) as [Hpast|Hin].
  - rewrite (proj2 (Z.ltb_ge _ _)) by lia. simpl.
    rewrite drop_ge by lia. rewrite take_nil. reflexivity.
  - rewrite (proj2 (Z.ltb_lt _ _)) by lia. simpl. unfold add256.
    destruct (Z.leb_spec (offset + limit) MAX_UINT256) as [Hfit|Hover].
    + rewrite (proj2 (Z.ltb_ge _ _)) by lia. simpl.
      set (end_ := if Z.of_nat (length h) <? offset + limit then Z.of_nat (length h)
                   else offset + limit).
      assert (Hend : offset <= end_ <= Z.of_nat (length h) /\ end_ <= offset + limit /\
                     (end_ = Z.of_nat (length h) \/ end_ = offset + limit)).
      { unfold end_. destruct (Z.ltb_spec (Z.of_nat (length h)) (offset + limit)); lia. }
      pose proof (copy_slice_Ok h (Z.to_nat offset) (Z.to_nat (end_ - offset)) 0
                    (replicate (Z.to_nat (end_ - offset)) zero)) as Hc.
      rewrite Nat.add_0_r in Hc. rewrite Hc by (rewrite ?length_replicate; lia).
      rewrite take_0. cbn [app Nat.add].
      rewrite (drop_ge (replicate _ _)) by (rewrite length_replicate; lia).
      rewrite app_nil_r.
      f_equal. destruct Hend as (Hlo & Hhi & [Hall|Hcut]).
      * rewrite !take_ge; [reflexivity | |]; rewrite length_drop; lia.
      * f_equal. lia.
    + rewrite (proj2 (Z.ltb_lt _ _)) by lia. reflexivity.
Qed.

Lemma getTradeHistory_pages_witness :
  EngineQueries.getTradeHistory (engine w_rated) bob 0 10
  = if (0 <? Z.of_nat (length (history (engine w_rated) bob)))
       && (MAX_UINT256 <? 0 + 10)
    then Revert Panic
    else Ok (take (Z.to_nat 10) (drop (Z.to_nat 0) (history (engine w_rated) bob))).
Proof. apply (getTradeHistory_pages (engine w_rated) bob 0 10); lia. Defined.

(** X17.  [getProgressToNextTier] never reverts: at Diamond it returns no
    next tier and nothing needed, before the tier conversion that would
    panic; below Diamond the next tier is the one ranked just above the
    user's highest, and the trades and the rating still needed are both
    zero exactly when the user meets that tier's thresholds. *)
Theorem progress_reaches_zero_when_tier_is_met (e : Engine.State) (b : Badge.State)
    (u : address) :
  exists p : EngineQueries.Progress,
    EngineQueries.getProgressToNextTier e b u = Ok p /\
    EngineQueries.currentTier p = highest b u /\
    (highest b u = Diamond ->
     EngineQueries.nextTier p = TierNone /\
     EngineQueries.tradesNeeded p = 0 /\ EngineQueries.ratingNeeded p = 0) /\
    (highest b u <> Diamond ->
     tier_rank (EngineQueries.nextTier p) = tier_rank (highest b u) + 1 /\
     (EngineQueries.tradesNeeded p = 0 /\ EngineQueries.ratingNeeded p = 0 <->
      Engine.meetsThreshold e u (EngineQueries.nextTier p) = true)).
Proof.
  unfold EngineQueries.getProgressToNextTier, highest.
  destruct (bool_decide_reflect ((Badge.userHighestTier b).[u] = Diamond)) as [Hd|Hd].
  - eexists. split; [reflexivity|]. simpl. split; [reflexivity|].
    split; [auto | intros Hn; contradiction].
  - assert (Hnext : exists t, EngineQueries.next_tier (Badge.userHighestTier b).[u] = Ok t /\
                      tier_rank t = tier_rank (Badge.userHighestTier b).[u] + 1).
    { destruct ((Badge.userHighestTier b).[u]); simpl; eauto; contradiction. }
    destruct Hnext as (t & -> & Hrank). simpl.
    eexists. split; [reflexivity|]. simpl. split; [reflexivity|].
    split; [intros Hn; contradiction|]. intros _. split; [exact Hrank|].
    unfold Engine.meetsThreshold, Engine._meetsThreshold.
    set (trades := Engine.successfulTrades (Engine.userReputations e).[u]).
    set (rating := Engine._calculateAverageRating e u).
    set (th := (Engine.tierThresholds e).[t]).
    rewrite andb_true_iff, !Z.leb_le.
    destruct (Z.ltb_spec trades (Engine.minTrades th)),
             (Z.ltb_spec rating (Engine.minRating th)); lia.
Qed.

(** ** The badge ledger *)

Lemma getUserBadges_filter (b : Badge.State) (u : Z) :
  BadgeQueries.getUserBadges b u
  = List.filter (fun id => negb (id =? 0))
                (List.map (held b u) BadgeQueries.tiers_1_to_5).
Proof.
  unfold BadgeQueries.getUserBadges, BadgeQueries.fill_badges, BadgeQueries.count_badges,
    held. simpl.
  destruct ((Badge.userBadges b).[(u, Bronze)] =? 0),
           ((Badge.userBadges b).[(u, Silver)] =? 0),
           ((Badge.userBadges b).[(u, Gold)] =? 0),
           ((Badge.userBadges b).[(u, Platinum)] =? 0),
           ((Badge.userBadges b).[(u, Diamond)] =? 0); reflexivity.
Qed.

(** X18.  [getUserBadges] returns the user's non-zero token ids in tier
    order, Bronze to Diamond: the counting loop sizes the array exactly,
    so every held badge occupies one slot and no slot is left empty. *)
Theorem getUserBadges_lists_held_badges (b : Badge.State) (u : address) :
  BadgeQueries.getUserBadges b u
  = List.filter (fun id => negb (id =? 0))
                (List.map (fun t => (Badge.userBadges b).[(u, t)]) BadgeQueries.tiers_1_to_5).
Proof. apply getUserBadges_filter. Qed.

Lemma length_getUserBadges (b : Badge.State) (u : Z) :
  length (BadgeQueries.getUserBadges b u)
  = length (List.filter (fun id => negb (id =? 0))
                        (List.map (held b u) BadgeQueries.tiers_1_to_5)).
Proof. rewrite getUserBadges_filter. reflexivity. Qed.

Lemma held_insert (b : Badge.State) (m : gmap (Z * BadgeTier) Z) (to u : Z)
    (tier t : BadgeTier) (id : Z) :
  m = <[(to, tier) := id]> (Badge.userBadges b) ->
  m.[(u, t)] = if bool_decide ((u, t) = (to, tier)) then id else held b u t.
Proof.
  intros ->. unfold held. destruct (bool_decide_reflect ((u, t) = (to, tier))) as [->|Hne].
  - apply sload_insert.
  - apply sload_insert_ne. congruence.
Qed.

(** The number of badges of [u] after [to] received its first badge of a tier. *)
Lemma count_after_mint (b : Badge.State) (m : gmap (Z * BadgeTier) Z) (to u : Z)
    (tier : BadgeTier) (id : Z) :
  m = <[(to, tier) := id]> (Badge.userBadges b) ->
  tier <> TierNone -> held b to tier = 0 -> id <> 0 ->
  Z.of_nat (length (List.filter (fun i => negb (i =? 0))
                                (List.map (fun t => m.[(u, t)]) BadgeQueries.tiers_1_to_5)))
  = Z.of_nat (length (List.filter (fun i => negb (i =? 0))
                                  (List.map (held b u) BadgeQueries.tiers_1_to_5)))
    + (if u =? to then 1 else 0).
Proof.
  intros Hm Htier Hfree Hid. simpl.
  rewrite !(held_insert b m to u tier _ id Hm).
  destruct (Z.eqb_spec u to) as [->|Hne].
  - destruct tier; try congruence;
      repeat match goal with
      | |- context [bool_decide ?P] =>
          destruct (bool_decide_reflect P) as [?|?]; try congruence
      end;
      rewrite ?Hfree; apply Z.eqb_neq in Hid; rewrite ?Hid; simpl;
      repeat match goal with
      | |- context [held b to ?t =? 0] => destruct (held b to t =? 0); simpl
      end; lia.
  - repeat match goal with
      | |- context [bool_decide ?P] =>
          destruct (bool_decide_reflect P) as [?|?]; try congruence
      end. lia.
Qed.

Lemma mintBadge_Ok (E : Env) (b b' : Badge.State) (c : Ctx) (to : Z) (tier : BadgeTier)
    (trades rating chain id : Z) :
  Badge.mintBadge E b c to tier trades rating chain = Ok (b', id) ->
  AccessControl.hasRole (Badge.roles b) MINTER_ROLE (msg_sender c) = true /\
  to <> 0 /\ tier <> TierNone /\ held b to tier = 0 /\
  id = Badge._tokenIdCounter b + 1 /\ id <= MAX_UINT256 /\
  (Badge._owners b).[id] = 0 /\
  onERC721Received_ok E to = true /\
  Badge._tokenIdCounter b' = id /\
  Badge.badgeMetadata b'
  = <[id := {| Badge.tier := tier; Badge.tradesAtMint := trades;
               Badge.ratingAtMint := rating; Badge.mintTimestamp := block_timestamp c;
               Badge.sourceChainId := chain |}]> (Badge.badgeMetadata b) /\
  Badge.userBadges b' = <[(to, tier) := id]> (Badge.userBadges b) /\
  Badge.userHighestTier b'
  = (if tier_rank (Badge.userHighestTier b).[to] <? tier_rank tier
     then <[to := tier]> (Badge.userHighestTier b) else Badge.userHighestTier b) /\
  Badge._owners b' = <[id := to]> (Badge._owners b) /\
  Badge._balances b' = <[to := (Badge._balances b).[to] + 1]> (Badge._balances b) /\
  Badge.roles b' = Badge.roles b.
Proof.
  unfold Badge.mintBadge, Badge._safeMint, Badge._update. intros Hm. inv_ok. simpl in *.
  rewrite Ha0. apply negb_false_iff in Ha6. rewrite Ha6. apply Z.eqb_eq in Ha6.
  guards. unfold held. repeat split; auto.
Qed.

Lemma mintBadge_consistent (E : Env) (b b' : Badge.State) (c : Ctx) (to : Z)
    (tier : BadgeTier) (trades rating chain id : Z) :
  Badge.mintBadge E b c to tier trades rating chain = Ok (b', id) ->
  badge_consistent b -> badge_consistent b'.
Proof.
  intros Hm (Hc & Hown & Hheld & Hhigh & Hbal).
  apply mintBadge_Ok in Hm.
  destruct Hm as (_ & Hto & Htier & Hfree & Hid & _ & Hnew & _ & Hc' & Hmeta & Hub & Hht
                  & Hown' & Hbal' & _).
  assert (Hheld' : forall u t, held b' u t
                    = if bool_decide ((u, t) = (to, tier)) then id else held b u t).
  { intros u t. unfold held at 1. apply held_insert. exact Hub. }
  assert (Hmono : forall u, tier_rank (Badge.userHighestTier b).[u]
                            <= tier_rank (Badge.userHighestTier b').[u]).
  { intros u. rewrite Hht.
    destruct (Z.ltb_spec (tier_rank (Badge.userHighestTier b).[to]) (tier_rank tier));
      [|lia].
    destruct (Z.eq_dec to u) as [->|Hne];
      [rewrite sload_insert; lia | rewrite sload_insert_ne by exact Hne; lia]. }
  assert (Hrange : forall u t, held b u t <> 0 -> held b u t <> id).
  { intros u t Hne. destruct (Hheld u t Hne) as (Hu & _ & Ho & _).
    assert (Hnz : (Badge._owners b).[held b u t] <> 0) by congruence.
    destruct (Hown _ Hnz) as [Hr _]. lia. }
  unfold badge_consistent. rewrite Hc'. split; [lia|]. split; [|split; [|split]].
  - (* owned tokens *)
    intros i. rewrite Hown', Hmeta. destruct (Z.eq_dec id i) as [<-|Hne].
    + rewrite !sload_insert. simpl. intros _. split; [lia|].
      rewrite Hheld'. rewrite bool_decide_eq_true_2 by reflexivity. reflexivity.
    + rewrite !sload_insert_ne by exact Hne. intros Hnz.
      destruct (Hown i Hnz) as [Hr Hback]. split; [lia|].
      rewrite Hheld'. destruct (bool_decide_reflect
        (((Badge._owners b).[i], Badge.tier (Badge.badgeMetadata b).[i]) = (to, tier)))
        as [Heq|_]; [|exact Hback].
      inversion Heq as [[Ho Ht]]. rewrite Ho, Ht in Hback. rewrite Hfree in Hback. lia.
  - (* held badges *)
    intros u t. rewrite Hheld'. rewrite Hown', Hmeta.
    destruct (bool_decide_reflect ((u, t) = (to, tier))) as [Heq|Hne].
    + inversion Heq. subst u t. intros _. rewrite !sload_insert. simpl.
      repeat split; auto. rewrite Hht.
      destruct (Z.ltb_spec (tier_rank (Badge.userHighestTier b).[to]) (tier_rank tier));
        [rewrite sload_insert; lia | lia].
    + intros Hnz. pose proof (Hrange u t Hnz) as Hfar.
      rewrite !sload_insert_ne by congruence.
      destruct (Hheld u t Hnz) as (Hu & Ht & Ho & Hm & Hr). repeat split; auto.
      specialize (Hmono u). lia.
  - (* the highest-tier pointer *)
    intros u. rewrite Hheld', Hht.
    destruct (Z.ltb_spec (tier_rank (Badge.userHighestTier b).[to]) (tier_rank tier)).
    + destruct (Z.eq_dec to u) as [->|Hne].
      * rewrite sload_insert. intros _.
        rewrite bool_decide_eq_true_2 by reflexivity. lia.
      * rewrite sload_insert_ne by exact Hne. intros Hnz.
        rewrite bool_decide_eq_false_2 by congruence. apply Hhigh. exact Hnz.
    + intros Hnz. destruct (bool_decide_reflect
        ((u, (Badge.userHighestTier b).[u]) = (to, tier))) as [_|_]; [lia|].
      apply Hhigh. exact Hnz.
  - (* balances *)
    intros u. rewrite length_getUserBadges.
    replace (List.map (held b' u) BadgeQueries.tiers_1_to_5)
      with (List.map (fun t => (Badge.userBadges b').[(u, t)]) BadgeQueries.tiers_1_to_5)
      by reflexivity.
    rewrite (count_after_mint b (Badge.userBadges b') to u tier id Hub Htier Hfree)
      by lia.
    rewrite <- length_getUserBadges, <- Hbal, Hbal'.
    destruct (Z.eqb_spec u to) as [->|Hne].
    + rewrite sload_insert. reflexivity.
    + rewrite sload_insert_ne by congruence. lia.
Qed.

Lemma upgradeBadge_consistent (E : Env) (b b' : Badge.State) (c : Ctx) (holder : Z)
    (tier : BadgeTier) (trades rating chain id : Z) :
  Badge.upgradeBadge E b c holder tier trades rating chain = Ok (b', id) ->
  badge_consistent b -> badge_consistent b'.
Proof.
  unfold Badge.upgradeBadge. intros Hm. inv_ok. eapply mintBadge_consistent. exact Hm.
Qed.

Lemma set_roles_consistent (b : Badge.State) (rs : gmap (Role * Z) bool) :
  badge_consistent b -> badge_consistent (Badge.set_roles b rs).
Proof. intros Hb. exact Hb. Qed.

Lemma checkAndMintBadge_consistent (E : Env) (e : Engine.State) (b : Badge.State) (c : Ctx)
    (user : Z) :
  badge_consistent b -> badge_consistent (Engine._checkAndMintBadge E e b c user).
Proof.
  intros Hb. unfold Engine._checkAndMintBadge.
  destruct (tier_rank (Badge.userHighestTier b).[user] <? tier_rank _); [|exact Hb].
  destruct (Badge.mintBadge E b _ user _ _ _ _) as [[b' id]|err] eqn:Hm; [|exact Hb].
  eapply mintBadge_consistent; eassumption.
Qed.

Lemma recordTrade_consistent (E : Env) (e e' : Engine.State) (b b' : Badge.State) (c : Ctx)
    (id seller buyer amt sr br : Z) :
  Engine.recordTrade E e b c id seller buyer amt sr br = Ok (e', b') ->
  badge_consistent b -> badge_consistent b'.
Proof.
  unfold Engine.recordTrade. intros Hr Hb. inv_ok.
  repeat apply checkAndMintBadge_consistent. exact Hb.
Qed.

Lemma sync_consistent (E : Env) (e e' : Engine.State) (b b' : Badge.State) (c : Ctx)
    (user src t p n syncId : Z) :
  Engine.syncCrossChainReputation E e b c user src t p n syncId = Ok (e', b') ->
  badge_consistent b -> badge_consistent b'.
Proof.
  unfold Engine.syncCrossChainReputation. intros Hs Hb. inv_ok.
  destruct ((Engine.processedCrossChainUpdates e).[syncId]); inv_ok; [exact Hb|].
  apply checkAndMintBadge_consistent. exact Hb.
Qed.

Lemma step_badge_consistent (E : Env) (w w' : World) (c : Ctx) (call : Call)
    (effects : list Effect) :
  step E w c call = Ok (w', effects) ->
  badge_consistent (badge w) -> badge_consistent (badge w').
Proof.
  intros Hstep Hb.
  destruct call; simpl in Hstep; inv_ok; simpl; try exact Hb.
  - eapply mintBadge_consistent; eassumption.
  - eapply upgradeBadge_consistent; eassumption.
  - eapply recordTrade_consistent; eassumption.
  - eapply sync_consistent; eassumption.
  - (* rateBuyer *)
    apply rateBuyer_Ok in Ha. destruct Ha as (_ & _ & _ & _ & _ & Hrec).
    destruct (Escrow.buyerRating (Escrow.trades (escrow w)).[tradeId] =? 0).
    + destruct Hrec as [_ ->]. exact Hb.
    + eapply recordTrade_consistent; eassumption.
  - (* ccipReceive *)
    unfold Bridge.ccipReceive, Bridge._ccipReceive in Ha. inv_ok.
    destruct (messageType _); inv_ok; try exact Hb.
    match goal with H : Bridge._handleReputationSync _ _ _ _ _ _ _ = Ok _ |- _ =>
      unfold Bridge._handleReputationSync in H; inv_ok; eapply sync_consistent;
      [exact H | exact Hb] end.
Qed.

Lemma reachable_badge_consistent (E : Env) (w : World) :
  reachable E w -> badge_consistent (badge w).
Proof.
  induction 1 as [d|w c call w' effects _ IH Hstep].
  - unfold badge_consistent, held. simpl. split; [lia|].
    split; [intros id; rewrite sload_empty; intros Hnz; exfalso; apply Hnz; reflexivity|].
    split; [intros u t; rewrite sload_empty; intros Hnz; exfalso; apply Hnz; reflexivity|].
    split; [intros u; rewrite sload_empty; intros Hnz; exfalso; apply Hnz; reflexivity|].
    intros u. rewrite sload_empty. reflexivity.
  - eapply step_badge_consistent; eassumption.
Qed.

(** X19.  In every world reachable from a deployment the badge ledger hangs
    together.  Token ids run from 1 to the counter.  An owned token is its
    owner's badge for the tier in its metadata, and a user's badge for a
    tier is a token that user owns, with that tier in its metadata: no
    token serves two users or two tiers.  The highest-tier pointer names a
    tier the user holds and no held tier ranks above it.  A balance is the
    number of badges [getUserBadges] returns. *)
Theorem badges_stay_consistent (E : Env) (w : World) :
  reachable E w -> badge_consistent (badge w).
Proof. apply reachable_badge_consistent. Qed.

Lemma reachable_w_bronze : reachable E0 w_bronze.
Proof.
  unfold w_bronze. apply reachable_exec.
  unfold w_configured. apply reachable_run.
  apply reachable_deploy.
Qed.

Lemma badges_stay_consistent_witness : badge_consistent (badge w_bronze).
Proof. exact (badges_stay_consistent E0 w_bronze reachable_w_bronze). Defined.

(** ** Badges are permanent *)

Lemma badges_kept_refl (b : Badge.State) : badges_kept b b.
Proof. split; auto. Qed.

Lemma badges_kept_trans (b1 b2 b3 : Badge.State) :
  badges_kept b1 b2 -> badges_kept b2 b3 -> badges_kept b1 b3.
Proof.
  intros [Ho Hh] [Ho' Hh']. split.
  - intros id Hnz. destruct (Ho id Hnz) as [Hown Hmeta].
    assert (Hnz2 : (Badge._owners b2).[id] <> 0) by congruence.
    destruct (Ho' id Hnz2) as [Hown' Hmeta']. split; congruence.
  - intros u t Hnz. pose proof (Hh u t Hnz) as H12.
    assert (Hnz2 : held b2 u t <> 0) by congruence.
    rewrite (Hh' u t Hnz2). exact H12.
Qed.

Lemma mintBadge_kept (E : Env) (b b' : Badge.State) (c : Ctx) (to : Z)
    (tier : BadgeTier) (trades rating chain id : Z) :
  Badge.mintBadge E b c to tier trades rating chain = Ok (b', id) -> badges_kept b b'.
Proof.
  intros Hm. apply mintBadge_Ok in Hm.
  destruct Hm as (_ & _ & _ & Hfree & _ & _ & Hnew & _ & _ & Hmeta & Hub & _ & Hown' & _).
  split.
  - intros i Hnz. rewrite Hown', Hmeta.
    assert (Hne : id <> i) by (intros ->; contradiction).
    rewrite !sload_insert_ne by exact Hne. auto.
  - intros u t Hnz. unfold held at 1. rewrite (held_insert b _ to u tier t id Hub).
    destruct (bool_decide_reflect ((u, t) = (to, tier))) as [Heq|_]; [|reflexivity].
    inversion Heq. subst u t. contradiction.
Qed.

Lemma upgradeBadge_kept (E : Env) (b b' : Badge.State) (c : Ctx) (holder : Z)
    (tier : BadgeTier) (trades rating chain id : Z) :
  Badge.upgradeBadge E b c holder tier trades rating chain = Ok (b', id) -> badges_kept b b'.
Proof.
  unfold Badge.upgradeBadge. intros Hm. inv_ok. eapply mintBadge_kept. exact Hm.
Qed.

Lemma checkAndMintBadge_kept (E : Env) (e : Engine.State) (b : Badge.State) (c : Ctx)
    (user : Z) :
  badges_kept b (Engine._checkAndMintBadge E e b c user).
Proof.
  unfold Engine._checkAndMintBadge.
  destruct (tier_rank (Badge.userHighestTier b).[user] <? tier_rank _);
    [|apply badges_kept_refl].
  destruct (Badge.mintBadge E b _ user _ _ _ _) as [[b' id]|err] eqn:Hm;
    [|apply badges_kept_refl].
  eapply mintBadge_kept. exact Hm.
Qed.

Lemma recordTrade_kept (E : Env) (e e' : Engine.State) (b b' : Badge.State) (c : Ctx)
    (id seller buyer amt sr br : Z) :
  Engine.recordTrade E e b c id seller buyer amt sr br = Ok (e', b') -> badges_kept b b'.
Proof.
  unfold Engine.recordTrade. intros Hr. inv_ok.
  eapply badges_kept_trans; apply checkAndMintBadge_kept.
Qed.

Lemma sync_kept (E : Env) (e e' : Engine.State) (b b' : Badge.State) (c : Ctx)
    (user src t p n syncId : Z) :
  Engine.syncCrossChainReputation E e b c user src t p n syncId = Ok (e', b') ->
  badges_kept b b'.
Proof.
  unfold Engine.syncCrossChainReputation. intros Hs. inv_ok.
  destruct ((Engine.processedCrossChainUpdates e).[syncId]); inv_ok;
    [apply badges_kept_refl | apply checkAndMintBadge_kept].
Qed.

Lemma step_badges_kept (E : Env) (w w' : World) (c : Ctx) (call : Call)
    (effects : list Effect) :
  step E w c call = Ok (w', effects) -> badges_kept (badge w) (badge w').
Proof.
  intros Hstep.
  destruct call; simpl in Hstep; inv_ok; simpl; try apply badges_kept_refl.
  - exact (mintBadge_kept _ _ _ _ _ _ _ _ _ _ Ha).
  - exact (upgradeBadge_kept _ _ _ _ _ _ _ _ _ _ Ha).
  - exact (badges_kept_refl _).
  - exact (badges_kept_refl _).
  - exact (recordTrade_kept _ _ _ _ _ _ _ _ _ _ _ _ Ha).
  - exact (sync_kept _ _ _ _ _ _ _ _ _ _ _ _ Ha).
  - (* rateBuyer *)
    apply rateBuyer_Ok in Ha. destruct Ha as (_ & _ & _ & _ & _ & Hrec).
    destruct (Escrow.buyerRating (Escrow.trades (escrow w)).[tradeId] =? 0).
    + destruct Hrec as [_ ->]. apply badges_kept_refl.
    + exact (recordTrade_kept _ _ _ _ _ _ _ _ _ _ _ _ Hrec).
  - (* ccipReceive *)
    unfold Bridge.ccipReceive, Bridge._ccipReceive in Ha. inv_ok.
    destruct (messageType _); inv_ok; try apply badges_kept_refl.
    match goal with H : Bridge._handleReputationSync _ _ _ _ _ _ _ = Ok _ |- _ =>
      unfold Bridge._handleReputationSync in H; inv_ok; eapply sync_kept; exact H end.
Qed.

Lemma exec_badges_kept (E : Env) (w : World) (tx : Ctx * Call) :
  badges_kept (badge w) (badge (exec E w tx)).
Proof.
  unfold exec. destruct (step E w (fst tx) (snd tx)) as [[w' effects]|err] eqn:Hs; simpl;
    [|apply badges_kept_refl].
  eapply step_badges_kept. exact Hs.
Qed.

Lemma run_badges_kept (E : Env) (txs : list (Ctx * Call)) (w : World) :
  badges_kept (badge w) (badge (run E w txs)).
Proof.
  revert w. induction txs as [|tx txs IH]; intros w; [apply badges_kept_refl|].
  change (run E w (tx :: txs)) with (run E (exec E w tx) txs).
  eapply badges_kept_trans; [apply exec_badges_kept | apply IH].
Qed.

(** X20.  A badge, once minted, stays.  Over any sequence of transactions,
    calls of any of the four contracts included, a token that has an owner
    keeps that owner and its metadata, and stays its owner's badge for its
    tier: no mint, upgrade, trade or cross-chain update moves, burns or
    replaces it.  [upgradeBadge] in particular leaves the old badge with
    its holder. *)
Theorem badges_are_permanent (E : Env) (w : World) (txs : list (Ctx * Call))
    (u : address) (t : BadgeTier) :
  held (badge w) u t <> 0 ->
  (Badge._owners (badge w)).[held (badge w) u t] <> 0 ->
  held (badge (run E w txs)) u t = held (badge w) u t /\
  (Badge._owners (badge (run E w txs))).[held (badge w) u t]
  = (Badge._owners (badge w)).[held (badge w) u t] /\
  (Badge.badgeMetadata (badge (run E w txs))).[held (badge w) u t]
  = (Badge.badgeMetadata (badge w)).[held (badge w) u t].
Proof.
  intros Hheld Hown. destruct (run_badges_kept E txs w) as [Ho Hh].
  split; [apply Hh; exact Hheld|]. apply Ho. exact Hown.
Qed.

Lemma badges_are_permanent_witness :
  held (badge (run E0 w_bronze [(at_time admin 80, MintBadge carol Silver 25 450 31337)]))
       carol Bronze
  = held (badge w_bronze) carol Bronze /\
  (Badge._owners
     (badge (run E0 w_bronze [(at_time admin 80, MintBadge carol Silver 25 450 31337)]))).[
     held (badge w_bronze) carol Bronze]
  = (Badge._owners (badge w_bronze)).[held (badge w_bronze) carol Bronze] /\
  (Badge.badgeMetadata
     (badge (run E0 w_bronze [(at_time admin 80, MintBadge carol Silver 25 450 31337)]))).[
     held (badge w_bronze) carol Bronze]
  = (Badge.badgeMetadata (badge w_bronze)).[held (badge w_bronze) carol Bronze].
Proof.
  refine (badges_are_permanent E0 w_bronze
            [(at_time admin 80, MintBadge carol Silver 25 450 31337)] carol Bronze _ _).
  - vm_compute. discriminate.
  - vm_compute. discriminate.
Defined.

(** ** Minting on merit *)

Lemma mintBadge_succeeds (E : Env) (b : Badge.State) (c : Ctx) (to : Z) (tier : BadgeTier)
    (trades rating chain : Z) :
  AccessControl.hasRole (Badge.roles b) MINTER_ROLE (msg_sender c) = true ->
  to <> 0 -> tier <> TierNone -> held b to tier = 0 ->
  Badge._tokenIdCounter b < MAX_UINT256 ->
  (Badge._owners b).[Badge._tokenIdCounter b + 1] = 0 ->
  onERC721Received_ok E to = true ->
  exists b', Badge.mintBadge E b c to tier trades rating chain
             = Ok (b', Badge._tokenIdCounter b + 1).
Proof.
  intros Hrole Hto Htier Hfree Hroom Hnew Hrecv.
  unfold Badge.mintBadge, Badge._safeMint, Badge._update. simpl.
  rewrite (onlyRole_granted _ _ _ Hrole). simpl.
  apply Z.eqb_neq in Hto. rewrite Hto. simpl.
  rewrite bool_decide_eq_false_2 by exact Htier. simpl.
  unfold held in Hfree. rewrite Hfree. simpl.
  rewrite add256_fits by lia. simpl.
  rewrite Hnew. simpl. rewrite ?Hto. simpl. rewrite Hrecv. simpl.
  eexists. reflexivity.
Qed.

Lemma determineEligibleTier_highest (e : Engine.State) (trades rating : Z) (t : BadgeTier) :
  t <> TierNone ->
  Engine._meetsThreshold e t trades rating = true ->
  tier_rank t <= tier_rank (Engine._determineEligibleTier e trades rating).
Proof.
  intros Ht Hmeets. unfold Engine._determineEligibleTier.
  destruct (Engine._meetsThreshold e Diamond trades rating) eqn:H5;
    [destruct t; simpl; lia|].
  destruct (Engine._meetsThreshold e Platinum trades rating) eqn:H4;
    [destruct t; simpl; try lia; congruence|].
  destruct (Engine._meetsThreshold e Gold trades rating) eqn:H3;
    [destruct t; simpl; try lia; congruence|].
  destruct (Engine._meetsThreshold e Silver trades rating) eqn:H2;
    [destruct t; simpl; try lia; congruence|].
  destruct (Engine._meetsThreshold e Bronze trades rating) eqn:H1;
    [destruct t; simpl; try lia; congruence|].
  destruct t; congruence.
Qed.

(** X21.  [_checkAndMintBadge] awards what the user has earned.  On a
    consistent badge ledger, as every reachable world has, with the engine
    holding the badge contract's minter role, a user other than the zero
    address who accepts ERC-721 tokens, and the token counter below its
    maximum, the mint inside the [try] does not fail: after the check the
    user's highest tier ranks at least as high as every tier whose
    thresholds the user's successful trades and average rating meet. *)
Theorem checkAndMintBadge_awards_every_met_tier (E : Env) (e : Engine.State)
    (b : Badge.State) (c : Ctx) (user : address) (t : BadgeTier) :
  badge_consistent b ->
  AccessControl.hasRole (Badge.roles b) MINTER_ROLE (engine_address E) = true ->
  user <> 0 ->
  onERC721Received_ok E user = true ->
  Badge._tokenIdCounter b < MAX_UINT256 ->
  t <> TierNone ->
  Engine.meetsThreshold e user t = true ->
  tier_rank t <= tier_rank (highest (Engine._checkAndMintBadge E e b c user) user).
Proof.
  intros (Hc & Hown & Hheld & _) Hrole Huser Hrecv Hroom Ht Hmeets.
  unfold Engine.meetsThreshold in Hmeets.
  pose proof (determineEligibleTier_highest e _ _ t Ht Hmeets) as Hle.
  unfold Engine._checkAndMintBadge.
  set (elig := Engine._determineEligibleTier e _ _) in *.
  destruct (Z.ltb_spec (tier_rank (Badge.userHighestTier b).[user]) (tier_rank elig))
    as [Hlt|Hge]; [|unfold highest; lia].
  assert (Helig : elig <> TierNone).
  { intros Hn. rewrite Hn in Hlt. simpl in Hlt.
    pose proof (tier_rank_nonneg (Badge.userHighestTier b).[user]). lia. }
  assert (Hfree : held b user elig = 0).
  { destruct (Z.eq_dec (held b user elig) 0) as [H0|Hnz]; [exact H0|].
    destruct (Hheld user elig Hnz) as (_ & _ & _ & _ & Hr). lia. }
  assert (Hnew : (Badge._owners b).[Badge._tokenIdCounter b + 1] = 0).
  { destruct (Z.eq_dec (Badge._owners b).[Badge._tokenIdCounter b + 1] 0) as [H0|Hnz];
      [exact H0|].
    destruct (Hown _ Hnz) as [Hr _]. lia. }
  destruct (mintBadge_succeeds E b
              {| msg_sender := engine_address E; block_timestamp := block_timestamp c |}
              user elig
              (Engine.successfulTrades (Engine.userReputations e).[user])
              (Engine._calculateAverageRating e user) (Engine.chainId e)
              Hrole Huser Helig Hfree Hroom Hnew Hrecv) as [b' Hm].
  rewrite Hm. apply mintBadge_Ok in Hm.
  destruct Hm as (_ & _ & _ & _ & _ & _ & _ & _ & _ & _ & _ & Hht & _).
  unfold highest. rewrite Hht.
  rewrite (proj2 (Z.ltb_lt _ _) Hlt). rewrite sload_insert. exact Hle.
Qed.

(** X22.  [upgradeBadge] mints through an external call to the badge
    contract itself, so the inner [mintBadge] sees the badge contract as
    its caller.  Unless the badge contract holds its own minter role, a
    call by a minter for a tier above the holder's highest reverts with
    [AccessControlUnauthorizedAccount] naming the badge contract. *)
Theorem upgradeBadge_needs_self_minter (E : Env) (b : Badge.State) (c : Ctx)
    (holder : address) (newTier : BadgeTier) (trades rating : uint256) (chain : uint64) :
  AccessControl.hasRole (Badge.roles b) MINTER_ROLE (msg_sender c) = true ->
  tier_rank (Badge.userHighestTier b).[holder] < tier_rank newTier ->
  AccessControl.hasRole (Badge.roles b) MINTER_ROLE (badge_address E) = false ->
  Badge.upgradeBadge E b c holder newTier trades rating chain
  = Revert (AccessControlUnauthorizedAccount (badge_address E)).
Proof.
  intros Hrole Hup Hself. unfold Badge.upgradeBadge.
  rewrite (onlyRole_granted _ _ _ Hrole). simpl.
  rewrite (proj2 (Z.leb_gt _ _) Hup). simpl.
  unfold Badge.mintBadge.
  rewrite (onlyRole_denied (Badge.roles b) MINTER_ROLE
             {| msg_sender := badge_address E; block_timestamp := block_timestamp c |} Hself).
  reflexivity.
Qed.

Lemma reachable_w_configured : reachable E0 w_configured.
Proof. unfold w_configured. apply reachable_run. apply reachable_deploy. Qed.

Lemma checkAndMintBadge_awards_every_met_tier_witness :
  tier_rank Bronze
  <= tier_rank (highest (Engine._checkAndMintBadge E0 (engine w_bronze) (badge w_configured)
                                                   (at_time router 70) carol) carol).
Proof.
  refine (checkAndMintBadge_awards_every_met_tier E0 (engine w_bronze) (badge w_configured)
            (at_time router 70) carol Bronze _ _ _ _ _ _ _).
  - exact (reachable_badge_consistent E0 w_configured reachable_w_configured).
  - vm_compute. reflexivity.
  - vm_compute. discriminate.
  - vm_compute. reflexivity.
  - vm_compute. reflexivity.
  - discriminate.
  - vm_compute. reflexivity.
Defined.

Lemma upgradeBadge_needs_self_minter_witness :
  Badge.upgradeBadge E0 (badge w_configured) (at_time admin 5) carol Bronze 10 400 31337
  = Revert (AccessControlUnauthorizedAccount (badge_address E0)).
Proof.
  refine (upgradeBadge_needs_self_minter E0 (badge w_configured) (at_time admin 5) carol
            Bronze 10 400 31337 _ _ _).
  - vm_compute. reflexivity.
  - vm_compute. reflexivity.
  - vm_compute. reflexivity.
Defined.

(** ** Bridging assets *)

Lemma transferFrom_balances (tk tk' : Token.State) (token spender from to amt : Z) :
  Token.safeTransferFrom tk token spender from to amt = Ok tk' ->
  to <> 0 /\ amt <= (Token.balanceOf tk).[(token, from)] /\
  forall h : Z,
    (Token.balanceOf tk').[(token, h)]
    = (Token.balanceOf tk).[(token, h)] - indicator h from * amt + indicator h to * amt.
Proof.
  unfold Token.safeTransferFrom. intros Ht. inv_ok.
  match goal with H : Token._transfer ?t _ _ _ _ = Ok _ |- _ =>
    change (Token.safeTransfer t token from to amt = Ok tk') in H;
    apply transfer_balances in H; destruct H as (Hto & Hbal & _ & Hall) end.
  simpl in *. auto.
Qed.

Lemma indicator_refl (a : Z) : indicator a a = 1.
Proof. unfold indicator. rewrite Z.eqb_refl. reflexivity. Qed.

Lemma indicator_ne (a b : Z) : a <> b -> indicator a b = 0.
Proof. unfold indicator. intros Hne. destruct (Z.eqb_spec a b); [contradiction | reflexivity]. Qed.

(** X23.  What a successful [bridgeTokens] did.  The chain was active and
    the amount not zero.  The fee is [amount * bridgeFeeRate / 10000],
    rounded down; the sender paid in the amount, the fee recipient received
    the fee if it is positive, and one message went to the destination's
    bridge contract carrying the amount less the fee, which is also what
    the pending transfer stored under the router's message id records.
    The destination's liquidity counter went down by that net amount when
    the pool was asked for and covered it, and stayed otherwise.  With
    sender and fee recipient other than the bridge, the bridge's own
    balance grew by exactly the net amount.  Amount and fee rate are
    unsigned. *)
Theorem bridgeTokens_accounting (E : Env) (s s' : Bridge.State) (tk tk' : Token.State)
    (c : Ctx) (dest : uint64) (to : address) (amt : uint256) (usePool : bool)
    (router : Bridge.RouterReply) (id : bytes32) (effects : list Effect) :
  BridgeAssets.bridgeTokens E s tk c dest to amt usePool router = Ok (s', tk', id, effects) ->
  0 <= amt -> 0 <= Bridge.bridgeFeeRate s ->
  msg_sender c <> bridge_address E ->
  Bridge.feeRecipient s <> bridge_address E ->
  let config := (Bridge.chainConfigs s).[dest] in
  let fee := amt * Bridge.bridgeFeeRate s / 10000 in
  let net := amt - fee in
  let pool := (Bridge.liquidityPool s).[dest] in
  Bridge.isActive config = true /\ amt <> 0 /\ fee <= amt /\
  effects
  = TransferIn (Bridge.usdcToken s) (msg_sender c) amt
    :: (if 0 <? fee then [TransferOut (Bridge.usdcToken s) (Bridge.feeRecipient s) fee]
        else [])
    ++ [CcipSend dest (Bridge.bridgeContract config)
                 {| messageType := TokenTransfer; sender := msg_sender c; recipient := to;
                    amount := net; data := [] |}] /\
  id = Bridge.sentMessageId router /\
  (Bridge.pendingTransfers s') !! id
  = Some {| Bridge.pt_sender := msg_sender c; Bridge.pt_recipient := to;
            Bridge.pt_amount := net; Bridge.destinationChain := dest;
            Bridge.pt_timestamp := block_timestamp c; Bridge.isProcessed := false |} /\
  (Bridge.liquidityPool s').[dest]
  = (if usePool && (net <=? pool) then pool - net else pool) /\
  bridge_balance E s' tk' = bridge_balance E s tk + net.
Proof.
  unfold BridgeAssets.bridgeTokens. intros Hb Hamt Hrate Hsender Hsink. cbv zeta. inv_ok.
  unfold div256, BridgeAssets.BASIS_POINTS in Ha2. simpl in Ha2. inv_ok. guards.
  apply transferFrom_balances in Ha4. destruct Ha4 as (_ & _ & Hin).
  split; [assumption|]. split; [assumption|]. split; [lia|].
  set (fee := amt * Bridge.bridgeFeeRate s / 10000) in *.
  assert (Hfee0 : 0 <= fee) by (apply Z.div_pos; nia).
  assert (Hfee : l = (if 0 <? fee
                      then [TransferOut (Bridge.usdcToken s) (Bridge.feeRecipient s) fee]
                      else []) /\
                 (Token.balanceOf s0).[(Bridge.usdcToken s, bridge_address E)]
                 = (Token.balanceOf tk).[(Bridge.usdcToken s, bridge_address E)]
                   + (amt - fee)).
  { destruct (0 <? fee) eqn:Hpos; inv_ok.
    - apply transfer_balances in Ha2. destruct Ha2 as (_ & _ & _ & Hout).
      split; [reflexivity|]. rewrite Hout, Hin.
      rewrite !indicator_refl, !indicator_ne by congruence. lia.
    - split; [reflexivity|]. rewrite Hin.
      rewrite !indicator_refl, !indicator_ne by congruence. apply Z.ltb_ge in Hpos.
      lia. }
  destruct Hfee as [-> Hbal].
  unfold bridge_balance.
  destruct (usePool && (amt - fee <=? (Bridge.liquidityPool s).[dest])) eqn:Hfast.
  - unfold BridgeAssets._sendLiquidityPoolMessage, BridgeAssets._sendCCIPMessage in Ha6.
    inv_ok. simpl. rewrite lookup_insert_eq, sload_insert. repeat split; auto.
  - unfold BridgeAssets._sendCCIPMessage in Ha6.
    inv_ok. simpl. rewrite lookup_insert_eq. repeat split; auto.
Qed.

Lemma bridgeTokens_accounting_witness :
  bridged_effects
  = [TransferIn usdc alice 1000; TransferOut usdc admin 5;
     CcipSend other_chain peer_bridge
              {| messageType := TokenTransfer; sender := alice; recipient := carol;
                 amount := 995; data := [] |}] /\
  bridge_balance E0 bridged_state bridged_tokens
  = bridge_balance E0 (bridge w_bridge_approved) (tokens w_bridge_approved) + 995.
Proof.
  assert (Hb : BridgeAssets.bridgeTokens E0 (bridge w_bridge_approved)
                 (tokens w_bridge_approved) (at_time alice 100) other_chain carol 1000 false
                 reply0
               = Ok (bridged_state, bridged_tokens, 77, bridged_effects))
    by (vm_compute; reflexivity).
  assert (Hamt : 0 <= 1000) by lia.
  assert (Hrate : 0 <= Bridge.bridgeFeeRate (bridge w_bridge_approved))
    by (vm_compute; discriminate).
  assert (Hsender : msg_sender (at_time alice 100) <> bridge_address E0)
    by (vm_compute; discriminate).
  assert (Hsink : Bridge.feeRecipient (bridge w_bridge_approved) <> bridge_address E0)
    by (vm_compute; discriminate).
  pose proof (bridgeTokens_accounting E0 (bridge w_bridge_approved) bridged_state
                (tokens w_bridge_approved) bridged_tokens (at_time alice 100) other_chain
                carol 1000 false reply0 77 bridged_effects Hb Hamt Hrate Hsender Hsink)
    as (_ & _ & _ & Heff & _ & _ & _ & Hbal).
  split.
  - rewrite Heff. vm_compute. reflexivity.
  - rewrite Hbal. vm_compute. reflexivity.
Defined.

(** ** Liquidity *)

(** X24.  Liquidity added can be taken out again.  After a successful
    [addLiquidity], a [removeLiquidity] of the same amount for the same
    chain by an operator other than the zero address succeeds, pays the
    operator the amount and leaves the chain's liquidity counter where it
    was before the addition.  The counter and the bridge's balance are
    unsigned. *)
Theorem liquidity_round_trip (E : Env) (s s1 : Bridge.State) (tk tk1 : Token.State)
    (c c' : Ctx) (dest : uint64) (amt : uint256) (effects : list Effect) :
  BridgeAssets.addLiquidity E s tk c dest amt = Ok (s1, tk1, effects) ->
  0 <= (Bridge.liquidityPool s).[dest] ->
  0 <= bridge_balance E s tk ->
  AccessControl.hasRole (Bridge.roles s) OPERATOR_ROLE (msg_sender c') = true ->
  msg_sender c' <> 0 ->
  exists s2 tk2,
    BridgeAssets.removeLiquidity E s1 tk1 c' dest amt
    = Ok (s2, tk2, [TransferOut (Bridge.usdcToken s) (msg_sender c') amt]) /\
    (Bridge.liquidityPool s2).[dest] = (Bridge.liquidityPool s).[dest].
Proof.
  unfold BridgeAssets.addLiquidity, bridge_balance. intros Ha Hpool Hbal Hrole Hop.
  inv_ok.
  match goal with H : Token.safeTransferFrom _ _ _ _ _ _ = Ok _ |- _ =>
    apply transferFrom_balances in H; destruct H as (_ & Hfrom & Hin) end.
  unfold BridgeAssets.removeLiquidity. simpl.
  rewrite (onlyRole_granted _ _ _ Hrole). simpl. rewrite sload_insert.
  rewrite (proj2 (Z.ltb_ge _ _)) by lia. simpl.
  unfold sub256. rewrite (proj2 (Z.leb_le _ _)) by lia. simpl.
  destruct (transfer_succeeds tk1 (Bridge.usdcToken s) (bridge_address E) (msg_sender c') amt
              Hop) as [tk2 Hout].
  { rewrite Hin. rewrite indicator_refl. unfold indicator.
    destruct (Z.eqb_spec (bridge_address E) (msg_sender c)) as [Heq|_].
    - rewrite Heq in *. lia.
    - lia. }
  rewrite Hout. simpl. eexists. eexists. split; [reflexivity|]. simpl.
  rewrite sload_insert. lia.
Qed.

Lemma liquidity_round_trip_witness :
  exists s2 tk2,
    BridgeAssets.removeLiquidity E0 pooled_state pooled_tokens (at_time admin 200)
                                 other_chain 400
    = Ok (s2, tk2, [TransferOut (Bridge.usdcToken (bridge w_bridge_approved))
                                (msg_sender (at_time admin 200)) 400]) /\
    (Bridge.liquidityPool s2).[other_chain]
    = (Bridge.liquidityPool (bridge w_bridge_approved)).[other_chain].
Proof.
  assert (Ha : BridgeAssets.addLiquidity E0 (bridge w_bridge_approved)
                 (tokens w_bridge_approved) (at_time alice 100) other_chain 400
               = Ok (pooled_state, pooled_tokens, [TransferIn usdc alice 400]))
    by (vm_compute; reflexivity).
  refine (liquidity_round_trip E0 (bridge w_bridge_approved) pooled_state
            (tokens w_bridge_approved) pooled_tokens (at_time alice 100)
            (at_time admin 200) other_chain 400 [TransferIn usdc alice 400] Ha _ _ _ _).
  - vm_compute. discriminate.
  - vm_compute. discriminate.
  - vm_compute. reflexivity.
  - vm_compute. discriminate.
Defined.

(** ** Inbound messages *)

(** X25.  A delivered message is accepted only from the router, only once,
    and only when its sender decodes to the bridge contract configured for
    its source chain; the message id is marked processed.  Whether the
    source chain is active is not looked at: a message that was accepted
    is accepted in the same way, with the same assets moved and the same
    reputation and badges written, once its source chain has been
    deactivated. *)
Theorem inbound_messages_are_authenticated (E : Env) (s s' : Bridge.State)
    (tk tk' : Token.State) (en en' : Engine.State) (b b' : Badge.State) (c c0 : Ctx)
    (m : Bridge.Any2EVMMessage) (effects : list Effect) (s0 : Bridge.State) :
  Bridge.ccipReceive E s tk en b c m = Ok (s', tk', en', b', effects) ->
  Bridge.deactivateChain s c0 (Bridge.sourceChainSelector m) = Ok s0 ->
  msg_sender c = Bridge.i_ccipRouter s /\
  (Bridge.processedMessages s).[Bridge.messageId m] = false /\
  Bridge.any_sender m
  = Some (Bridge.bridgeContract (Bridge.chainConfigs s).[Bridge.sourceChainSelector m]) /\
  (Bridge.processedMessages s').[Bridge.messageId m] = true /\
  Bridge.isActive (Bridge.chainConfigs s0).[Bridge.sourceChainSelector m] = false /\
  exists s0',
    Bridge.ccipReceive E s0 tk en b c m = Ok (s0', tk', en', b', effects).
Proof.
  unfold Bridge.ccipReceive, Bridge._ccipReceive, Bridge.deactivateChain.
  intros Hr Hd. inv_ok. guards. simpl in *.
  destruct (Bridge.any_sender m) as [src|] eqn:Hsrc; simpl in *; inv_ok.
  destruct (Bridge.any_data m) as [msg|] eqn:Hdata; simpl in *; inv_ok.
  guards.
  split; [assumption|]. split; [assumption|]. split; [reflexivity|].
  rewrite !sload_insert. simpl. rewrite Ha0, Ha1, !Z.eqb_refl. simpl.
  destruct (messageType a4); simpl in *.
  - unfold Bridge._handleTokenTransfer in *. simpl in *.
    destruct (revert_if _ InsufficientLiquidity) as [[]|err]; simpl in *; [|discriminate].
    destruct (Token.safeTransfer tk _ _ _ _) as [tk1|err]; simpl in *; [|discriminate].
    inv_ok. simpl. rewrite sload_insert. repeat split; auto. eexists. reflexivity.
  - destruct (Bridge._handleReputationSync E en b c _ a4 _) as [[en1 b1]|err]; simpl in *;
      [|discriminate].
    inv_ok. simpl. rewrite sload_insert. repeat split; auto. eexists. reflexivity.
  - inv_ok. simpl. rewrite sload_insert. repeat split; auto. eexists. reflexivity.
Qed.

Lemma inbound_messages_are_authenticated_witness :
  Bridge.isActive (Bridge.chainConfigs (bridge w_deactivated)).[other_chain] = false /\
  exists s0',
    Bridge.ccipReceive E0 (bridge w_deactivated) (tokens w_configured) (engine w_configured)
                       (badge w_configured) (at_time router 70) inbound_bronze
    = Ok (s0', tokens w_bronze, engine w_bronze, badge w_bronze, []).
Proof.
  assert (Hr : Bridge.ccipReceive E0 (bridge w_configured) (tokens w_configured)
                 (engine w_configured) (badge w_configured) (at_time router 70)
                 inbound_bronze
               = Ok (bridge w_bronze, tokens w_bronze, engine w_bronze, badge w_bronze, []))
    by (vm_compute; reflexivity).
  assert (Hd : Bridge.deactivateChain (bridge w_configured) (at_time admin 60)
                 (Bridge.sourceChainSelector inbound_bronze)
               = Ok (bridge w_deactivated))
    by (vm_compute; reflexivity).
  pose proof (inbound_messages_are_authenticated E0 (bridge w_configured) (bridge w_bronze)
                (tokens w_configured) (tokens w_bronze) (engine w_configured)
                (engine w_bronze) (badge w_configured) (badge w_bronze) (at_time router 70)
                (at_time admin 60) inbound_bronze [] (bridge w_deactivated) Hr Hd)
    as (_ & _ & _ & _ & Hoff & Hstill).
  split; [exact Hoff | exact Hstill].
Defined.

(** ** The bridge's configuration *)

Lemma configureChain_configured (s s' : Bridge.State) (c : Ctx) (sel peer token : Z) :
  Bridge.configureChain s c sel peer token = Ok s' ->
  bridge_configured s -> bridge_configured s'.
Proof.
  unfold Bridge.configureChain. intros Hc (Hnd & Hact & Hrate). inv_ok.
  unfold bridge_configured. simpl. split; [|split; [|exact Hrate]].
  - destruct (existsb (fun x => x =? sel) (Bridge.supportedChains s)) eqn:Hex;
      [exact Hnd|].
    apply NoDup_app. split; [exact Hnd|]. split; [|apply NoDup_singleton].
    intros x Hx Hx'. apply list_elem_of_singleton in Hx'. subst x.
    assert (Hin : existsb (fun x => x =? sel) (Bridge.supportedChains s) = true).
    { apply existsb_exists. exists sel. split; [|apply Z.eqb_refl].
      apply list_elem_of_In. exact Hx. }
    congruence.
  - intros sel'. destruct (Z.eq_dec sel sel') as [<-|Hne].
    + rewrite sload_insert. simpl. intros _. split; [|reflexivity].
      destruct (existsb (fun x => x =? sel) (Bridge.supportedChains s)) eqn:Hex.
      * apply existsb_exists in Hex. destruct Hex as (x & Hx & Heq).
        apply Z.eqb_eq in Heq. subst x. exact Hx.
      * apply in_or_app. right. left. reflexivity.
    + rewrite sload_insert_ne by exact Hne. intros Hon.
      destruct (Hact sel' Hon) as [Hin Hsel]. split; [|exact Hsel].
      destruct (existsb (fun x => x =? sel) (Bridge.supportedChains s));
        [exact Hin | apply in_or_app; left; exact Hin].
Qed.

Lemma deactivateChain_configured (s s' : Bridge.State) (c : Ctx) (sel : Z) :
  Bridge.deactivateChain s c sel = Ok s' ->
  bridge_configured s -> bridge_configured s'.
Proof.
  unfold Bridge.deactivateChain. intros Hc (Hnd & Hact & Hrate). inv_ok.
  unfold bridge_configured. simpl. split; [exact Hnd|]. split; [|exact Hrate].
  intros sel'. destruct (Z.eq_dec sel sel') as [<-|Hne].
  - rewrite sload_insert. simpl. discriminate.
  - rewrite sload_insert_ne by exact Hne. apply Hact.
Qed.

Lemma bridge_configured_same (s s' : Bridge.State) :
  Bridge.supportedChains s' = Bridge.supportedChains s ->
  Bridge.chainConfigs s' = Bridge.chainConfigs s ->
  Bridge.bridgeFeeRate s' <= 500 ->
  bridge_configured s -> bridge_configured s'.
Proof.
  intros Hl Hc Hr (Hnd & Hact & _). unfold bridge_configured. rewrite Hl, Hc. auto.
Qed.

Lemma step_bridge_configured (E : Env) (w w' : World) (c : Ctx) (call : Call)
    (effects : list Effect) :
  step E w c call = Ok (w', effects) ->
  bridge_configured (bridge w) -> bridge_configured (bridge w').
Proof.
  intros Hstep Hb.
  destruct call; simpl in Hstep; inv_ok; simpl; try exact Hb.
  - eapply configureChain_configured; eassumption.
  - eapply deactivateChain_configured; eassumption.
  - unfold Bridge.ccipReceive, Bridge._ccipReceive in Ha. inv_ok.
    destruct (messageType _); inv_ok; exact Hb.
Qed.

Lemma bridge_step_configured (E : Env) (w w' : World) (c : Ctx) (call : BridgeCall)
    (effects : list Effect) :
  bridge_step E w c call = Ok (w', effects) ->
  bridge_configured (bridge w) -> bridge_configured (bridge w').
Proof.
  intros Hstep Hb. pose proof Hb as (_ & _ & Hrate).
  destruct call; simpl in Hstep; inv_ok; simpl.
  - unfold BridgeAssets.bridgeTokens in Ha. inv_ok.
    destruct (useLiquidityPool && _);
      [unfold BridgeAssets._sendLiquidityPoolMessage in *|];
      unfold BridgeAssets._sendCCIPMessage in *; inv_ok;
      (apply (bridge_configured_same (bridge w)); [reflexivity | reflexivity | exact Hrate | exact Hb]).
  - unfold BridgeAssets.addLiquidity in Ha. inv_ok.
    apply (bridge_configured_same (bridge w)); [reflexivity | reflexivity | exact Hrate | exact Hb].
  - unfold BridgeAssets.removeLiquidity in Ha. inv_ok.
    apply (bridge_configured_same (bridge w)); [reflexivity | reflexivity | exact Hrate | exact Hb].
  - unfold BridgeAssets.setBridgeFeeRate in Ha. inv_ok. guards.
    apply (bridge_configured_same (bridge w)); [reflexivity | reflexivity | simpl; lia | exact Hb].
  - unfold BridgeAssets.setFeeRecipient in Ha. inv_ok.
    apply (bridge_configured_same (bridge w)); [reflexivity | reflexivity | exact Hrate | exact Hb].
  - exact Hb.
  - exact Hb.
Qed.

(** X26.  In every world that transactions lead to from a deployment, the
    bridge's asset, fee and withdrawal calls included, the bridge's
    configuration hangs together: [supportedChains] lists no chain twice,
    every active chain is listed and stored under its own selector, and
    the fee rate is at most 500 basis points. *)
Theorem bridge_stays_configured (E : Env) (w : World) :
  reachable_with_bridging E w -> bridge_configured (bridge w).
Proof.
  induction 1 as [d|w c call w' effects _ IH Hstep|w c call w' effects _ IH Hstep].
  - unfold bridge_configured. simpl. split; [apply NoDup_nil_2|]. split; [|lia].
    intros sel. rewrite sload_empty. discriminate.
  - eapply step_bridge_configured; eassumption.
  - eapply bridge_step_configured; eassumption.
Qed.

Lemma reachable_with_bridging_of_reachable (E : Env) (w : World) :
  reachable E w -> reachable_with_bridging E w.
Proof.
  induction 1 as [d|w c call w' effects _ IH Hstep].
  - apply bridging_deploy.
  - eapply bridging_step; eassumption.
Qed.

Lemma bridge_stays_configured_witness : bridge_configured (bridge w_deactivated).
Proof.
  apply (bridge_stays_configured E0 w_deactivated).
  apply reachable_with_bridging_of_reachable.
  unfold w_deactivated. apply reachable_exec.
  unfold w_configured. apply reachable_run. apply reachable_deploy.
Defined.
